(** * Room styler front-end (index.tsx): image versions, undo/redo ledger, view state

    A shallow embedding of the module-level state of [index.tsx] and of the
    handlers that read and write it.  Module variables become fields of a
    state record, every handler becomes a function from state to state, and
    the registered DOM listeners become one [step] function over events.

    Conventions.
    - JavaScript numbers are modelled by rationals ([Q]).  The zoom level
      only ever takes the values 1, 1.25, ..., 3 ([reachable_zoom_grid]),
      all of which are exact binary fractions, so the rational arithmetic
      coincides with the double arithmetic of the source on them.  The
      pan offset is computed by subtractions of pointer positions, which
      are exact on integers up to 2^53 ([Js.exactInt]); number literals
      that are not binary fractions ([0.33], [0.66]) are the rationals
      their doubles are.
    - [string | null] variables are [option string]; a JavaScript truthiness
      test on them is [truthy] (null and the empty string are falsy).
    - The DOM is an output sink.  The fields kept are the ones handlers of
      the core read back or that carry user-visible results: image sources,
      the response and toast texts, the prompt value, the [disabled] flags
      of the controls and the visibility of the panels.  Pure styling
      writes (CSS classes [loading], [zoomed], [selected], cursor styles,
      button labels, the transform string, the rotating loading text) are
      not represented. *)

From Stdlib Require Import ZArith QArith Qminmax List String Ascii Bool Lia.
Import ListNotations.

Local Open Scope Z_scope.

(** ** JavaScript primitives used by the source *)

Module Js.

(** [!!v] for a [string | null] value. *)
Definition truthy (v : option string) : bool :=
  match v with
  | Some EmptyString => false
  | Some _ => true
  | None => false
  end.

(** [!!s] for a string. *)
Definition nonempty (s : string) : bool :=
  match s with
  | EmptyString => false
  | _ => true
  end.

Section Arrays.
Context {A : Type}.

(** [arr.length] *)
Definition length (arr : list A) : Z := Z.of_nat (List.length arr).

(** [arr.splice(start)] with no delete count: every element from the
    (relative) start index on is removed; the result is what is left in
    the array.  A negative [start] counts from the end and is clamped
    at 0, a [start] beyond the end is clamped at the length. *)
Definition splice_from (start : Z) (arr : list A) : list A :=
  let len := length arr in
  let actual :=
    if start <? 0 then Z.max (len + start) 0 else Z.min start len in
  firstn (Z.to_nat actual) arr.

(** [arr.push(x)] *)
Definition push (arr : list A) (x : A) : list A := arr ++ [x].

(** [arr.shift()]: the array without its first element. *)
Definition shift (arr : list A) : list A := tl arr.

(** [arr[i]] for an integer [i]: [undefined] (here [None]) outside
    [0 .. length-1]. *)
Definition index (arr : list A) (i : Z) : option A :=
  if i <? 0 then None else nth_error arr (Z.to_nat i).
End Arrays.

(** [x < y] and [x > y] on numbers. *)
Definition ltb (x y : Q) : bool := negb (Qle_bool y x).
Definition gtb (x y : Q) : bool := ltb y x.

(** The integers every double arithmetic is exact on: an integer of
    magnitude at most 2^53 is a double, and the sum or difference of two
    of them, when it is such an integer again, is computed without
    rounding. *)
Definition exactInt (n : Z) : Prop := Z.abs n <= 2 ^ 53.

End Js.

(** ** State *)

(** [interface HistoryState] *)
Record HistoryState := {
  imageBase64 : string;
  mimeType : string }.

(** The three image slots (six module variables). *)
Record Slots := {
  currentImageBase64 : option string;
  currentMimeType : option string;
  originalImageBase64 : option string;
  originalMimeType : option string;
  lastStyledImageBase64 : option string;
  lastStyledMimeType : option string }.

(** [history] and [historyIndex]. *)
Record Ledger := {
  history : list HistoryState;
  historyIndex : Z }.

Definition MAX_HISTORY : Z := 20.

(** Zoom and pan variables. *)
Record Zoom := {
  zoomLevel : Q;
  isDragging : bool;
  dragStartX : Q;
  dragStartY : Q;
  translateX : Q;
  translateY : Q }.

(** Before/after comparison variables ([isSliderDragging] is declared next
    to the slider listeners). *)
Record Comparison := {
  isComparisonMode : bool;
  sliderPosition : Q;
  isSliderDragging : bool }.

(** [src] attributes of the three image elements. *)
Record Images := {
  roomImage_src : string;
  beforeImage_src : string;
  afterImage_src : string }.

(** Text content of the message areas and the prompt field. *)
Record Texts := {
  responseText : string;
  toastMessage : string;
  promptInput_value : string }.

(** [disabled] flags written by [setLoading]. *)
Record LoadingControls := {
  styleButton_disabled : bool;
  videoButton_disabled : bool;
  promptInput_disabled : bool;
  loadingOverlay_hidden : bool }.

(** [disabled] flags written by [updateHistoryButtons]. *)
Record HistoryButtons := {
  undoButton_disabled : bool;
  redoButton_disabled : bool }.

(** [disabled] flags written by [updateActionButtons]. *)
Record ActionButtons := {
  downloadButton_disabled : bool;
  shareButton_disabled : bool;
  copyButton_disabled : bool;
  estimateCostButton_disabled : bool;
  toggleComparisonBtn_disabled : bool;
  zoomInButton_disabled : bool;
  zoomOutButton_disabled : bool;
  zoomResetButton_disabled : bool }.

(** Visibility of panels and of the main image ([hidden] class, or
    [display: none] for the room image). *)
Record Panels := {
  videoControls_hidden : bool;
  videoContainer_hidden : bool;
  beforeAfterContainer_hidden : bool;
  roomImage_hidden : bool;
  aiSuggestionsPanel_hidden : bool;
  costPanel_hidden : bool;
  placementMarker_hidden : bool }.

Record State := {
  slots : Slots;
  clickPosition : option (Q * Q);
  ledger : Ledger;
  zoom : Zoom;
  comparison : Comparison;
  images : Images;
  texts : Texts;
  loadingControls : LoadingControls;
  historyButtons : HistoryButtons;
  actionButtons : ActionButtons;
  panels : Panels }.

(** Field updates on [State]. *)
Definition with_slots (v : Slots) (s : State) : State :=
  {| slots := v; clickPosition := clickPosition s; ledger := ledger s;
     zoom := zoom s; comparison := comparison s; images := images s;
     texts := texts s; loadingControls := loadingControls s;
     historyButtons := historyButtons s; actionButtons := actionButtons s;
     panels := panels s |}.

Definition with_clickPosition (v : option (Q * Q)) (s : State) : State :=
  {| slots := slots s; clickPosition := v; ledger := ledger s;
     zoom := zoom s; comparison := comparison s; images := images s;
     texts := texts s; loadingControls := loadingControls s;
     historyButtons := historyButtons s; actionButtons := actionButtons s;
     panels := panels s |}.

Definition with_ledger (v : Ledger) (s : State) : State :=
  {| slots := slots s; clickPosition := clickPosition s; ledger := v;
     zoom := zoom s; comparison := comparison s; images := images s;
     texts := texts s; loadingControls := loadingControls s;
     historyButtons := historyButtons s; actionButtons := actionButtons s;
     panels := panels s |}.

Definition with_zoom (v : Zoom) (s : State) : State :=
  {| slots := slots s; clickPosition := clickPosition s; ledger := ledger s;
     zoom := v; comparison := comparison s; images := images s;
     texts := texts s; loadingControls := loadingControls s;
     historyButtons := historyButtons s; actionButtons := actionButtons s;
     panels := panels s |}.

Definition with_comparison (v : Comparison) (s : State) : State :=
  {| slots := slots s; clickPosition := clickPosition s; ledger := ledger s;
     zoom := zoom s; comparison := v; images := images s;
     texts := texts s; loadingControls := loadingControls s;
     historyButtons := historyButtons s; actionButtons := actionButtons s;
     panels := panels s |}.

Definition with_images (v : Images) (s : State) : State :=
  {| slots := slots s; clickPosition := clickPosition s; ledger := ledger s;
     zoom := zoom s; comparison := comparison s; images := v;
     texts := texts s; loadingControls := loadingControls s;
     historyButtons := historyButtons s; actionButtons := actionButtons s;
     panels := panels s |}.

Definition with_texts (v : Texts) (s : State) : State :=
  {| slots := slots s; clickPosition := clickPosition s; ledger := ledger s;
     zoom := zoom s; comparison := comparison s; images := images s;
     texts := v; loadingControls := loadingControls s;
     historyButtons := historyButtons s; actionButtons := actionButtons s;
     panels := panels s |}.

Definition with_loadingControls (v : LoadingControls) (s : State) : State :=
  {| slots := slots s; clickPosition := clickPosition s; ledger := ledger s;
     zoom := zoom s; comparison := comparison s; images := images s;
     texts := texts s; loadingControls := v;
     historyButtons := historyButtons s; actionButtons := actionButtons s;
     panels := panels s |}.

Definition with_historyButtons (v : HistoryButtons) (s : State) : State :=
  {| slots := slots s; clickPosition := clickPosition s; ledger := ledger s;
     zoom := zoom s; comparison := comparison s; images := images s;
     texts := texts s; loadingControls := loadingControls s;
     historyButtons := v; actionButtons := actionButtons s;
     panels := panels s |}.

Definition with_actionButtons (v : ActionButtons) (s : State) : State :=
  {| slots := slots s; clickPosition := clickPosition s; ledger := ledger s;
     zoom := zoom s; comparison := comparison s; images := images s;
     texts := texts s; loadingControls := loadingControls s;
     historyButtons := historyButtons s; actionButtons := v;
     panels := panels s |}.

Definition with_panels (v : Panels) (s : State) : State :=
  {| slots := slots s; clickPosition := clickPosition s; ledger := ledger s;
     zoom := zoom s; comparison := comparison s; images := images s;
     texts := texts s; loadingControls := loadingControls s;
     historyButtons := historyButtons s; actionButtons := actionButtons s;
     panels := v |}.

(** Shorthands for the variables read most often. *)
Definition cursor (s : State) : Z := historyIndex (ledger s).
Definition entries (s : State) : list HistoryState := history (ledger s).

(** Assignments to single variables or DOM properties. *)
Definition set_current (b m : option string) (s : State) : State :=
  with_slots
    {| currentImageBase64 := b; currentMimeType := m;
       originalImageBase64 := originalImageBase64 (slots s);
       originalMimeType := originalMimeType (slots s);
       lastStyledImageBase64 := lastStyledImageBase64 (slots s);
       lastStyledMimeType := lastStyledMimeType (slots s) |} s.

Definition set_original (b m : option string) (s : State) : State :=
  with_slots
    {| currentImageBase64 := currentImageBase64 (slots s);
       currentMimeType := currentMimeType (slots s);
       originalImageBase64 := b; originalMimeType := m;
       lastStyledImageBase64 := lastStyledImageBase64 (slots s);
       lastStyledMimeType := lastStyledMimeType (slots s) |} s.

Definition set_lastStyled (b m : option string) (s : State) : State :=
  with_slots
    {| currentImageBase64 := currentImageBase64 (slots s);
       currentMimeType := currentMimeType (slots s);
       originalImageBase64 := originalImageBase64 (slots s);
       originalMimeType := originalMimeType (slots s);
       lastStyledImageBase64 := b; lastStyledMimeType := m |} s.

Definition set_historyIndex (i : Z) (s : State) : State :=
  with_ledger {| history := entries s; historyIndex := i |} s.

Definition set_history (h : list HistoryState) (s : State) : State :=
  with_ledger {| history := h; historyIndex := cursor s |} s.

Definition set_responseText (msg : string) (s : State) : State :=
  with_texts
    {| responseText := msg; toastMessage := toastMessage (texts s);
       promptInput_value := promptInput_value (texts s) |} s.

Definition set_promptInput_value (v : string) (s : State) : State :=
  with_texts
    {| responseText := responseText (texts s);
       toastMessage := toastMessage (texts s);
       promptInput_value := v |} s.

Definition set_videoButton_disabled (b : bool) (s : State) : State :=
  with_loadingControls
    {| styleButton_disabled := styleButton_disabled (loadingControls s);
       videoButton_disabled := b;
       promptInput_disabled := promptInput_disabled (loadingControls s);
       loadingOverlay_hidden := loadingOverlay_hidden (loadingControls s) |} s.

(** ** Helper functions of the source *)

Section Handlers.

Local Open Scope string_scope.
Local Open Scope Z_scope.

(** [`data:${mimeType};base64,${base64}`] *)
Definition dataUrl (mime base64 : string) : string :=
  "data:" ++ mime ++ ";base64," ++ base64.

(** [setLoading(isLoading)]: the overlay and the three controls it
    locks. *)
Definition setLoading (isLoading : bool) (s : State) : State :=
  with_loadingControls
    {| styleButton_disabled := isLoading;
       videoButton_disabled :=
         isLoading || negb (Js.truthy (lastStyledImageBase64 (slots s)));
       promptInput_disabled := isLoading;
       loadingOverlay_hidden := negb isLoading |} s.

(** [updateRoomImage(base64, mimeType)] *)
Definition updateRoomImage (base64 mime : string) (s : State) : State :=
  with_images
    {| roomImage_src := dataUrl mime base64;
       beforeImage_src := beforeImage_src (images s);
       afterImage_src := afterImage_src (images s) |} s.

(** [showToast(message)]: the text of the toast (the timer that hides it
    again only removes a CSS class). *)
Definition showToast (message : string) (s : State) : State :=
  with_texts
    {| responseText := responseText (texts s);
       toastMessage := message;
       promptInput_value := promptInput_value (texts s) |} s.

(** [updateHistoryButtons()] *)
Definition updateHistoryButtons (s : State) : State :=
  with_historyButtons
    {| undoButton_disabled := cursor s <=? 0;
       redoButton_disabled := cursor s >=? Js.length (entries s) - 1 |} s.

(** [addToHistory(imageBase64, mimeType)] *)
Definition addToHistory (image mime : string) (s : State) : State :=
  (* Remove any states after current index *)
  let s :=
    if cursor s <? Js.length (entries s) - 1
    then set_history (Js.splice_from (cursor s + 1) (entries s)) s
    else s in
  (* Add new state *)
  let s :=
    set_history
      (Js.push (entries s) {| imageBase64 := image; mimeType := mime |}) s in
  (* Limit history size *)
  let s :=
    if Js.length (entries s) >? MAX_HISTORY
    then set_history (Js.shift (entries s)) s
    else set_historyIndex (cursor s + 1) s in
  updateHistoryButtons s.

(** [updateActionButtons()] *)
Definition updateActionButtons (s : State) : State :=
  let hasImage := Js.truthy (lastStyledImageBase64 (slots s)) in
  let hasCurrentImage := Js.truthy (currentImageBase64 (slots s)) in
  with_actionButtons
    {| downloadButton_disabled := negb hasImage;
       shareButton_disabled := negb hasImage;
       copyButton_disabled := negb hasImage;
       estimateCostButton_disabled := negb hasImage;
       toggleComparisonBtn_disabled := negb hasImage;
       zoomInButton_disabled := negb hasCurrentImage;
       zoomOutButton_disabled := negb hasCurrentImage;
       zoomResetButton_disabled := negb hasCurrentImage |} s.

(** The body shared by [handleUndo] and [handleRedo] once the cursor has
    moved: [const state = history[historyIndex]] and the assignments that
    follow.  When the index is outside the array, [state] is [undefined]
    and reading [state.imageBase64] throws: the handler stops there, with
    the cursor already moved and nothing else written. *)
Definition restoreAtCursor (toast : string) (s : State) : State :=
  match Js.index (entries s) (cursor s) with
  | None => s
  | Some state =>
      let s := set_current (Some (imageBase64 state))
                           (Some (mimeType state)) s in
      let s := set_lastStyled (Some (imageBase64 state))
                              (Some (mimeType state)) s in
      let s := updateRoomImage (imageBase64 state) (mimeType state) s in
      let s := updateHistoryButtons s in
      let s := updateActionButtons s in
      showToast toast s
  end.

(** [handleUndo()] *)
Definition handleUndo (s : State) : State :=
  if cursor s >? 0
  then restoreAtCursor "Undone" (set_historyIndex (cursor s - 1) s)
  else s.

(** [handleRedo()] *)
Definition handleRedo (s : State) : State :=
  if cursor s <? Js.length (entries s) - 1
  then restoreAtCursor "Redone" (set_historyIndex (cursor s + 1) s)
  else s.

(** [resetPlacementMarker()] *)
Definition resetPlacementMarker (s : State) : State :=
  let s := with_clickPosition None s in
  with_panels
    {| videoControls_hidden := videoControls_hidden (panels s);
       videoContainer_hidden := videoContainer_hidden (panels s);
       beforeAfterContainer_hidden := beforeAfterContainer_hidden (panels s);
       roomImage_hidden := roomImage_hidden (panels s);
       aiSuggestionsPanel_hidden := aiSuggestionsPanel_hidden (panels s);
       costPanel_hidden := costPanel_hidden (panels s);
       placementMarker_hidden := true |} s.

(** The number literals [0.33] and [0.66] of [getPlacementDescription]:
    the doubles they denote, 5944751508129055 / 2^54 and
    5944751508129055 / 2^53, which lie just above 33/100 and 66/100. *)
Definition lit_0_33 : Q := 5944751508129055 # 18014398509481984.
Definition lit_0_66 : Q := 5944751508129055 # 9007199254740992.

(** [getPlacementDescription(x, y)]: [x] and [y] are the doubles the
    click listener computed; comparing them with the two literals is
    comparing rationals. *)
Definition getPlacementDescription (x y : Q) : string :=
  let vertical :=
    if Js.ltb y lit_0_33 then "top"
    else if Js.gtb y lit_0_66 then "bottom" else "" in
  let horizontal :=
    if Js.ltb x lit_0_33 then "left"
    else if Js.gtb x lit_0_66 then "right" else "" in
  if negb (Js.nonempty vertical) && negb (Js.nonempty horizontal)
  then "in the center"
  else if negb (Js.nonempty vertical)
  then "on the " ++ horizontal ++ " side"
  else if negb (Js.nonempty horizontal)
  then "at the " ++ vertical
  else "in the " ++ vertical ++ " " ++ horizontal ++ " corner".

(** [setNewBaseImage(base64, mimeType)] *)
Definition setNewBaseImage (base64 mime : string) (s : State) : State :=
  let s := set_current (Some base64) (Some mime) s in
  (* Store the original image for before/after comparison *)
  let s := set_original (Some base64) (Some mime) s in
  let s := updateRoomImage base64 mime s in
  let s := resetPlacementMarker s in
  (* Reset styled image and hide/disable video controls *)
  let s := set_lastStyled None None s in
  let s :=
    with_panels
      {| videoControls_hidden := true;
         videoContainer_hidden := true;
         beforeAfterContainer_hidden :=
           beforeAfterContainer_hidden (panels s);
         roomImage_hidden := roomImage_hidden (panels s);
         aiSuggestionsPanel_hidden := aiSuggestionsPanel_hidden (panels s);
         costPanel_hidden := costPanel_hidden (panels s);
         placementMarker_hidden := placementMarker_hidden (panels s) |} s in
  let s := set_videoButton_disabled true s in
  (* Reset comparison mode *)
  let s :=
    if isComparisonMode (comparison s)
    then
      let s :=
        with_comparison
          {| isComparisonMode := false;
             sliderPosition := sliderPosition (comparison s);
             isSliderDragging := isSliderDragging (comparison s) |} s in
      with_panels
        {| videoControls_hidden := videoControls_hidden (panels s);
           videoContainer_hidden := videoContainer_hidden (panels s);
           beforeAfterContainer_hidden := true;
           roomImage_hidden := false;
           aiSuggestionsPanel_hidden := aiSuggestionsPanel_hidden (panels s);
           costPanel_hidden := costPanel_hidden (panels s);
           placementMarker_hidden := placementMarker_hidden (panels s) |} s
    else s in
  (* Update action buttons (enable zoom, disable cost) *)
  let s := updateActionButtons s in
  (* Hide panels *)
  with_panels
    {| videoControls_hidden := videoControls_hidden (panels s);
       videoContainer_hidden := videoContainer_hidden (panels s);
       beforeAfterContainer_hidden := beforeAfterContainer_hidden (panels s);
       roomImage_hidden := roomImage_hidden (panels s);
       aiSuggestionsPanel_hidden := true;
       costPanel_hidden := true;
       placementMarker_hidden := placementMarker_hidden (panels s) |} s.

(** *** Zoom and pan *)

Definition set_zoomLevel (z : Q) (s : State) : State :=
  with_zoom
    {| zoomLevel := z; isDragging := isDragging (zoom s);
       dragStartX := dragStartX (zoom s); dragStartY := dragStartY (zoom s);
       translateX := translateX (zoom s);
       translateY := translateY (zoom s) |} s.

Definition set_translate (x y : Q) (s : State) : State :=
  with_zoom
    {| zoomLevel := zoomLevel (zoom s); isDragging := isDragging (zoom s);
       dragStartX := dragStartX (zoom s); dragStartY := dragStartY (zoom s);
       translateX := x; translateY := y |} s.

(** [handleZoomIn()] *)
Definition handleZoomIn (s : State) : State :=
  if Js.ltb (zoomLevel (zoom s)) 3
  then set_zoomLevel (zoomLevel (zoom s) + (1 # 4))%Q s
  else s.

(** [handleZoomOut()] *)
Definition handleZoomOut (s : State) : State :=
  if Js.gtb (zoomLevel (zoom s)) 1
  then
    let s := set_zoomLevel (zoomLevel (zoom s) - (1 # 4))%Q s in
    if Qeq_bool (zoomLevel (zoom s)) 1
    then set_translate 0 0 s
    else s
  else s.

(** [handleZoomReset()] *)
Definition handleZoomReset (s : State) : State :=
  let s := set_zoomLevel 1 s in
  set_translate 0 0 s.

(** [handleDragStart(e)] with [e.clientX], [e.clientY]. The subtraction
    is the one of the rationals: it is the subtraction of the source as
    long as operands and result are integers that [Js.exactInt] admits
    (pointer positions and pan offsets in pixels are); beyond that the
    source rounds. *)
Definition handleDragStart (clientX clientY : Q) (s : State) : State :=
  if Js.gtb (zoomLevel (zoom s)) 1
  then
    with_zoom
      {| zoomLevel := zoomLevel (zoom s); isDragging := true;
         dragStartX := (clientX - translateX (zoom s))%Q;
         dragStartY := (clientY - translateY (zoom s))%Q;
         translateX := translateX (zoom s);
         translateY := translateY (zoom s) |} s
  else s.

(** [handleDragMove(e)], with the subtraction as in [handleDragStart]. *)
Definition handleDragMove (clientX clientY : Q) (s : State) : State :=
  if isDragging (zoom s) && Js.gtb (zoomLevel (zoom s)) 1
  then set_translate (clientX - dragStartX (zoom s))%Q
                     (clientY - dragStartY (zoom s))%Q s
  else s.

(** [handleDragEnd()] *)
Definition handleDragEnd (s : State) : State :=
  if isDragging (zoom s)
  then
    with_zoom
      {| zoomLevel := zoomLevel (zoom s); isDragging := false;
         dragStartX := dragStartX (zoom s);
         dragStartY := dragStartY (zoom s);
         translateX := translateX (zoom s);
         translateY := translateY (zoom s) |} s
  else s.

(** *** Before/after comparison *)

(** [toggleComparison()] *)
Definition toggleComparison (s : State) : State :=
  let s :=
    with_comparison
      {| isComparisonMode := negb (isComparisonMode (comparison s));
         sliderPosition := sliderPosition (comparison s);
         isSliderDragging := isSliderDragging (comparison s) |} s in
  if isComparisonMode (comparison s)
  then
    (* Show before/after comparison *)
    let s :=
      with_panels
        {| videoControls_hidden := videoControls_hidden (panels s);
           videoContainer_hidden := videoContainer_hidden (panels s);
           beforeAfterContainer_hidden := false;
           roomImage_hidden := true;
           aiSuggestionsPanel_hidden := aiSuggestionsPanel_hidden (panels s);
           costPanel_hidden := costPanel_hidden (panels s);
           placementMarker_hidden := placementMarker_hidden (panels s) |} s in
    (* Set images - use ORIGINAL image for before, not current *)
    let s :=
      match originalImageBase64 (slots s), originalMimeType (slots s) with
      | Some b, Some m =>
          if Js.nonempty b && Js.nonempty m
          then with_images
                 {| roomImage_src := roomImage_src (images s);
                    beforeImage_src := dataUrl m b;
                    afterImage_src := afterImage_src (images s) |} s
          else s
      | _, _ => s
      end in
    match lastStyledImageBase64 (slots s), lastStyledMimeType (slots s) with
    | Some b, Some m =>
        if Js.nonempty b && Js.nonempty m
        then with_images
               {| roomImage_src := roomImage_src (images s);
                  beforeImage_src := beforeImage_src (images s);
                  afterImage_src := dataUrl m b |} s
        else s
    | _, _ => s
    end
  else
    (* Show result only *)
    with_panels
      {| videoControls_hidden := videoControls_hidden (panels s);
         videoContainer_hidden := videoContainer_hidden (panels s);
         beforeAfterContainer_hidden := true;
         roomImage_hidden := false;
         aiSuggestionsPanel_hidden := aiSuggestionsPanel_hidden (panels s);
         costPanel_hidden := costPanel_hidden (panels s);
         placementMarker_hidden := placementMarker_hidden (panels s) |} s.

End Handlers.

(** ** The styling request *)

(** What the remote styling call hands back.  A part of the response
    carries a text, an inline image, or neither. *)
Record InlineData := {
  data : string;
  inline_mimeType : string }.

Record Part := {
  text : option string;
  inlineData : option InlineData }.

(** Outcome of [await ai.models.generateContent(...)] followed by the read
    of [response.candidates[0].content.parts]: the list of parts, or an
    exception (rejected call, or a response without candidates) with its
    message. *)
Inductive ApiResult :=
| ApiParts (parts : list Part)
| ApiError (message : string).

(** The request sent with the call. *)
Record StyleRequest := {
  req_data : string;
  req_mimeType : string;
  req_prompt : string }.

Definition SOFT_FAILURE : string :=
  "The model did not return an image. Please try a different prompt.".

Section Styling.

Local Open Scope string_scope.
Local Open Scope Z_scope.

(** [String.prototype.trim] of the host. *)
Variable trim : string -> string.

(** [handleStyleRoom()] up to its [await]: the two input checks, the
    prompt with the placement text, the loading state.  Returns the
    request when one is sent. *)
Definition handleStyleRoom_begin (s : State) : State * option StyleRequest :=
  match currentImageBase64 (slots s), currentMimeType (slots s) with
  | Some image, Some mime =>
      if negb (Js.nonempty image) || negb (Js.nonempty mime)
      then
        (set_responseText "Please choose or upload a room image first." s,
         None)
      else
        let prompt := trim (promptInput_value (texts s)) in
        if negb (Js.nonempty prompt)
        then
          (set_responseText
             "Please describe what you want to add to the room." s,
           None)
        else
          (* Add placement info if available *)
          let prompt :=
            match clickPosition s with
            | Some (x, y) => prompt ++ " " ++ getPlacementDescription x y
            | None => prompt
            end in
          let s := setLoading true s in
          let s := set_responseText "" s in
          let s := resetPlacementMarker s in
          (s, Some {| req_data := image; req_mimeType := mime;
                      req_prompt := prompt |})
  | _, _ =>
      (set_responseText "Please choose or upload a room image first." s,
       None)
  end.

(** The [else if (part.inlineData)] branch of the loop. *)
Definition applyInlineData (img : InlineData) (s : State) : State :=
  (* Update current image to show the styled result *)
  let s := set_current (Some (data img)) (Some (inline_mimeType img)) s in
  let s := updateRoomImage (data img) (inline_mimeType img) s in
  (* Store the styled image separately for comparison and undo/redo *)
  let s := set_lastStyled (Some (data img)) (Some (inline_mimeType img)) s in
  (* Add to history for undo/redo *)
  let s := addToHistory (data img) (inline_mimeType img) s in
  (* Update action buttons *)
  let s := updateActionButtons s in
  let s :=
    with_panels
      {| videoControls_hidden := false;
         videoContainer_hidden := videoContainer_hidden (panels s);
         beforeAfterContainer_hidden :=
           beforeAfterContainer_hidden (panels s);
         roomImage_hidden := roomImage_hidden (panels s);
         aiSuggestionsPanel_hidden := aiSuggestionsPanel_hidden (panels s);
         costPanel_hidden := costPanel_hidden (panels s);
         placementMarker_hidden := placementMarker_hidden (panels s) |} s in
  let s := set_videoButton_disabled false s in
  showToast "Room styled successfully!" s.

(** One iteration of the loop over the parts of the response; the
    boolean is [foundImage]. *)
Definition stylePart (acc : State * bool) (part : Part) : State * bool :=
  let (s, foundImage) := acc in
  match text part, inlineData part with
  | Some (String c t), _ => (set_responseText (String c t) s, foundImage)
  | _, Some img => (applyInlineData img s, true)
  | _, None => (s, foundImage)
  end.

(** [handleStyleRoom()] from the [await] on: the loop, the soft-failure
    message, the [catch] and the [finally]. *)
Definition handleStyleRoom_settle (r : ApiResult) (s : State) : State :=
  let s :=
    match r with
    | ApiParts parts =>
        let (s, foundImage) := fold_left stylePart parts (s, false) in
        if negb foundImage then set_responseText SOFT_FAILURE s else s
    | ApiError message =>
        set_responseText ("An error occurred: " ++ message) s
    end in
  setLoading false s.

(** [handleStyleRoom()] when nothing else runs between the call and its
    answer. *)
Definition handleStyleRoom (r : ApiResult) (s : State) : State :=
  match handleStyleRoom_begin s with
  | (s, Some _) => handleStyleRoom_settle r s
  | (s, None) => s
  end.

(** ** Events *)

(** The application: the state and the number of styling calls that have
    been sent and not yet answered. *)
Record App := {
  st : State;
  inflight : nat }.

(** Writes of the handlers outside the core (video tour, suggestions,
    cost estimation, download, share, copy, typing and presets, failure
    paths of upload and sample loading): they touch the message areas,
    the prompt, the loading state, the estimate-cost button and three
    panels, nothing else of the state. *)
Inductive Peripheral :=
| WriteResponseText (msg : string)
| WriteToast (msg : string)
| WritePromptValue (v : string)
| WriteLoading (isLoading : bool)
| WriteEstimateCostDisabled (b : bool)
| WriteVideoContainerHidden (b : bool)
| WriteSuggestionsHidden (b : bool)
| WriteCostPanelHidden (b : bool).

Definition peripheral (w : Peripheral) (s : State) : State :=
  match w with
  | WriteResponseText msg => set_responseText msg s
  | WriteToast msg => showToast msg s
  | WritePromptValue v => set_promptInput_value v s
  | WriteLoading b => setLoading b s
  | WriteEstimateCostDisabled b =>
      with_actionButtons
        {| downloadButton_disabled := downloadButton_disabled (actionButtons s);
           shareButton_disabled := shareButton_disabled (actionButtons s);
           copyButton_disabled := copyButton_disabled (actionButtons s);
           estimateCostButton_disabled := b;
           toggleComparisonBtn_disabled :=
             toggleComparisonBtn_disabled (actionButtons s);
           zoomInButton_disabled := zoomInButton_disabled (actionButtons s);
           zoomOutButton_disabled := zoomOutButton_disabled (actionButtons s);
           zoomResetButton_disabled :=
             zoomResetButton_disabled (actionButtons s) |} s
  | WriteVideoContainerHidden b =>
      with_panels
        {| videoControls_hidden := videoControls_hidden (panels s);
           videoContainer_hidden := b;
           beforeAfterContainer_hidden :=
             beforeAfterContainer_hidden (panels s);
           roomImage_hidden := roomImage_hidden (panels s);
           aiSuggestionsPanel_hidden := aiSuggestionsPanel_hidden (panels s);
           costPanel_hidden := costPanel_hidden (panels s);
           placementMarker_hidden := placementMarker_hidden (panels s) |} s
  | WriteSuggestionsHidden b =>
      with_panels
        {| videoControls_hidden := videoControls_hidden (panels s);
           videoContainer_hidden := videoContainer_hidden (panels s);
           beforeAfterContainer_hidden :=
             beforeAfterContainer_hidden (panels s);
           roomImage_hidden := roomImage_hidden (panels s);
           aiSuggestionsPanel_hidden := b;
           costPanel_hidden := costPanel_hidden (panels s);
           placementMarker_hidden := placementMarker_hidden (panels s) |} s
  | WriteCostPanelHidden b =>
      with_panels
        {| videoControls_hidden := videoControls_hidden (panels s);
           videoContainer_hidden := videoContainer_hidden (panels s);
           beforeAfterContainer_hidden :=
             beforeAfterContainer_hidden (panels s);
           roomImage_hidden := roomImage_hidden (panels s);
           aiSuggestionsPanel_hidden := aiSuggestionsPanel_hidden (panels s);
           costPanel_hidden := b;
           placementMarker_hidden := placementMarker_hidden (panels s) |} s
  end.

(** What can happen to the page.  A click on a control reaches its
    listener only while the control is not disabled; the keyboard
    shortcuts call [handleUndo] and [handleRedo] directly. *)
Inductive Event :=
| ImageLoaded (base64 mime : string)
    (* upload, sample pick or initial sample, once the file is read *)
| ContainerClick (x y : Q)
    (* click on the image container, in fractions of its size *)
| UndoClick | RedoClick | UndoKey | RedoKey
| ZoomInClick | ZoomOutClick | ZoomResetClick
| ContainerMouseDown (clientX clientY : Q)
| ContainerMouseMove (clientX clientY : Q)
| ContainerMouseUp (* also mouseleave *)
| ToggleComparisonClick
| SliderMouseDown
| DocumentMouseMove (percent : Q)
    (* [(x / containerRect.width) * 100] of the pointer *)
| DocumentMouseUp
| StyleClick
| StyleSettled (r : ApiResult)
| Other (w : Peripheral).

Definition on_state (f : State -> State) (a : App) : App :=
  {| st := f (st a); inflight := inflight a |}.

Definition step (a : App) (e : Event) : App :=
  let s := st a in
  match e with
  | ImageLoaded base64 mime =>
      on_state (fun s => setLoading false (setNewBaseImage base64 mime s)) a
  | ContainerClick x y =>
      on_state
        (fun s =>
           let s := with_clickPosition (Some (x, y)) s in
           with_panels
             {| videoControls_hidden := videoControls_hidden (panels s);
                videoContainer_hidden := videoContainer_hidden (panels s);
                beforeAfterContainer_hidden :=
                  beforeAfterContainer_hidden (panels s);
                roomImage_hidden := roomImage_hidden (panels s);
                aiSuggestionsPanel_hidden :=
                  aiSuggestionsPanel_hidden (panels s);
                costPanel_hidden := costPanel_hidden (panels s);
                placementMarker_hidden := false |} s) a
  | UndoClick =>
      if undoButton_disabled (historyButtons s) then a
      else on_state handleUndo a
  | RedoClick =>
      if redoButton_disabled (historyButtons s) then a
      else on_state handleRedo a
  | UndoKey => on_state handleUndo a
  | RedoKey => on_state handleRedo a
  | ZoomInClick =>
      if zoomInButton_disabled (actionButtons s) then a
      else on_state handleZoomIn a
  | ZoomOutClick =>
      if zoomOutButton_disabled (actionButtons s) then a
      else on_state handleZoomOut a
  | ZoomResetClick =>
      if zoomResetButton_disabled (actionButtons s) then a
      else on_state handleZoomReset a
  | ContainerMouseDown x y => on_state (handleDragStart x y) a
  | ContainerMouseMove x y => on_state (handleDragMove x y) a
  | ContainerMouseUp => on_state handleDragEnd a
  | ToggleComparisonClick =>
      if toggleComparisonBtn_disabled (actionButtons s) then a
      else on_state toggleComparison a
  | SliderMouseDown =>
      on_state
        (fun s =>
           with_comparison
             {| isComparisonMode := isComparisonMode (comparison s);
                sliderPosition := sliderPosition (comparison s);
                isSliderDragging := true |} s) a
  | DocumentMouseMove percent =>
      if isSliderDragging (comparison s) && isComparisonMode (comparison s)
      then
        on_state
          (fun s =>
             with_comparison
               {| isComparisonMode := isComparisonMode (comparison s);
                  sliderPosition := Qmax 0 (Qmin 100 percent);
                  isSliderDragging := isSliderDragging (comparison s) |} s) a
      else a
  | DocumentMouseUp =>
      on_state
        (fun s =>
           with_comparison
             {| isComparisonMode := isComparisonMode (comparison s);
                sliderPosition := sliderPosition (comparison s);
                isSliderDragging := false |} s) a
  | StyleClick =>
      if styleButton_disabled (loadingControls s) then a
      else
        match handleStyleRoom_begin s with
        | (s', Some _) => {| st := s'; inflight := S (inflight a) |}
        | (s', None) => {| st := s'; inflight := inflight a |}
        end
  | StyleSettled r =>
      match inflight a with
      | O => a
      | S n => {| st := handleStyleRoom_settle r s; inflight := n |}
      end
  | Other w => on_state (peripheral w) a
  end.

Definition run (a : App) (evs : list Event) : App := fold_left step evs a.

End Styling.

(** The page as loaded: the module variables have their initial values,
    the DOM is what the HTML document declares ([page] supplies it; the
    variable fields of [page] are ignored). *)
Definition initialState (page : State) : State :=
  {| slots :=
       {| currentImageBase64 := None; currentMimeType := None;
          originalImageBase64 := None; originalMimeType := None;
          lastStyledImageBase64 := None; lastStyledMimeType := None |};
     clickPosition := None;
     ledger := {| history := []; historyIndex := -1 |};
     zoom := {| zoomLevel := 1; isDragging := false;
                dragStartX := 0; dragStartY := 0;
                translateX := 0; translateY := 0 |};
     comparison := {| isComparisonMode := false; sliderPosition := 50;
                      isSliderDragging := false |};
     images := images page;
     texts := texts page;
     loadingControls := loadingControls page;
     historyButtons := historyButtons page;
     actionButtons := actionButtons page;
     panels := panels page |}.

Definition initialApp (page : State) : App :=
  {| st := initialState page; inflight := 0 |}.

(** States the page can be in. *)
Definition reachable (trim : string -> string) (s : State) : Prop :=
  exists page evs, s = st (run trim (initialApp page) evs).

(** ** Predicates and sample data *)

(** The ledger invariant of the data model: the cursor is a valid index,
    or -1 on an empty sequence, and at most [MAX_HISTORY] entries are
    kept. *)
Definition ledger_wf (s : State) : Prop :=
  ((entries s = [] /\ cursor s = -1) \/
   (0 <= cursor s < Js.length (entries s))) /\
  Js.length (entries s) <= MAX_HISTORY.

(** The displayed image is the snapshot under the cursor. *)
Definition current_at_cursor (s : State) : Prop :=
  exists e,
    Js.index (entries s) (cursor s) = Some e /\
    currentImageBase64 (slots s) = Some (imageBase64 e) /\
    currentMimeType (slots s) = Some (mimeType e).

(** The zoom level sits on the quarter grid between 1 and 3. *)
Definition on_grid (z : Q) : Prop :=
  exists k : Z, 4 <= k <= 12 /\ (z == inject_Z k / 4)%Q.

(** Zoom invariant: grid, and no pan offset at zoom level 1. *)
Definition zoom_inv (s : State) : Prop :=
  on_grid (zoomLevel (zoom s)) /\
  ((zoomLevel (zoom s) == 1)%Q ->
   translateX (zoom s) = 0%Q /\ translateY (zoom s) = 0%Q).

(** The comparison toggle is enabled exactly when a styled image is held,
    and comparison mode is off while the last-styled slot is null. *)
Definition comparison_gate (s : State) : Prop :=
  toggleComparisonBtn_disabled (actionButtons s) =
    negb (Js.truthy (lastStyledImageBase64 (slots s))) /\
  (lastStyledImageBase64 (slots s) = None ->
   isComparisonMode (comparison s) = false).

(** A part without an inline image. *)
Definition textOnly (p : Part) : Prop := inlineData p = None.

(** [p] is handled by the image branch of the loop, with image [img]. *)
Definition imagePartOf (p : Part) (img : InlineData) : Prop :=
  Js.truthy (text p) = false /\ inlineData p = Some img.

(** Two states agree on what the invariants below read: the image slots,
    the ledger, the zoom variables, the comparison flag and the disabled
    flag of the comparison toggle. *)
Definition core_eq (s s' : State) : Prop :=
  slots s' = slots s /\
  ledger s' = ledger s /\
  zoom s' = zoom s /\
  isComparisonMode (comparison s') = isComparisonMode (comparison s) /\
  toggleComparisonBtn_disabled (actionButtons s') =
    toggleComparisonBtn_disabled (actionButtons s).

(** A handler that writes the zoom variables only. *)
Definition zoom_only (h : State -> State) : Prop :=
  forall s,
    slots (h s) = slots s /\ ledger (h s) = ledger s /\
    comparison (h s) = comparison s /\
    actionButtons (h s) = actionButtons s.

(** Undo and redo requests, for sequences of them. *)
Inductive UndoRedo := Undo | Redo.

Definition applyUndoRedo (s : State) (u : UndoRedo) : State :=
  match u with
  | Undo => handleUndo s
  | Redo => handleRedo s
  end.

Module Sample.

Local Open Scope string_scope.

(** [trim] on strings of ASCII characters: blanks, tabs and line breaks
    are removed at both ends. *)
Definition isSpace (c : ascii) : bool :=
  let n := nat_of_ascii c in
  Nat.eqb n 32 || (Nat.leb 9 n && Nat.leb n 13).

Fixpoint trimStart (s : string) : string :=
  match s with
  | String c r => if isSpace c then trimStart r else s
  | EmptyString => EmptyString
  end.

Fixpoint trimEnd (s : string) : string :=
  match s with
  | String c r =>
      match trimEnd r with
      | EmptyString => if isSpace c then EmptyString else String c EmptyString
      | r' => String c r'
      end
  | EmptyString => EmptyString
  end.

Definition trim (s : string) : string := trimEnd (trimStart s).

(** A document whose controls are all disabled and whose panels are all
    hidden. *)
Definition page : State :=
  {| slots :=
       {| currentImageBase64 := None; currentMimeType := None;
          originalImageBase64 := None; originalMimeType := None;
          lastStyledImageBase64 := None; lastStyledMimeType := None |};
     clickPosition := None;
     ledger := {| history := []; historyIndex := -1 |};
     zoom := {| zoomLevel := 1; isDragging := false;
                dragStartX := 0; dragStartY := 0;
                translateX := 0; translateY := 0 |};
     comparison := {| isComparisonMode := false; sliderPosition := 50;
                      isSliderDragging := false |};
     images := {| roomImage_src := ""; beforeImage_src := "";
                  afterImage_src := "" |};
     texts := {| responseText := ""; toastMessage := "";
                 promptInput_value := "" |};
     loadingControls :=
       {| styleButton_disabled := false; videoButton_disabled := true;
          promptInput_disabled := false; loadingOverlay_hidden := true |};
     historyButtons :=
       {| undoButton_disabled := true; redoButton_disabled := true |};
     actionButtons :=
       {| downloadButton_disabled := true; shareButton_disabled := true;
          copyButton_disabled := true; estimateCostButton_disabled := true;
          toggleComparisonBtn_disabled := true;
          zoomInButton_disabled := true; zoomOutButton_disabled := true;
          zoomResetButton_disabled := true |};
     panels :=
       {| videoControls_hidden := true; videoContainer_hidden := true;
          beforeAfterContainer_hidden := true; roomImage_hidden := false;
          aiSuggestionsPanel_hidden := true; costPanel_hidden := true;
          placementMarker_hidden := true |} |}.

Definition imagePart (b : string) : Part :=
  {| text := None;
     inlineData := Some {| data := b; inline_mimeType := "image/png" |} |}.

Definition textPart (t : string) : Part :=
  {| text := Some t; inlineData := None |}.

(** Room A is loaded and a prompt typed. *)
Definition loaded : list Event :=
  [ImageLoaded "roomA" "image/jpeg"; Other (WritePromptValue "add a sofa")].

(** Room A styled once, into B. *)
Definition styledOnce : list Event :=
  loaded ++ [StyleClick; StyleSettled (ApiParts [imagePart "styledB"])].

(** Room A styled twice, into B and then C. *)
Definition styledTwice : list Event :=
  styledOnce ++ [StyleClick; StyleSettled (ApiParts [imagePart "styledC"])].

Definition after (evs : list Event) : App := run trim (initialApp page) evs.

(** Snapshot names "A", "B", ... and the state after [n] pushes onto the
    empty ledger. *)
Definition snapshotName (k : nat) : string :=
  String (ascii_of_nat (65 + k)) EmptyString.

Definition filled (n : nat) : State :=
  fold_left (fun s k => addToHistory (snapshotName k) "image/png" s)
            (seq 0 n) (initialState page).

End Sample.

(** ** Further predicates and traces *)

(** The inline images of a response, in the order the loop meets them: the
    parts taken by the [else if (part.inlineData)] branch. *)
Fixpoint inlineImages (parts : list Part) : list InlineData :=
  match parts with
  | [] => []
  | p :: rest =>
      match text p, inlineData p with
      | Some (String _ _), _ => inlineImages rest
      | _, Some img => img :: inlineImages rest
      | _, None => inlineImages rest
      end
  end.

(** Pushing a list of images, one [addToHistory] each. *)
Definition pushImages (imgs : list InlineData) (s : State) : State :=
  fold_left (fun s img => addToHistory (data img) (inline_mimeType img) s)
            imgs s.

(** The image slots once an inline image is on display: current and last
    styled take it, the original is kept. *)
Definition showImage (sl : Slots) (img : InlineData) : Slots :=
  {| currentImageBase64 := Some (data img);
     currentMimeType := Some (inline_mimeType img);
     originalImageBase64 := originalImageBase64 sl;
     originalMimeType := originalMimeType sl;
     lastStyledImageBase64 := Some (data img);
     lastStyledMimeType := Some (inline_mimeType img) |}.


(** Two states agree on the image slots, the ledger, the slider position
    and the disabled flags of the history and action buttons (the
    estimate-cost button apart, which the cost handler writes itself). *)
Definition page_eq (s s' : State) : Prop :=
  slots s' = slots s /\
  ledger s' = ledger s /\
  sliderPosition (comparison s') = sliderPosition (comparison s) /\
  historyButtons s' = historyButtons s /\
  downloadButton_disabled (actionButtons s') =
    downloadButton_disabled (actionButtons s) /\
  shareButton_disabled (actionButtons s') =
    shareButton_disabled (actionButtons s) /\
  copyButton_disabled (actionButtons s') =
    copyButton_disabled (actionButtons s) /\
  toggleComparisonBtn_disabled (actionButtons s') =
    toggleComparisonBtn_disabled (actionButtons s) /\
  zoomInButton_disabled (actionButtons s') =
    zoomInButton_disabled (actionButtons s) /\
  zoomOutButton_disabled (actionButtons s') =
    zoomOutButton_disabled (actionButtons s) /\
  zoomResetButton_disabled (actionButtons s') =
    zoomResetButton_disabled (actionButtons s).

(** The undo and redo buttons show what [updateHistoryButtons] computes
    from the ledger. *)
Definition history_buttons_synced (s : State) : Prop :=
  undoButton_disabled (historyButtons s) = (cursor s <=? 0)%Z /\
  redoButton_disabled (historyButtons s) =
    (cursor s >=? Js.length (entries s) - 1)%Z.

(** Ledger well formed, and its buttons in step once it holds a
    snapshot. *)
Definition history_inv (s : State) : Prop :=
  ledger_wf s /\ (entries s <> [] -> history_buttons_synced s).

(** The action buttons show what [updateActionButtons] computes from the
    slots: result actions need a styled image, zoom needs a current
    image. *)
Definition action_buttons_synced (s : State) : Prop :=
  let noImage := negb (Js.truthy (lastStyledImageBase64 (slots s))) in
  let noCurrent := negb (Js.truthy (currentImageBase64 (slots s))) in
  downloadButton_disabled (actionButtons s) = noImage /\
  shareButton_disabled (actionButtons s) = noImage /\
  copyButton_disabled (actionButtons s) = noImage /\
  toggleComparisonBtn_disabled (actionButtons s) = noImage /\
  zoomInButton_disabled (actionButtons s) = noCurrent /\
  zoomOutButton_disabled (actionButtons s) = noCurrent /\
  zoomResetButton_disabled (actionButtons s) = noCurrent.

(** The slider is between 0 and 100 percent. *)
Definition slider_in_range (s : State) : Prop :=
  (0 <= sliderPosition (comparison s) <= 100)%Q.

(** Room A loaded and zoomed in one step, to level 1.25. *)
Definition zoomedOnce : list Event := Sample.loaded ++ [ZoomInClick].

(** ** Further handlers of the page *)

(** [s.split(sep)] for a one-character separator: the pieces between the
    occurrences of [sep], in order (["a,b".split(",")] is [["a"; "b"]], a
    string without [sep] is its own single piece). *)
Fixpoint jsSplit (sep : ascii) (s : string) : list string :=
  match s with
  | EmptyString => [EmptyString]
  | String c rest =>
      if Ascii.eqb c sep then EmptyString :: jsSplit sep rest
      else
        match jsSplit sep rest with
        | piece :: pieces => String c piece :: pieces
        | [] => [String c EmptyString]
        end
  end.

(** Whether the character occurs in the string. *)
Fixpoint occurs (c : ascii) (s : string) : bool :=
  match s with
  | EmptyString => false
  | String d rest => Ascii.eqb d c || occurs c rest
  end.

(** A settled promise: its value, or the message of the error it was
    rejected with. *)
Inductive Awaited (A : Type) : Type :=
| Resolved (value : A)
| Rejected (message : string).
Arguments Resolved {A} value.
Arguments Rejected {A} message.

(** [fileToBase64(file)]: [readerResult] is the outcome of
    [reader.readAsDataURL(file)], [fileType] is [file.type]. Resolves
    with [{base64, mimeType}]; [base64] is [undefined] (here [None]) when
    the data URL holds no comma. *)
Definition fileToBase64 (readerResult : Awaited string) (fileType : string)
  : Awaited (option string * string) :=
  match readerResult with
  | Resolved result => Resolved (nth_error (jsSplit "," result) 1, fileType)
  | Rejected message => Rejected message
  end.

(** The response of [fetch(url)] as far as [urlToBase64] reads it;
    [status] is the status code in decimal. *)
Record FetchResponse := {
  ok : bool;
  status : string;
  statusText : string }.

(** [urlToBase64(url)]: [response] is the outcome of the fetch, [blobType]
    of [response.blob()] (its [type]), [readerResult] of
    [reader.readAsDataURL(blob)]. The [catch] logs and rethrows. Resolves
    with [{base64, mimeType}]. When the data URL holds no comma,
    [reader.onload] throws on [base64.length] before it resolves, and the
    promise never settles: the result is [None]. *)
Definition urlToBase64 (response : Awaited FetchResponse)
  (blobType readerResult : Awaited string)
  : option (Awaited (string * string)) :=
  match response with
  | Rejected message => Some (Rejected message)
  | Resolved r =>
      if negb (ok r)
      then Some (Rejected ("Failed to fetch image: " ++ status r ++ " " ++
                           statusText r)%string)
      else
        match blobType with
        | Rejected message => Some (Rejected message)
        | Resolved type =>
            let mimeType :=
              if Js.nonempty type then type else "image/jpeg"%string in
            match readerResult with
            | Resolved dataUrl =>
                match nth_error (jsSplit "," dataUrl) 1 with
                | Some base64 => Some (Resolved (base64, mimeType))
                | None => None
                end
            | Rejected message => Some (Rejected message)
            end
        end
  end.

(** The click listener of a sample in the gallery, up to its [await]. *)
Definition sampleClick_begin (s : State) : State := setLoading true s.

(** The click listener of a sample from the [await] on, [finally]
    included: [loaded] is what [urlToBase64(sample.url)] settled with. *)
Definition sampleClick_settle (loaded : Awaited (string * string))
  (s : State) : State :=
  match loaded with
  | Resolved (base64, mimeType) =>
      setLoading false (setNewBaseImage base64 mimeType s)
  | Rejected _ =>
      setLoading false
        (set_responseText "Error loading sample image. Please try again." s)
  end.

(** [initialize()] up to the [await] of [urlToBase64]; [hasSample] tells
    whether [SAMPLES[0]] exists. *)
Definition initialize_begin (hasSample : bool) (s : State) : State :=
  if hasSample then setLoading true s else s.

(** [initialize()] from that [await] on; a rejection carries the message
    the [catch] prints. *)
Definition initialize_settle (loaded : Awaited (string * string))
  (s : State) : State :=
  match loaded with
  | Resolved (base64, mimeType) =>
      setLoading false (setNewBaseImage base64 mimeType s)
  | Rejected message =>
      setLoading false
        (set_responseText
           ("Could not load sample images. Error: " ++ message)%string s)
  end.

(** Outcome of a cost estimation: the model's text held a JSON object that
    was parsed and displayed, held none, or something failed (the call,
    the parsing, the display). *)
Inductive CostOutcome := CostDisplayed | CostNoJson | CostFailed.

(** [handleEstimateCost()] up to its [await]; the boolean tells whether
    the request is sent. *)
Definition handleEstimateCost_begin (s : State) : State * bool :=
  let disable s :=
    with_actionButtons
      {| downloadButton_disabled := downloadButton_disabled (actionButtons s);
         shareButton_disabled := shareButton_disabled (actionButtons s);
         copyButton_disabled := copyButton_disabled (actionButtons s);
         estimateCostButton_disabled := true;
         toggleComparisonBtn_disabled :=
           toggleComparisonBtn_disabled (actionButtons s);
         zoomInButton_disabled := zoomInButton_disabled (actionButtons s);
         zoomOutButton_disabled := zoomOutButton_disabled (actionButtons s);
         zoomResetButton_disabled :=
           zoomResetButton_disabled (actionButtons s) |} s in
  match lastStyledImageBase64 (slots s), lastStyledMimeType (slots s) with
  | Some b, Some m =>
      if negb (Js.nonempty b) || negb (Js.nonempty m)
      then (showToast "Please generate a styled room first!" s, false)
      else (disable s, true)
  | _, _ => (showToast "Please generate a styled room first!" s, false)
  end.

(** [handleEstimateCost()] from the [await] on, [finally] included. *)
Definition handleEstimateCost_settle (outcome : CostOutcome) (s : State)
  : State :=
  let s :=
    match outcome with
    | CostDisplayed =>
        with_panels
          {| videoControls_hidden := videoControls_hidden (panels s);
             videoContainer_hidden := videoContainer_hidden (panels s);
             beforeAfterContainer_hidden :=
               beforeAfterContainer_hidden (panels s);
             roomImage_hidden := roomImage_hidden (panels s);
             aiSuggestionsPanel_hidden := aiSuggestionsPanel_hidden (panels s);
             costPanel_hidden := false;
             placementMarker_hidden := placementMarker_hidden (panels s) |} s
    | CostNoJson => showToast "Failed to parse cost estimation" s
    | CostFailed => showToast "Failed to estimate costs" s
    end in
  with_actionButtons
    {| downloadButton_disabled := downloadButton_disabled (actionButtons s);
       shareButton_disabled := shareButton_disabled (actionButtons s);
       copyButton_disabled := copyButton_disabled (actionButtons s);
       estimateCostButton_disabled := false;
       toggleComparisonBtn_disabled :=
         toggleComparisonBtn_disabled (actionButtons s);
       zoomInButton_disabled := zoomInButton_disabled (actionButtons s);
       zoomOutButton_disabled := zoomOutButton_disabled (actionButtons s);
       zoomResetButton_disabled :=
         zoomResetButton_disabled (actionButtons s) |} s.

(** The link [handleDownload] creates and clicks. *)
Record DownloadLink := {
  href : string;
  download : string }.

(** [`${mime.split('/')[1]}`]: the piece after the first slash, or the
    text "undefined" when there is no slash. *)
Definition subtypeOf (mime : string) : string :=
  match nth_error (jsSplit "/" mime) 1 with
  | Some sub => sub
  | None => "undefined"%string
  end.

(** [handleDownload()]; [now] is [Date.now()] in decimal. Returns the link
    that is clicked, if any. *)
Definition handleDownload (now : string) (s : State)
  : State * option DownloadLink :=
  match lastStyledImageBase64 (slots s), lastStyledMimeType (slots s) with
  | Some b, Some m =>
      if negb (Js.nonempty b) || negb (Js.nonempty m) then (s, None)
      else
        (showToast "Image downloaded!" s,
         Some {| href := dataUrl m b;
                 download := ("styled-room-" ++ now ++ "." ++
                              subtypeOf m)%string |})
  | _, _ => (s, None)
  end.

(** [handleShare] and [handleCopyToClipboard] are asynchronous: between
    two of their stages other listeners may run. What a handler waits for
    after a stage: *)
Inductive Awaiting :=
| Nothing (* the handler has returned *)
| ReadingImage (* [handleShare]: [fetch] and [response.blob()] *)
| Sharing (* [handleShare]: [navigator.share] *)
| Copying (* [handleCopyToClipboard]: [fetch], [blob], [clipboard.write] *).

(** [handleCopyToClipboard()] up to its first [await]: the guard. *)
Definition handleCopyToClipboard_begin (s : State) : Awaiting :=
  if Js.truthy (lastStyledImageBase64 (slots s)) &&
     Js.truthy (lastStyledMimeType (slots s))
  then Copying else Nothing.

(** [handleCopyToClipboard()] after its awaits; [copied] tells whether
    reading the image and writing it to the clipboard both succeeded. *)
Definition handleCopyToClipboard_settle (copied : bool) (s : State) : State :=
  if copied then showToast "Copied to clipboard!" s
  else showToast "Copy failed. Please try download instead." s.

(** [handleShare()] up to its first [await]: the guard. *)
Definition handleShare_begin (s : State) : Awaiting :=
  if Js.truthy (lastStyledImageBase64 (slots s)) &&
     Js.truthy (lastStyledMimeType (slots s))
  then ReadingImage else Nothing.

(** The [catch] of [handleShare]: its toast, then the call of
    [handleCopyToClipboard], whose guard runs at once. *)
Definition handleShare_catch (s : State) : State * Awaiting :=
  let s := showToast "Share not supported. Image copied to clipboard!" s in
  (s, handleCopyToClipboard_begin s).

(** [handleShare()] resumed after [fetch] and [blob]; [blobRead] tells
    whether both succeeded, [canShare] whether [navigator.share] exists.
    The file name is built with [lastStyledMimeType.split], which throws
    when the variable is null by now. *)
Definition handleShare_read (blobRead canShare : bool) (s : State)
  : State * Awaiting :=
  match (if blobRead then lastStyledMimeType (slots s) else None) with
  | Some _ =>
      if canShare then (s, Sharing)
      else (* Fallback: copy link *) (s, handleCopyToClipboard_begin s)
  | None => handleShare_catch s
  end.

(** [handleShare()] resumed after [navigator.share]; [shared] tells
    whether it succeeded. *)
Definition handleShare_shared (shared : bool) (s : State)
  : State * Awaiting :=
  if shared then (showToast "Shared successfully!" s, Nothing)
  else handleShare_catch s.

(** [handleCopyToClipboard()] when no other listener runs between its
    stages. *)
Definition handleCopyToClipboard (copied : bool) (s : State) : State :=
  match handleCopyToClipboard_begin s with
  | Copying => handleCopyToClipboard_settle copied s
  | _ => s
  end.

(** [handleShare()] when no other listener runs between its stages: each
    stage meets the state the stage before left. *)
Definition handleShare (blobRead canShare shared copied : bool) (s : State)
  : State :=
  let copy (r : State * Awaiting) :=
    match snd r with
    | Copying => handleCopyToClipboard_settle copied (fst r)
    | _ => fst r
    end in
  match handleShare_begin s with
  | ReadingImage =>
      let r := handleShare_read blobRead canShare s in
      match snd r with
      | Sharing => copy (handleShare_shared shared (fst r))
      | _ => copy r
      end
  | _ => s
  end.

(** A [keydown] event on the document. *)
Record KeyEvent := {
  ctrlKey : bool;
  metaKey : bool;
  shiftKey : bool;
  key : string }.

(** The keyboard shortcut listener: two [if] statements in a row. *)
Definition handleKeydown (e : KeyEvent) (s : State) : State :=
  let s :=
    if (ctrlKey e || metaKey e) && String.eqb (key e) "z" &&
       negb (shiftKey e)
    then handleUndo s else s in
  if (ctrlKey e || metaKey e) &&
     (String.eqb (key e) "y" || (String.eqb (key e) "z" && shiftKey e))
  then handleRedo s else s.

(** *** The video tour *)

(** A video operation as the handler reads it: [operation.done] and
    [operation.response?.generatedVideos?.[0]?.video?.uri]. *)
Record Operation := {
  done : bool;
  videoUri : option string }.

(** The polling loop [while (!operation.done)]: each round waits ten
    seconds and asks for the operation again; [polls] are the answers in
    order. Returns the operation the loop ends with, or the rejection that
    interrupts it, together with the number of rounds; [None] while the
    answers at hand do not end the loop. *)
Fixpoint pollUntilDone (operation : Operation)
  (polls : list (Awaited Operation)) : option (Awaited Operation * nat) :=
  if done operation then Some (Resolved operation, O)
  else
    match polls with
    | [] => None
    | Rejected message :: _ => Some (Rejected message, 1%nat)
    | Resolved next :: rest =>
        match pollUntilDone next rest with
        | Some (result, rounds) => Some (result, S rounds)
        | None => None
        end
    end.






(** ** Ledger *)

Section LedgerFacts.

Local Open Scope Z_scope.

Lemma length_nonneg {A} (l : list A) : 0 <= Js.length l.
Proof. unfold Js.length. lia. Qed.

Lemma splice_from_firstn {A} (start : Z) (l : list A) :
  0 <= start <= Js.length l ->
  Js.splice_from start l = firstn (Z.to_nat start) l.
Proof.
  intros H. unfold Js.splice_from.
  destruct (start <? 0) eqn:E; [apply Z.ltb_lt in E; lia|].
  rewrite Z.min_l by lia. reflexivity.
Qed.

Lemma firstn_whole {A} (l : list A) :
  firstn (Z.to_nat (Js.length l)) l = l.
Proof. unfold Js.length. rewrite Nat2Z.id. apply firstn_all. Qed.

Lemma length_push {A} (l : list A) (x : A) :
  Js.length (Js.push l x) = Js.length l + 1.
Proof. unfold Js.length, Js.push. rewrite length_app. simpl. lia. Qed.

Lemma length_firstn_Z {A} (n : Z) (l : list A) :
  0 <= n <= Js.length l -> Js.length (firstn (Z.to_nat n) l) = n.
Proof.
  unfold Js.length. intros H.
  rewrite length_firstn, Nat.min_l by lia. lia.
Qed.

Lemma length_shift {A} (l : list A) :
  0 < Js.length l -> Js.length (Js.shift l) = Js.length l - 1.
Proof.
  unfold Js.length, Js.shift.
  destruct l as [|x l]; cbn [tl Datatypes.length]; lia.
Qed.

Lemma index_push_last {A} (l : list A) (x : A) :
  Js.index (Js.push l x) (Js.length l) = Some x.
Proof.
  unfold Js.index, Js.push, Js.length.
  destruct (Z.of_nat (List.length l) <? 0) eqn:E;
    [apply Z.ltb_lt in E; lia|].
  rewrite Nat2Z.id, nth_error_app2 by lia.
  rewrite Nat.sub_diag. reflexivity.
Qed.

Lemma index_shift {A} (l : list A) (i : Z) :
  0 <= i -> Js.index (Js.shift l) i = Js.index l (i + 1).
Proof.
  intros H. unfold Js.index, Js.shift.
  destruct (i <? 0) eqn:E; [apply Z.ltb_lt in E; lia|].
  destruct (i + 1 <? 0) eqn:E'; [apply Z.ltb_lt in E'; lia|].
  replace (Z.to_nat (i + 1)) with (S (Z.to_nat i)) by lia.
  destruct l; simpl; [destruct (Z.to_nat i); reflexivity | reflexivity].
Qed.

(** What [addToHistory] leaves in the ledger, for any ledger. *)
Lemma addToHistory_ledger image mime s :
  let kept :=
    if cursor s <? Js.length (entries s) - 1
    then Js.splice_from (cursor s + 1) (entries s)
    else entries s in
  let pushed :=
    Js.push kept {| imageBase64 := image; mimeType := mime |} in
  ledger (addToHistory image mime s) =
    if Js.length pushed >? MAX_HISTORY
    then {| history := Js.shift pushed; historyIndex := cursor s |}
    else {| history := pushed; historyIndex := cursor s + 1 |}.
Proof.
  unfold addToHistory, cursor, entries.
  destruct s as [sl cp [h i] z c im tx lc hb ab pn]; simpl.
  destruct (i <? Js.length h - 1); simpl;
    match goal with |- context [?a >? ?b] => destruct (a >? b) end;
    reflexivity.
Qed.

(** [addToHistory] writes the ledger and the two history buttons only. *)
Lemma addToHistory_frame image mime s :
  let s' := addToHistory image mime s in
  slots s' = slots s /\ clickPosition s' = clickPosition s /\
  zoom s' = zoom s /\ comparison s' = comparison s /\
  images s' = images s /\ texts s' = texts s /\
  loadingControls s' = loadingControls s /\
  actionButtons s' = actionButtons s /\ panels s' = panels s.
Proof.
  unfold addToHistory, cursor, entries.
  destruct s as [sl cp [h i] z c im tx lc hb ab pn]; simpl.
  destruct (i <? Js.length h - 1); simpl;
    match goal with |- context [?a >? ?b] => destruct (a >? b) end;
    simpl; repeat split; reflexivity.
Qed.

End LedgerFacts.

Section LedgerPush.

Local Open Scope Z_scope.

Lemma kept_is_prefix s :
  ledger_wf s ->
  (if cursor s <? Js.length (entries s) - 1
   then Js.splice_from (cursor s + 1) (entries s)
   else entries s) = firstn (Z.to_nat (cursor s + 1)) (entries s).
Proof.
  intros [Hc Hl].
  assert (Hb : -1 <= cursor s < Js.length (entries s)).
  { destruct Hc as [[He Hi] | Hc]; [|lia].
    rewrite He, Hi. unfold Js.length. simpl. lia. }
  destruct (cursor s <? Js.length (entries s) - 1) eqn:E.
  - apply Z.ltb_lt in E. apply splice_from_firstn. lia.
  - apply Z.ltb_ge in E.
    replace (cursor s + 1) with (Js.length (entries s)) by lia.
    symmetry. apply firstn_whole.
Qed.

(** A push keeps the ledger well formed. *)
Lemma addToHistory_wf image mime s :
  ledger_wf s -> ledger_wf (addToHistory image mime s).
Proof.
  intros Hwf.
  pose proof (addToHistory_ledger image mime s) as HL.
  cbv zeta in HL. rewrite (kept_is_prefix s Hwf) in HL.
  destruct Hwf as [Hc Hl].
  assert (Hb : -1 <= cursor s < Js.length (entries s)).
  { destruct Hc as [[He Hi] | Hc]; [|lia].
    rewrite He, Hi. unfold Js.length. simpl. lia. }
  set (kept := firstn (Z.to_nat (cursor s + 1)) (entries s)) in *.
  assert (Hk : Js.length kept = cursor s + 1)
    by (apply length_firstn_Z; lia).
  set (pushed := Js.push kept {| imageBase64 := image; mimeType := mime |})
    in *.
  assert (Hp : Js.length pushed = cursor s + 2)
    by (unfold pushed; rewrite length_push; lia).
  unfold ledger_wf, cursor, entries, MAX_HISTORY in *.
  destruct (Js.length pushed >? 20) eqn:E; rewrite HL;
    cbn [history historyIndex].
  - apply Z.gtb_lt in E.
    rewrite (length_shift pushed) by lia. split; [right|]; lia.
  - rewrite Z.gtb_ltb in E. apply Z.ltb_ge in E. split; [right|]; lia.
Qed.

(** C3. For every well-formed ledger, [addToHistory] keeps the entries up
    to the cursor, drops the ones after it, appends the snapshot and, when
    that makes 21 entries, evicts the oldest one; the cursor then is the
    last index, where the pushed snapshot sits, and at most 20 entries are
    held. *)
Theorem addToHistory_push image mime s :
  ledger_wf s ->
  let snapshot := {| imageBase64 := image; mimeType := mime |} in
  let pushed :=
    firstn (Z.to_nat (cursor s + 1)) (entries s) ++ [snapshot] in
  let s' := addToHistory image mime s in
  entries s' =
    (if Js.length pushed >? MAX_HISTORY then tl pushed else pushed) /\
  cursor s' = Js.length (entries s') - 1 /\
  Js.index (entries s') (cursor s') = Some snapshot /\
  Js.length (entries s') <= MAX_HISTORY /\
  ledger_wf s'.
Proof.
  intros Hwf snapshot pushed s'.
  pose proof (addToHistory_ledger image mime s) as HL.
  cbv zeta in HL. rewrite (kept_is_prefix s Hwf) in HL.
  fold snapshot in HL. change (Js.push ?l ?x) with (l ++ [x]) in HL.
  fold pushed in HL. fold s' in HL.
  destruct Hwf as [Hc Hl].
  assert (Hb : -1 <= cursor s < Js.length (entries s)).
  { destruct Hc as [[He Hi] | Hc]; [|lia].
    rewrite He, Hi. unfold Js.length. simpl. lia. }
  set (kept := firstn (Z.to_nat (cursor s + 1)) (entries s)) in *.
  assert (Hk : Js.length kept = cursor s + 1)
    by (apply length_firstn_Z; lia).
  assert (Hp : Js.length pushed = cursor s + 2).
  { unfold pushed. change (kept ++ [snapshot]) with (Js.push kept snapshot).
    rewrite length_push. lia. }
  assert (Hlast : Js.index pushed (cursor s + 1) = Some snapshot).
  { rewrite <- Hk. apply index_push_last. }
  unfold cursor, entries in *.
  unfold MAX_HISTORY in *.
  destruct (Js.length pushed >? 20) eqn:E.
  - apply Z.gtb_lt in E.
    rewrite HL; cbn [history historyIndex].
    change (Js.shift pushed) with (tl pushed).
    assert (Hs : Js.length (tl pushed) = Js.length pushed - 1)
      by (apply (length_shift pushed); lia).
    assert (Hi : Js.index (tl pushed) (historyIndex (ledger s)) =
                 Some snapshot)
      by (rewrite <- Hlast; apply (index_shift pushed); lia).
    split; [reflexivity|]. split; [lia|]. split; [exact Hi|].
    split; [lia|].
    unfold ledger_wf, cursor, entries, MAX_HISTORY.
    rewrite HL; cbn [history historyIndex].
    change (Js.shift pushed) with (tl pushed). split; [right|]; lia.
  - rewrite Z.gtb_ltb in E. apply Z.ltb_ge in E.
    rewrite HL; cbn [history historyIndex].
    split; [reflexivity|]. split; [lia|]. split; [exact Hlast|].
    split; [lia|].
    unfold ledger_wf, cursor, entries, MAX_HISTORY.
    rewrite HL; cbn [history historyIndex]. split; [right|]; lia.
Qed.

(** A push onto a full ledger: snapshots "A" to "T" are held with the
    cursor on "T"; the push evicts "A" and the cursor, still 19, is on the
    new snapshot. *)
Lemma addToHistory_push_witness :
  let s := Sample.filled 20 in
  let s' := addToHistory "styledU" "image/png" s in
  ledger_wf s /\
  Js.length (entries s) = 20 /\
  Js.length (entries s') <= 20 /\
  cursor s' = 19 /\
  Js.index (entries s') (cursor s') =
    Some {| imageBase64 := "styledU"; mimeType := "image/png" |} /\
  Js.index (entries s') 0 =
    Some {| imageBase64 := "B"; mimeType := "image/png" |}.
Proof.
  assert (H : ledger_wf (Sample.filled 20)).
  { split; [right; vm_compute; split; [discriminate | reflexivity]
           | vm_compute; discriminate]. }
  destruct (addToHistory_push "styledU" "image/png" _ H)
    as (He & Hc & Hi & Hl & _).
  split; [exact H|]. split; [reflexivity|]. split; [exact Hl|].
  split; [rewrite Hc, He; reflexivity|]. split; [exact Hi|].
  rewrite He. reflexivity.
Defined.

End LedgerPush.

(** ** Undo and redo *)

Section UndoRedoFacts.

Local Open Scope Z_scope.

Lemma index_in_range {A} (l : list A) (i : Z) :
  0 <= i < Js.length l -> exists x, Js.index l i = Some x.
Proof.
  unfold Js.index, Js.length. intros H.
  destruct (i <? 0) eqn:E; [apply Z.ltb_lt in E; lia|].
  destruct (nth_error l (Z.to_nat i)) as [x|] eqn:N; [now exists x|].
  apply nth_error_None in N. lia.
Qed.

(** What [restoreAtCursor] writes when there is a snapshot under the
    cursor. *)
Lemma restoreAtCursor_found toast s e :
  Js.index (entries s) (cursor s) = Some e ->
  let s' := restoreAtCursor toast s in
  ledger s' = ledger s /\
  currentImageBase64 (slots s') = Some (imageBase64 e) /\
  currentMimeType (slots s') = Some (mimeType e) /\
  lastStyledImageBase64 (slots s') = Some (imageBase64 e) /\
  lastStyledMimeType (slots s') = Some (mimeType e).
Proof.
  intros H. unfold restoreAtCursor. rewrite H.
  repeat split; reflexivity.
Qed.

(** [restoreAtCursor] never writes the ledger, the original image, the
    view state, or any part of the page besides the room image, the
    history and action buttons and the toast. *)
Lemma restoreAtCursor_frame toast s :
  let s' := restoreAtCursor toast s in
  ledger s' = ledger s /\
  originalImageBase64 (slots s') = originalImageBase64 (slots s) /\
  originalMimeType (slots s') = originalMimeType (slots s) /\
  clickPosition s' = clickPosition s /\
  zoom s' = zoom s /\
  comparison s' = comparison s /\
  beforeImage_src (images s') = beforeImage_src (images s) /\
  afterImage_src (images s') = afterImage_src (images s) /\
  responseText (texts s') = responseText (texts s) /\
  promptInput_value (texts s') = promptInput_value (texts s) /\
  loadingControls s' = loadingControls s /\
  panels s' = panels s.
Proof.
  unfold restoreAtCursor.
  destruct (Js.index (entries s) (cursor s));
    cbv zeta; repeat split; reflexivity.
Qed.

(** Undo and redo write neither the original image nor the view state. *)
Lemma applyUndoRedo_view (s : State) (u : UndoRedo) :
  let s' := applyUndoRedo s u in
  originalImageBase64 (slots s') = originalImageBase64 (slots s) /\
  originalMimeType (slots s') = originalMimeType (slots s) /\
  zoom s' = zoom s /\
  comparison s' = comparison s.
Proof.
  assert (F : forall toast i,
    let s' := restoreAtCursor toast (set_historyIndex i s) in
    originalImageBase64 (slots s') = originalImageBase64 (slots s) /\
    originalMimeType (slots s') = originalMimeType (slots s) /\
    zoom s' = zoom s /\
    comparison s' = comparison s).
  { intros toast i.
    destruct (restoreAtCursor_frame toast (set_historyIndex i s))
      as (_ & Ho & Hm & _ & Hz & Hp & _).
    repeat split; assumption. }
  destruct u; unfold applyUndoRedo, handleUndo, handleRedo.
  - destruct (cursor s >? 0); [apply F | repeat split; reflexivity].
  - destruct (cursor s <? Js.length (entries s) - 1);
      [apply F | repeat split; reflexivity].
Qed.

(** C10. Undo and redo leave the history sequence and the original image
    as they are; of the module variables they write the cursor and the
    current and last-styled slots only (zoom, pan, comparison state and
    click position are untouched), and on the page only the room image,
    the history and action buttons and the toast. *)
Theorem undo_redo_frame (s : State) (u : UndoRedo) :
  let s' := applyUndoRedo s u in
  entries s' = entries s /\
  Js.length (entries s') = Js.length (entries s) /\
  originalImageBase64 (slots s') = originalImageBase64 (slots s) /\
  originalMimeType (slots s') = originalMimeType (slots s) /\
  clickPosition s' = clickPosition s /\
  zoom s' = zoom s /\
  comparison s' = comparison s /\
  beforeImage_src (images s') = beforeImage_src (images s) /\
  afterImage_src (images s') = afterImage_src (images s) /\
  responseText (texts s') = responseText (texts s) /\
  promptInput_value (texts s') = promptInput_value (texts s) /\
  loadingControls s' = loadingControls s /\
  panels s' = panels s.
Proof.
  assert (F : forall toast i,
    let s' := restoreAtCursor toast (set_historyIndex i s) in
    entries s' = entries s /\
    Js.length (entries s') = Js.length (entries s) /\
    originalImageBase64 (slots s') = originalImageBase64 (slots s) /\
    originalMimeType (slots s') = originalMimeType (slots s) /\
    clickPosition s' = clickPosition s /\
    zoom s' = zoom s /\
    comparison s' = comparison s /\
    beforeImage_src (images s') = beforeImage_src (images s) /\
    afterImage_src (images s') = afterImage_src (images s) /\
    responseText (texts s') = responseText (texts s) /\
    promptInput_value (texts s') = promptInput_value (texts s) /\
    loadingControls s' = loadingControls s /\
    panels s' = panels s).
  { intros toast i s'.
    destruct (restoreAtCursor_frame toast (set_historyIndex i s))
      as (Hl & Ho & Hm & Hc & Hz & Hp & Hb & Ha & Hr & Hv & Hd & Hn).
    fold s' in Hl, Ho, Hm, Hc, Hz, Hp, Hb, Ha, Hr, Hv, Hd, Hn.
    assert (He : entries s' = entries s)
      by (unfold entries; rewrite Hl; reflexivity).
    rewrite He. repeat split; assumption. }
  destruct u; unfold applyUndoRedo, handleUndo, handleRedo.
  - destruct (cursor s >? 0); [apply F | repeat split; reflexivity].
  - destruct (cursor s <? Js.length (entries s) - 1);
      [apply F | repeat split; reflexivity].
Qed.

(** One successful undo. *)
Lemma handleUndo_moves s e :
  0 < cursor s ->
  Js.index (entries s) (cursor s - 1) = Some e ->
  let s' := handleUndo s in
  entries s' = entries s /\ cursor s' = cursor s - 1 /\
  currentImageBase64 (slots s') = Some (imageBase64 e) /\
  currentMimeType (slots s') = Some (mimeType e) /\
  lastStyledImageBase64 (slots s') = Some (imageBase64 e) /\
  lastStyledMimeType (slots s') = Some (mimeType e).
Proof.
  intros Hc He. unfold handleUndo.
  destruct (cursor s >? 0) eqn:E;
    [|rewrite Z.gtb_ltb in E; apply Z.ltb_ge in E; lia].
  destruct (restoreAtCursor_found "Undone"
              (set_historyIndex (cursor s - 1) s) e He)
    as (Hl & H1 & H2 & H3 & H4).
  cbv zeta. unfold entries, cursor in *. rewrite Hl.
  repeat split; assumption.
Qed.

(** One successful redo. *)
Lemma handleRedo_moves s e :
  cursor s < Js.length (entries s) - 1 ->
  Js.index (entries s) (cursor s + 1) = Some e ->
  let s' := handleRedo s in
  entries s' = entries s /\ cursor s' = cursor s + 1 /\
  currentImageBase64 (slots s') = Some (imageBase64 e) /\
  currentMimeType (slots s') = Some (mimeType e) /\
  lastStyledImageBase64 (slots s') = Some (imageBase64 e) /\
  lastStyledMimeType (slots s') = Some (mimeType e).
Proof.
  intros Hc He. unfold handleRedo.
  destruct (cursor s <? Js.length (entries s) - 1) eqn:E;
    [|apply Z.ltb_ge in E; lia].
  destruct (restoreAtCursor_found "Redone"
              (set_historyIndex (cursor s + 1) s) e He)
    as (Hl & H1 & H2 & H3 & H4).
  cbv zeta. unfold entries, cursor in *. rewrite Hl.
  repeat split; assumption.
Qed.

(** C5, as the code has it. When undo is possible (the cursor is a valid
    index above 0), undo followed at once by redo leaves the sequence and
    the cursor as they were and displays the snapshot under the cursor;
    that is the image displayed before the undo whenever the displayed
    image was the snapshot under the cursor. *)
Theorem undo_then_redo s :
  0 < cursor s < Js.length (entries s) ->
  let s' := handleRedo (handleUndo s) in
  cursor s' = cursor s /\
  entries s' = entries s /\
  current_at_cursor s' /\
  (current_at_cursor s ->
   currentImageBase64 (slots s') = currentImageBase64 (slots s) /\
   currentMimeType (slots s') = currentMimeType (slots s)).
Proof.
  intros Hc s'.
  destruct (index_in_range (entries s) (cursor s - 1)) as [p Hp]; [lia|].
  destruct (index_in_range (entries s) (cursor s)) as [e He]; [lia|].
  destruct (handleUndo_moves s p) as (U1 & U2 & _); [lia | exact Hp |].
  destruct (handleRedo_moves (handleUndo s) e) as (R1 & R2 & R3 & R4 & _).
  - rewrite U1, U2. lia.
  - rewrite U1, U2. replace (cursor s - 1 + 1) with (cursor s) by lia.
    exact He.
  - fold s' in R1, R2, R3, R4.
    assert (Hcur : cursor s' = cursor s) by (rewrite R2, U2; lia).
    assert (Hent : entries s' = entries s) by (rewrite R1, U1; reflexivity).
    split; [exact Hcur|]. split; [exact Hent|]. split.
    + exists e. rewrite Hent, Hcur. repeat split; assumption.
    + intros (e0 & He0 & Hb & Hm).
      rewrite He in He0. injection He0 as <-.
      rewrite R3, R4, Hb, Hm. split; reflexivity.
Qed.

(** After two stylings the cursor is on the second snapshot: undo then
    redo comes back to it. *)
Lemma undo_then_redo_witness :
  let s := st (Sample.after Sample.styledTwice) in
  0 < cursor s < Js.length (entries s) /\
  cursor (handleRedo (handleUndo s)) = 1 /\
  entries (handleRedo (handleUndo s)) = entries s.
Proof.
  assert (Hc : 0 < cursor (st (Sample.after Sample.styledTwice)) <
               Js.length (entries (st (Sample.after Sample.styledTwice))))
    by (vm_compute; split; reflexivity).
  destruct (undo_then_redo _ Hc) as (H1 & H2 & _).
  split; [exact Hc|]. split; [rewrite H1; reflexivity | exact H2].
Defined.

(** C5 as stated fails: with the cursor on the first of two snapshots
    undo does nothing, and the redo that follows moves on to the second
    one. *)
Lemma undo_then_redo_not_for_every_state :
  let s := st (Sample.after (Sample.styledTwice ++ [UndoClick])) in
  cursor s = 0 /\
  currentImageBase64 (slots s) = Some "styledB"%string /\
  handleUndo s = s /\
  cursor (handleRedo (handleUndo s)) = 1 /\
  currentImageBase64 (slots (handleRedo (handleUndo s))) =
    Some "styledC"%string /\
  cursor (handleRedo (handleUndo s)) <> cursor s /\
  currentImageBase64 (slots (handleRedo (handleUndo s))) <>
    currentImageBase64 (slots s).
Proof.
  vm_compute. repeat split; try reflexivity; discriminate.
Qed.

End UndoRedoFacts.

(** ** A new base image *)

Section BaseImage.

Local Open Scope string_scope.
Local Open Scope Z_scope.

(** Everything [setNewBaseImage] does to the module variables: the
    current and original slots hold the new image, the last styled image
    is cleared, comparison mode is off; the ledger, its two buttons and
    the zoom and pan variables are not written. *)
Lemma setNewBaseImage_effect base64 mime s :
  let s' := setNewBaseImage base64 mime s in
  slots s' =
    {| currentImageBase64 := Some base64; currentMimeType := Some mime;
       originalImageBase64 := Some base64; originalMimeType := Some mime;
       lastStyledImageBase64 := None; lastStyledMimeType := None |} /\
  clickPosition s' = None /\
  ledger s' = ledger s /\
  historyButtons s' = historyButtons s /\
  zoom s' = zoom s /\
  isComparisonMode (comparison s') = false /\
  sliderPosition (comparison s') = sliderPosition (comparison s) /\
  toggleComparisonBtn_disabled (actionButtons s') = true.
Proof.
  unfold setNewBaseImage.
  destruct s as [sl cp ld z [c p d] im tx lc hb ab pn]; simpl.
  destruct c; simpl; repeat split; reflexivity.
Qed.

(** C1, the code at a failing input. Room A has been styled twice (B,
    then C); a new base image is then set. The last styled image is
    cleared, but both snapshots are still in the ledger with the cursor
    on the second, the undo button is still enabled, the guard of
    [handleUndo] passes, and undo puts snapshot B of the former room on
    display next to the new original. *)
Theorem setNewBaseImage_keeps_ledger :
  let s := st (Sample.after Sample.styledTwice) in
  let s' := setNewBaseImage "roomA2" "image/jpeg" s in
  lastStyledImageBase64 (slots s') = None /\
  lastStyledMimeType (slots s') = None /\
  entries s' = [{| imageBase64 := "styledB"; mimeType := "image/png" |};
                {| imageBase64 := "styledC"; mimeType := "image/png" |}] /\
  cursor s' = 1 /\
  (cursor s' >? 0) = true /\
  undoButton_disabled (historyButtons s') = false /\
  currentImageBase64 (slots (handleUndo s')) = Some "styledB" /\
  originalImageBase64 (slots (handleUndo s')) = Some "roomA2".
Proof.
  vm_compute. repeat split; reflexivity.
Qed.

(** C6 as stated fails: after two zoom steps and a drag, a new base image
    leaves the zoom level at 1.5 and the pan offset at (10, 5). *)
Lemma setNewBaseImage_zoom_not_reset :
  let s :=
    st (Sample.after
          (Sample.loaded ++
           [ZoomInClick; ZoomInClick; ContainerMouseDown 0 0;
            ContainerMouseMove 10 5; ContainerMouseUp])) in
  let s' := setNewBaseImage "roomA2" "image/jpeg" s in
  (zoomLevel (zoom s') == 3 # 2)%Q /\
  ~ (zoomLevel (zoom s') == 1)%Q /\
  (translateX (zoom s') == 10)%Q /\
  (translateY (zoom s') == 5)%Q /\
  ~ (translateX (zoom s') == 0)%Q.
Proof.
  vm_compute. repeat split; try reflexivity; discriminate.
Qed.

(** C6, as the code has it. For every prior state, a new base image
    forces comparison mode off and leaves the zoom level, the pan offset
    and the slider position as they were. *)
Theorem setNewBaseImage_view_state base64 mime s :
  let s' := setNewBaseImage base64 mime s in
  isComparisonMode (comparison s') = false /\
  zoomLevel (zoom s') = zoomLevel (zoom s) /\
  translateX (zoom s') = translateX (zoom s) /\
  translateY (zoom s') = translateY (zoom s) /\
  sliderPosition (comparison s') = sliderPosition (comparison s).
Proof.
  destruct (setNewBaseImage_effect base64 mime s)
    as (_ & _ & _ & _ & Hz & Hc & Hp & _).
  cbv zeta. rewrite Hz. repeat split; assumption.
Qed.

End BaseImage.

(** ** Styling responses *)

Section StylingFacts.

Local Open Scope string_scope.
Local Open Scope Z_scope.

Variable trim : string -> string.

Lemma set_responseText_same s :
  set_responseText (responseText (texts s)) s = s.
Proof. destruct s as [sl cp ld z c im [r t p] lc hb ab pn]. reflexivity. Qed.

(** A part without an image writes at most the response text. *)
Lemma stylePart_textOnly s found p :
  textOnly p ->
  exists msg, stylePart (s, found) p = (set_responseText msg s, found).
Proof.
  unfold textOnly, stylePart. intros H. rewrite H.
  destruct (text p) as [[|c t]|].
  - exists (responseText (texts s)). now rewrite set_responseText_same.
  - now exists (String c t).
  - exists (responseText (texts s)). now rewrite set_responseText_same.
Qed.

Lemma fold_textOnly parts : forall s found,
  Forall textOnly parts ->
  exists msg,
    fold_left stylePart parts (s, found) = (set_responseText msg s, found).
Proof.
  induction parts as [|p parts IH]; intros s found H.
  - exists (responseText (texts s)). simpl. now rewrite set_responseText_same.
  - inversion H as [|? ? Hp Hps]; subst. cbn [fold_left].
    destruct (stylePart_textOnly s found p Hp) as [m1 E1]. rewrite E1.
    destruct (IH (set_responseText m1 s) found Hps) as [m2 E2].
    exists m2. rewrite E2. reflexivity.
Qed.

(** A response without image parts: only the soft-failure message and
    the end of the loading state are written. *)
Lemma settle_textOnly parts s :
  Forall textOnly parts ->
  handleStyleRoom_settle (ApiParts parts) s =
    setLoading false (set_responseText SOFT_FAILURE s).
Proof.
  intros H. unfold handleStyleRoom_settle.
  destruct (fold_textOnly parts s false H) as [msg E]. rewrite E.
  reflexivity.
Qed.

(** The part of [handleStyleRoom] before the call writes neither the
    image slots nor the ledger. *)
Lemma begin_frame s :
  slots (fst (handleStyleRoom_begin trim s)) = slots s /\
  ledger (fst (handleStyleRoom_begin trim s)) = ledger s /\
  zoom (fst (handleStyleRoom_begin trim s)) = zoom s /\
  comparison (fst (handleStyleRoom_begin trim s)) = comparison s /\
  actionButtons (fst (handleStyleRoom_begin trim s)) = actionButtons s /\
  historyButtons (fst (handleStyleRoom_begin trim s)) = historyButtons s.
Proof.
  unfold handleStyleRoom_begin.
  destruct (currentImageBase64 (slots s)) as [image|];
    destruct (currentMimeType (slots s)) as [mime|];
    try (repeat split; reflexivity).
  destruct (negb (Js.nonempty image) || negb (Js.nonempty mime));
    [repeat split; reflexivity|].
  destruct (negb (Js.nonempty (trim (promptInput_value (texts s)))));
    repeat split; reflexivity.
Qed.

(** C8. When the styling call is made and its response holds no image
    part, the image slots and the ledger are as before the call, the
    response area shows the soft-failure message, which is not the
    message of the error path; the same holds for the state the response
    meets when it arrives later. *)
Theorem textOnly_response_is_soft_failure parts s :
  Forall textOnly parts ->
  snd (handleStyleRoom_begin trim s) <> None ->
  let s' := handleStyleRoom trim (ApiParts parts) s in
  slots s' = slots s /\
  ledger s' = ledger s /\
  responseText (texts s') = SOFT_FAILURE /\
  (forall message, responseText (texts s') <> "An error occurred: " ++ message) /\
  (forall s2,
     slots (handleStyleRoom_settle (ApiParts parts) s2) = slots s2 /\
     ledger (handleStyleRoom_settle (ApiParts parts) s2) = ledger s2 /\
     responseText (texts (handleStyleRoom_settle (ApiParts parts) s2)) =
       SOFT_FAILURE).
Proof.
  intros Hparts Hsent s'.
  assert (S2 : forall s2,
     slots (handleStyleRoom_settle (ApiParts parts) s2) = slots s2 /\
     ledger (handleStyleRoom_settle (ApiParts parts) s2) = ledger s2 /\
     responseText (texts (handleStyleRoom_settle (ApiParts parts) s2)) =
       SOFT_FAILURE).
  { intros s2. rewrite (settle_textOnly parts s2 Hparts).
    repeat split; reflexivity. }
  destruct (begin_frame s) as (Bs & Bl & _).
  unfold s', handleStyleRoom.
  destruct (handleStyleRoom_begin trim s) as [s1 [req|]];
    [|exfalso; apply Hsent; reflexivity].
  cbn [fst] in Bs, Bl.
  destruct (S2 s1) as (H1 & H2 & H3).
  rewrite H1, H2, H3, Bs, Bl.
  split; [reflexivity|]. split; [reflexivity|]. split; [reflexivity|].
  split; [|exact S2].
  intros message. unfold SOFT_FAILURE. discriminate.
Qed.

End StylingFacts.

(** The model answers with a sentence only. *)
Lemma textOnly_response_witness :
  let s := st (Sample.after Sample.loaded) in
  let s' :=
    handleStyleRoom Sample.trim
      (ApiParts [Sample.textPart "I cannot edit this image."]) s in
  slots s' = slots s /\
  currentImageBase64 (slots s') = Some "roomA"%string /\
  responseText (texts s') = SOFT_FAILURE.
Proof.
  assert (Hp : Forall textOnly [Sample.textPart "I cannot edit this image."])
    by (repeat constructor).
  assert (Hs : snd (handleStyleRoom_begin Sample.trim
                      (st (Sample.after Sample.loaded))) <> None)
    by (vm_compute; discriminate).
  destruct (textOnly_response_is_soft_failure Sample.trim _ _ Hp Hs)
    as (H1 & _ & H3 & _).
  split; [exact H1|]. split; [rewrite H1; reflexivity | exact H3].
Defined.

(** ** A response that carries an image *)

Section ImageResponse.

Local Open Scope string_scope.
Local Open Scope Z_scope.

Lemma stylePart_image s found p img :
  imagePartOf p img ->
  stylePart (s, found) p = (applyInlineData img s, true).
Proof.
  unfold imagePartOf, stylePart. intros [Ht Hi]. rewrite Hi.
  destruct (text p) as [[|c t]|]; try reflexivity. discriminate Ht.
Qed.

(** The ledger after [addToHistory] depends on the ledger before it
    only. *)
Lemma addToHistory_ledger_ext image mime s1 s2 :
  ledger s1 = ledger s2 ->
  ledger (addToHistory image mime s1) = ledger (addToHistory image mime s2).
Proof.
  intros H. rewrite !addToHistory_ledger. unfold cursor, entries.
  rewrite H. reflexivity.
Qed.

(** The image branch: the current and last-styled slots take the image,
    the original is kept, the image is pushed onto the ledger. *)
Lemma applyInlineData_effect img s :
  let s' := applyInlineData img s in
  slots s' =
    {| currentImageBase64 := Some (data img);
       currentMimeType := Some (inline_mimeType img);
       originalImageBase64 := originalImageBase64 (slots s);
       originalMimeType := originalMimeType (slots s);
       lastStyledImageBase64 := Some (data img);
       lastStyledMimeType := Some (inline_mimeType img) |} /\
  ledger s' = ledger (addToHistory (data img) (inline_mimeType img) s) /\
  zoom s' = zoom s /\
  comparison s' = comparison s /\
  toggleComparisonBtn_disabled (actionButtons s') =
    negb (Js.truthy (Some (data img))).
Proof.
  unfold applyInlineData. cbv zeta.
  match goal with
  | |- context [addToHistory ?d ?m ?s0] =>
      destruct (addToHistory_frame d m s0)
        as (Hs & _ & Hz & Hc & _);
      pose proof (addToHistory_ledger_ext d m s0 s eq_refl) as Hl;
      cbv zeta in Hs, Hz, Hc;
      remember (addToHistory d m s0) as s4 eqn:E4
  end.
  clear E4.
  cbn [slots ledger zoom comparison actionButtons showToast with_texts
       set_videoButton_disabled with_loadingControls with_panels
       updateActionButtons with_actionButtons
       toggleComparisonBtn_disabled].
  rewrite Hs, Hz, Hc, Hl. repeat split; reflexivity.
Qed.

(** The answer to a styling call, whatever the state it meets: text
    parts, one image part, text parts. *)
Lemma settle_image pre p img post s :
  Forall textOnly pre -> imagePartOf p img -> Forall textOnly post ->
  exists m1 m2,
    handleStyleRoom_settle (ApiParts (pre ++ p :: post)) s =
      setLoading false
        (set_responseText m2
           (applyInlineData img (set_responseText m1 s))).
Proof.
  intros Hpre Hp Hpost. unfold handleStyleRoom_settle.
  rewrite fold_left_app. cbn [fold_left].
  destruct (fold_textOnly pre s false Hpre) as [m1 E1]. rewrite E1.
  rewrite (stylePart_image _ _ p img Hp).
  destruct (fold_textOnly post
              (applyInlineData img (set_responseText m1 s)) true Hpost)
    as [m2 E2].
  rewrite E2. exists m1, m2. reflexivity.
Qed.

(** The slots and the ledger once the image branch has run and the
    handler has finished. *)
Lemma settled_image_effect img m1 m2 s :
  let s' :=
    setLoading false
      (set_responseText m2 (applyInlineData img (set_responseText m1 s))) in
  slots s' =
    {| currentImageBase64 := Some (data img);
       currentMimeType := Some (inline_mimeType img);
       originalImageBase64 := originalImageBase64 (slots s);
       originalMimeType := originalMimeType (slots s);
       lastStyledImageBase64 := Some (data img);
       lastStyledMimeType := Some (inline_mimeType img) |} /\
  ledger s' = ledger (addToHistory (data img) (inline_mimeType img) s).
Proof.
  pose proof (applyInlineData_effect img (set_responseText m1 s)) as H.
  cbv zeta in H. destruct H as (Hs & Hl & _).
  pose proof (addToHistory_ledger_ext (data img) (inline_mimeType img)
                 (set_responseText m1 s) s eq_refl) as Hx.
  generalize dependent (applyInlineData img (set_responseText m1 s)).
  intros s2 Hs Hl. cbv zeta.
  split.
  - exact Hs.
  - transitivity (ledger s2); [reflexivity|].
    rewrite Hl. exact Hx.
Qed.

(** C2, as the code has it. No response is discarded: when the answer to
    a styling call arrives after a new base image has been set, its image
    is applied to the state it meets. The current and last-styled slots
    take the styled image, the original stays the new base image, and the
    styled image is pushed onto the ledger. *)
Theorem late_response_is_applied pre p img post base64 mime s :
  Forall textOnly pre -> imagePartOf p img -> Forall textOnly post ->
  let s1 := setNewBaseImage base64 mime s in
  let s2 := handleStyleRoom_settle (ApiParts (pre ++ p :: post)) s1 in
  currentImageBase64 (slots s2) = Some (data img) /\
  currentMimeType (slots s2) = Some (inline_mimeType img) /\
  lastStyledImageBase64 (slots s2) = Some (data img) /\
  lastStyledMimeType (slots s2) = Some (inline_mimeType img) /\
  originalImageBase64 (slots s2) = Some base64 /\
  originalMimeType (slots s2) = Some mime /\
  ledger s2 = ledger (addToHistory (data img) (inline_mimeType img) s).
Proof.
  intros Hpre Hp Hpost. cbv zeta.
  destruct (setNewBaseImage_effect base64 mime s) as (Bs & _ & Bl & _).
  cbv zeta in Bs, Bl.
  remember (setNewBaseImage base64 mime s) as s1 eqn:E1. clear E1.
  destruct (settle_image pre p img post s1 Hpre Hp Hpost) as (m1 & m2 & E).
  rewrite E. clear E.
  destruct (settled_image_effect img m1 m2 s1) as (Hs & Hl).
  cbv zeta in Hs, Hl. rewrite Hs, Hl, Bs.
  cbn [currentImageBase64 currentMimeType lastStyledImageBase64
       lastStyledMimeType originalImageBase64 originalMimeType].
  repeat split; try reflexivity.
  apply addToHistory_ledger_ext. exact Bl.
Qed.

(** Room A2 replaces room A, then the styled image arrives. *)
Lemma late_response_witness :
  let s := st (Sample.after Sample.loaded) in
  let s2 :=
    handleStyleRoom_settle
      (ApiParts ([Sample.textPart "Here is your room."] ++
                 Sample.imagePart "styledB" :: []))
      (setNewBaseImage "roomA2" "image/jpeg" s) in
  currentImageBase64 (slots s2) = Some "styledB" /\
  originalImageBase64 (slots s2) = Some "roomA2".
Proof.
  assert (H1 : Forall textOnly [Sample.textPart "Here is your room."])
    by (repeat constructor).
  assert (H2 : imagePartOf (Sample.imagePart "styledB")
                 {| data := "styledB"; inline_mimeType := "image/png" |})
    by (split; reflexivity).
  assert (H3 : Forall textOnly []) by constructor.
  destruct (late_response_is_applied _ _ _ _ "roomA2" "image/jpeg"
              (st (Sample.after Sample.loaded)) H1 H2 H3)
    as (Hc & _ & _ & _ & Ho & _).
  split; [exact Hc | exact Ho].
Defined.

(** C2 as stated fails. A styling call is sent for room A; room A2 is
    loaded while the call is in flight; the answer then replaces the
    displayed image, sets the last styled image and enters the ledger. *)
Lemma late_response_not_discarded :
  let a :=
    Sample.after
      (Sample.loaded ++ [StyleClick; ImageLoaded "roomA2" "image/jpeg"]) in
  let a' :=
    step Sample.trim a (StyleSettled (ApiParts [Sample.imagePart "styledB"])) in
  inflight a = 1%nat /\
  currentImageBase64 (slots (st a)) = Some "roomA2" /\
  lastStyledImageBase64 (slots (st a)) = None /\
  entries (st a) = [] /\
  currentImageBase64 (slots (st a')) = Some "styledB" /\
  lastStyledImageBase64 (slots (st a')) = Some "styledB" /\
  entries (st a') =
    [{| imageBase64 := "styledB"; mimeType := "image/png" |}] /\
  slots (st a') <> slots (st a) /\
  ledger (st a') <> ledger (st a).
Proof.
  vm_compute. repeat split; try reflexivity; discriminate.
Qed.

End ImageResponse.

(** ** Invariants of the event loop *)

Section Invariants.

Local Open Scope string_scope.
Local Open Scope Z_scope.

Variable trim : string -> string.

Lemma core_eq_refl s : core_eq s s.
Proof. repeat split; reflexivity. Qed.

Lemma core_eq_trans s1 s2 s3 : core_eq s1 s2 -> core_eq s2 s3 -> core_eq s1 s3.
Proof.
  intros (A1 & A2 & A3 & A4 & A5) (B1 & B2 & B3 & B4 & B5).
  repeat split; etransitivity; eassumption.
Qed.

Lemma setLoading_core b s : core_eq s (setLoading b s).
Proof. repeat split; reflexivity. Qed.

Lemma set_responseText_core msg s : core_eq s (set_responseText msg s).
Proof. repeat split; reflexivity. Qed.

Lemma peripheral_core w s : core_eq s (peripheral w s).
Proof. destruct w; repeat split; reflexivity. Qed.

Lemma begin_core s : core_eq s (fst (handleStyleRoom_begin trim s)).
Proof.
  destruct (begin_frame trim s) as (H1 & H2 & H3 & H4 & H5 & _).
  unfold core_eq. rewrite H1, H2, H3, H4, H5. repeat split; reflexivity.
Qed.

(** The answer to a styling call preserves whatever the image branch and
    the writes of messages preserve. *)
Lemma settle_preserves (P : State -> Prop) :
  (forall s s', core_eq s s' -> P s -> P s') ->
  (forall img s, P s -> P (applyInlineData img s)) ->
  forall r s, P s -> P (handleStyleRoom_settle r s).
Proof.
  intros Hcore Himg r s H.
  assert (Hpart : forall p s found, P s -> P (fst (stylePart (s, found) p))).
  { intros p s0 found H0. unfold stylePart.
    destruct (text p) as [[|c t]|]; destruct (inlineData p) as [img|];
      cbn [fst]; auto;
      apply (Hcore s0); auto using set_responseText_core. }
  assert (Hfold : forall parts s found,
            P s -> P (fst (fold_left stylePart parts (s, found)))).
  { induction parts as [|p parts IH]; intros s0 found H0; [exact H0|].
    cbn [fold_left].
    specialize (Hpart p s0 found H0).
    destruct (stylePart (s0, found) p) as [s1 f1]. apply IH. exact Hpart. }
  unfold handleStyleRoom_settle.
  apply (Hcore _ _ (setLoading_core false _)).
  destruct r as [parts|message].
  - specialize (Hfold parts s false H).
    destruct (fold_left stylePart parts (s, false)) as [s1 f1].
    cbn [fst] in Hfold.
    destruct (negb f1); [|exact Hfold].
    apply (Hcore s1); auto using set_responseText_core.
  - apply (Hcore s); auto using set_responseText_core.
Qed.

(** A property kept by the handlers of the core is kept by every event. *)
Lemma step_preserves (P : State -> Prop) :
  (forall s s', core_eq s s' -> P s -> P s') ->
  (forall b m s, P s -> P (setNewBaseImage b m s)) ->
  (forall s u, P s -> P (applyUndoRedo s u)) ->
  (forall s, P s -> P (handleZoomIn s)) ->
  (forall s, P s -> P (handleZoomOut s)) ->
  (forall s, P s -> P (handleZoomReset s)) ->
  (forall x y s, P s -> P (handleDragStart x y s)) ->
  (forall x y s, P s -> P (handleDragMove x y s)) ->
  (forall s, P s -> P (handleDragEnd s)) ->
  (forall s, toggleComparisonBtn_disabled (actionButtons s) = false ->
             P s -> P (toggleComparison s)) ->
  (forall img s, P s -> P (applyInlineData img s)) ->
  forall a e, P (st a) -> P (st (step trim a e)).
Proof.
  intros Hcore Hbase Hur Hin Hout Hreset Hds Hdm Hde Htog Himg a e H.
  destruct e; cbn [step].
  - cbn [on_state st]. apply (Hcore _ _ (setLoading_core false _)).
    apply Hbase. exact H.
  - cbn [on_state st]. apply (Hcore (st a)); [|exact H].
    repeat split; reflexivity.
  - destruct (undoButton_disabled _); [exact H|]. apply (Hur _ Undo H).
  - destruct (redoButton_disabled _); [exact H|]. apply (Hur _ Redo H).
  - apply (Hur _ Undo H).
  - apply (Hur _ Redo H).
  - destruct (zoomInButton_disabled _); [exact H|]. apply Hin, H.
  - destruct (zoomOutButton_disabled _); [exact H|]. apply Hout, H.
  - destruct (zoomResetButton_disabled _); [exact H|]. apply Hreset, H.
  - apply Hds, H.
  - apply Hdm, H.
  - apply Hde, H.
  - destruct (toggleComparisonBtn_disabled _) eqn:E; [exact H|].
    apply Htog; assumption.
  - cbn [on_state st]. apply (Hcore (st a)); [|exact H].
    repeat split; reflexivity.
  - destruct (isSliderDragging _ && isComparisonMode _); [|exact H].
    cbn [on_state st]. apply (Hcore (st a)); [|exact H].
    repeat split; reflexivity.
  - cbn [on_state st]. apply (Hcore (st a)); [|exact H].
    repeat split; reflexivity.
  - destruct (styleButton_disabled _); [exact H|].
    pose proof (begin_core (st a)) as Hb.
    destruct (handleStyleRoom_begin trim (st a)) as [s' [req|]];
      cbn [st fst] in *; apply (Hcore _ _ Hb H).
  - destruct (inflight a) as [|n]; [exact H|]. cbn [st].
    apply settle_preserves; assumption.
  - cbn [on_state st]. apply (Hcore _ _ (peripheral_core w _)). exact H.
Qed.

Lemma run_preserves (P : State -> Prop) :
  (forall a e, P (st a) -> P (st (step trim a e))) ->
  forall evs a, P (st a) -> P (st (run trim a evs)).
Proof.
  intros Hstep. induction evs as [|e evs IH]; intros a H; [exact H|].
  cbn [run fold_left]. apply IH. apply Hstep. exact H.
Qed.

End Invariants.

(** ** Zoom and pan *)

Section ZoomFacts.

Local Open Scope Z_scope.

Lemma ltb_lt (x y : Q) : Js.ltb x y = true <-> (x < y)%Q.
Proof.
  unfold Js.ltb. rewrite negb_true_iff. split; intros H.
  - apply Qnot_le_lt. intros C. apply Qle_bool_iff in C. congruence.
  - destruct (Qle_bool y x) eqn:E; [|reflexivity].
    apply Qle_bool_iff in E. exfalso. exact (Qlt_not_le _ _ H E).
Qed.

Lemma ltb_ge (x y : Q) : Js.ltb x y = false <-> (y <= x)%Q.
Proof.
  unfold Js.ltb. rewrite negb_false_iff. apply Qle_bool_iff.
Qed.

Lemma handleZoomIn_zoom_only : zoom_only handleZoomIn.
Proof.
  intros s. unfold handleZoomIn.
  destruct (Js.ltb _ _); repeat split; reflexivity.
Qed.

Lemma handleZoomOut_zoom_only : zoom_only handleZoomOut.
Proof.
  intros s. unfold handleZoomOut.
  destruct (Js.gtb _ _); [|repeat split; reflexivity].
  cbv zeta. destruct (Qeq_bool _ _); repeat split; reflexivity.
Qed.

Lemma handleZoomReset_zoom_only : zoom_only handleZoomReset.
Proof. intros s. repeat split; reflexivity. Qed.

Lemma handleDragStart_zoom_only x y : zoom_only (handleDragStart x y).
Proof.
  intros s. unfold handleDragStart.
  destruct (Js.gtb _ _); repeat split; reflexivity.
Qed.

Lemma handleDragMove_zoom_only x y : zoom_only (handleDragMove x y).
Proof.
  intros s. unfold handleDragMove.
  destruct (isDragging _ && Js.gtb _ _); repeat split; reflexivity.
Qed.

Lemma handleDragEnd_zoom_only : zoom_only handleDragEnd.
Proof.
  intros s. unfold handleDragEnd.
  destruct (isDragging _); repeat split; reflexivity.
Qed.

Lemma on_grid_bounds z : on_grid z -> (1 <= z <= 3)%Q.
Proof.
  intros (k & Hk & E). rewrite E. unfold Qle. cbn. lia.
Qed.

Lemma grid_up z : on_grid z -> (z < 3)%Q -> on_grid (z + (1 # 4)).
Proof.
  intros (k & Hk & E) H. rewrite E in H.
  assert (k < 12) by (unfold Qlt in H; cbn in H; lia).
  exists (k + 1). split; [lia|]. rewrite E.
  unfold Qeq. cbn. lia.
Qed.

Lemma grid_down z : on_grid z -> (1 < z)%Q -> on_grid (z - (1 # 4)).
Proof.
  intros (k & Hk & E) H. rewrite E in H.
  assert (4 < k) by (unfold Qlt in H; cbn in H; lia).
  exists (k - 1). split; [lia|]. rewrite E.
  unfold Qeq. cbn. lia.
Qed.

Lemma grid_one : on_grid 1.
Proof. exists 4. split; [lia | reflexivity]. Qed.

Lemma zoom_inv_ext s s' : zoom s' = zoom s -> zoom_inv s -> zoom_inv s'.
Proof. unfold zoom_inv. intros E. rewrite E. trivial. Qed.

Lemma handleZoomIn_inv s : zoom_inv s -> zoom_inv (handleZoomIn s).
Proof.
  intros [Hg Hp]. unfold handleZoomIn.
  destruct (Js.ltb (zoomLevel (zoom s)) 3) eqn:E; [|split; assumption].
  apply ltb_lt in E. split; cbn.
  - apply grid_up; assumption.
  - intros H1. exfalso.
    pose proof (on_grid_bounds _ Hg) as [Hlo _].
    rewrite <- H1 in Hlo.
    apply (Qlt_not_le (zoomLevel (zoom s)) (zoomLevel (zoom s) + (1 # 4)));
      [|exact Hlo].
    rewrite <- (Qplus_0_r (zoomLevel (zoom s))) at 1.
    apply Qplus_lt_r. reflexivity.
Qed.

Lemma handleZoomOut_inv s : zoom_inv s -> zoom_inv (handleZoomOut s).
Proof.
  intros [Hg Hp]. unfold handleZoomOut.
  destruct (Js.gtb (zoomLevel (zoom s)) 1) eqn:E; [|split; assumption].
  apply ltb_lt in E. cbv zeta.
  cbn [zoom set_zoomLevel with_zoom zoomLevel].
  destruct (Qeq_bool (zoomLevel (zoom s) - (1 # 4)) 1) eqn:E1.
  - split; cbn; [apply grid_down; assumption | intros _; split; reflexivity].
  - split; cbn; [apply grid_down; assumption|].
    intros H1. apply Qeq_bool_iff in H1. congruence.
Qed.

Lemma handleZoomReset_inv s : zoom_inv s -> zoom_inv (handleZoomReset s).
Proof.
  intros _. split; cbn; [exact grid_one | intros _; split; reflexivity].
Qed.

Lemma handleDragStart_inv x y s :
  zoom_inv s -> zoom_inv (handleDragStart x y s).
Proof.
  intros H. unfold handleDragStart.
  destruct (Js.gtb _ _); [|exact H]. exact H.
Qed.

Lemma handleDragMove_inv x y s :
  zoom_inv s -> zoom_inv (handleDragMove x y s).
Proof.
  intros [Hg Hp]. unfold handleDragMove.
  destruct (isDragging (zoom s)); cbn [andb]; [|split; assumption].
  destruct (Js.gtb (zoomLevel (zoom s)) 1) eqn:E; [|split; assumption].
  apply ltb_lt in E. split; cbn; [exact Hg|].
  intros H1. rewrite H1 in E. exfalso. exact (Qlt_irrefl _ E).
Qed.

Lemma handleDragEnd_inv s : zoom_inv s -> zoom_inv (handleDragEnd s).
Proof.
  intros H. unfold handleDragEnd. destruct (isDragging _); exact H.
Qed.

End ZoomFacts.

(** ** Reachable states *)

Section Reachable.

Local Open Scope string_scope.
Local Open Scope Z_scope.

Variable trim : string -> string.

(** [toggleComparison] flips the flag and writes two image sources and
    two visibility flags; slots, ledger, zoom, buttons and messages are
    not written. *)
Lemma toggleComparison_frame s :
  let s' := toggleComparison s in
  slots s' = slots s /\ ledger s' = ledger s /\ zoom s' = zoom s /\
  actionButtons s' = actionButtons s /\ texts s' = texts s /\
  isComparisonMode (comparison s') = negb (isComparisonMode (comparison s)).
Proof.
  destruct s as [[cb cm ob om lb lm] cp ld z [c p d] im tx lc hb ab pn].
  unfold toggleComparison.
  destruct c; cbn -[dataUrl]; [repeat split; reflexivity|].
  destruct ob as [ob|]; destruct om as [om|];
    try destruct (Js.nonempty ob && Js.nonempty om);
    cbn -[dataUrl];
    destruct lb as [lb|]; destruct lm as [lm|];
    try destruct (Js.nonempty lb && Js.nonempty lm);
    repeat split; reflexivity.
Qed.

Lemma zoom_inv_step a e :
  zoom_inv (st a) -> zoom_inv (st (step trim a e)).
Proof.
  apply step_preserves.
  - intros s s' (_ & _ & Hz & _). apply zoom_inv_ext. exact Hz.
  - intros b m s. apply zoom_inv_ext.
    apply (setNewBaseImage_effect b m s).
  - intros s u. apply zoom_inv_ext. apply (applyUndoRedo_view s u).
  - exact handleZoomIn_inv.
  - exact handleZoomOut_inv.
  - exact handleZoomReset_inv.
  - exact handleDragStart_inv.
  - exact handleDragMove_inv.
  - exact handleDragEnd_inv.
  - intros s _. apply zoom_inv_ext. apply (toggleComparison_frame s).
  - intros img s. apply zoom_inv_ext. apply (applyInlineData_effect img s).
Qed.

Lemma initial_zoom_inv page : zoom_inv (initialState page).
Proof.
  split; cbn; [exact grid_one | intros _; split; reflexivity].
Qed.

(** In every reachable state the zoom level is on the quarter grid
    between 1 and 3, and at zoom level 1 there is no pan offset. *)
Lemma reachable_zoom_grid s : reachable trim s -> zoom_inv s.
Proof.
  intros (page & evs & ->).
  apply run_preserves; [exact zoom_inv_step | apply initial_zoom_inv].
Qed.

Lemma ledger_wf_ext s s' : ledger s' = ledger s -> ledger_wf s -> ledger_wf s'.
Proof. unfold ledger_wf, cursor, entries. intros E. rewrite E. trivial. Qed.

Lemma applyUndoRedo_wf s u : ledger_wf s -> ledger_wf (applyUndoRedo s u).
Proof.
  intros Hwf.
  assert (Hset : forall toast i,
            0 <= i < Js.length (entries s) ->
            ledger_wf (restoreAtCursor toast (set_historyIndex i s))).
  { intros toast i Hi.
    apply (ledger_wf_ext (set_historyIndex i s));
      [apply (restoreAtCursor_frame toast (set_historyIndex i s))|].
    destruct Hwf as [_ Hl]. split; [right; exact Hi | exact Hl]. }
  destruct Hwf as [[[He Hc] | Hc] Hl] eqn:W; clear W.
  - destruct u; unfold applyUndoRedo, handleUndo, handleRedo;
      rewrite Hc, ?He; cbn; (split; [left; split|]; assumption).
  - destruct u; unfold applyUndoRedo, handleUndo, handleRedo.
    + destruct (cursor s >? 0) eqn:E.
      * rewrite Z.gtb_ltb in E. apply Z.ltb_lt in E. apply Hset. lia.
      * split; [right|]; assumption.
    + destruct (cursor s <? Js.length (entries s) - 1) eqn:E.
      * apply Z.ltb_lt in E. apply Hset. lia.
      * split; [right|]; assumption.
Qed.

Lemma ledger_wf_step a e :
  ledger_wf (st a) -> ledger_wf (st (step trim a e)).
Proof.
  apply step_preserves.
  - intros s s' (_ & Hl & _). apply ledger_wf_ext. exact Hl.
  - intros b m s. apply ledger_wf_ext. apply (setNewBaseImage_effect b m s).
  - exact applyUndoRedo_wf.
  - intros s. apply ledger_wf_ext. apply handleZoomIn_zoom_only.
  - intros s. apply ledger_wf_ext. apply handleZoomOut_zoom_only.
  - intros s. apply ledger_wf_ext. apply handleZoomReset_zoom_only.
  - intros x y s. apply ledger_wf_ext. apply handleDragStart_zoom_only.
  - intros x y s. apply ledger_wf_ext. apply handleDragMove_zoom_only.
  - intros s. apply ledger_wf_ext. apply handleDragEnd_zoom_only.
  - intros s _. apply ledger_wf_ext. apply (toggleComparison_frame s).
  - intros img s H.
    apply (ledger_wf_ext (addToHistory (data img) (inline_mimeType img) s));
      [apply (applyInlineData_effect img s)|].
    apply addToHistory_wf. exact H.
Qed.

(** Every reachable ledger is well formed. *)
Lemma reachable_ledger_wf s : reachable trim s -> ledger_wf s.
Proof.
  intros (page & evs & ->).
  apply run_preserves; [exact ledger_wf_step|].
  split; [left; split; reflexivity | unfold MAX_HISTORY; cbn; lia].
Qed.


(** *** The comparison toggle *)

Lemma comparison_gate_ext s s' :
  lastStyledImageBase64 (slots s') = lastStyledImageBase64 (slots s) ->
  toggleComparisonBtn_disabled (actionButtons s') =
    toggleComparisonBtn_disabled (actionButtons s) ->
  isComparisonMode (comparison s') = isComparisonMode (comparison s) ->
  comparison_gate s -> comparison_gate s'.
Proof.
  unfold comparison_gate. intros E1 E2 E3. rewrite E1, E2, E3. trivial.
Qed.

Lemma zoom_only_gate h s :
  zoom_only h -> comparison_gate s -> comparison_gate (h s).
Proof.
  intros Hh. destruct (Hh s) as (Hs & _ & Hc & Ha).
  apply comparison_gate_ext; rewrite ?Hs, ?Hc, ?Ha; reflexivity.
Qed.

Lemma restoreAtCursor_gate toast s :
  comparison_gate s -> comparison_gate (restoreAtCursor toast s).
Proof.
  intros H. unfold restoreAtCursor.
  destruct (Js.index (entries s) (cursor s)) as [e|]; [|exact H].
  split; [reflexivity | discriminate].
Qed.

Lemma applyUndoRedo_gate s u :
  comparison_gate s -> comparison_gate (applyUndoRedo s u).
Proof.
  intros H. destruct u; unfold applyUndoRedo, handleUndo, handleRedo.
  - destruct (cursor s >? 0); [|exact H].
    apply restoreAtCursor_gate. exact H.
  - destruct (cursor s <? Js.length (entries s) - 1); [|exact H].
    apply restoreAtCursor_gate. exact H.
Qed.

Lemma setNewBaseImage_gate base64 mime s :
  comparison_gate (setNewBaseImage base64 mime s).
Proof.
  destruct (setNewBaseImage_effect base64 mime s)
    as (Hs & _ & _ & _ & _ & Hc & _ & Ht).
  unfold comparison_gate. rewrite Hs, Ht. split; [reflexivity|].
  intros _. exact Hc.
Qed.

Lemma applyInlineData_gate img s : comparison_gate (applyInlineData img s).
Proof.
  destruct (applyInlineData_effect img s) as (Hs & _ & _ & _ & Ht).
  unfold comparison_gate. rewrite Hs, Ht. split; [reflexivity|].
  discriminate.
Qed.

Lemma toggleComparison_gate s :
  toggleComparisonBtn_disabled (actionButtons s) = false ->
  comparison_gate s -> comparison_gate (toggleComparison s).
Proof.
  intros Hen [Hsync Hoff].
  destruct (toggleComparison_frame s) as (Hs & _ & _ & Ha & _).
  unfold comparison_gate. rewrite Hs, Ha. split; [exact Hsync|].
  intros Hnone. rewrite Hnone, Hen in Hsync. discriminate Hsync.
Qed.

Lemma comparison_gate_core s s' :
  core_eq s s' -> comparison_gate s -> comparison_gate s'.
Proof.
  intros (Hs & _ & _ & Hc & Ht).
  apply comparison_gate_ext; [rewrite Hs; reflexivity | exact Ht | exact Hc].
Qed.

Lemma comparison_gate_step a e :
  comparison_gate (st a) -> comparison_gate (st (step trim a e)).
Proof.
  apply step_preserves.
  - exact comparison_gate_core.
  - intros b m s _. apply setNewBaseImage_gate.
  - exact applyUndoRedo_gate.
  - intros s. apply zoom_only_gate, handleZoomIn_zoom_only.
  - intros s. apply zoom_only_gate, handleZoomOut_zoom_only.
  - intros s. apply zoom_only_gate, handleZoomReset_zoom_only.
  - intros x y s. apply zoom_only_gate, handleDragStart_zoom_only.
  - intros x y s. apply zoom_only_gate, handleDragMove_zoom_only.
  - intros s. apply zoom_only_gate, handleDragEnd_zoom_only.
  - exact toggleComparison_gate.
  - intros img s _. apply applyInlineData_gate.
Qed.

(** C7, as the code has it. [toggleComparison] has no guard and reports
    nothing: it flips the flag whenever it runs and never writes a
    message. The guard is the disabled flag of its button. Once a base
    image has been loaded, in every later state the button is disabled
    exactly when no styled image is held; while the last-styled slot is
    null a click on it changes nothing and comparison mode is off; and a
    click that enters comparison mode finds a styled image. Before the
    first image is loaded the flag is the one the document declares; in
    any state, a click on the disabled button changes nothing. *)
Theorem toggle_click_gated a base64 mime evs :
  let a' := run trim (step trim a (ImageLoaded base64 mime)) evs in
  (toggleComparisonBtn_disabled (actionButtons (st a')) =
     negb (Js.truthy (lastStyledImageBase64 (slots (st a'))))) /\
  (lastStyledImageBase64 (slots (st a')) = None ->
   step trim a' ToggleComparisonClick = a' /\
   isComparisonMode (comparison (st a')) = false) /\
  (isComparisonMode (comparison (st a')) = false ->
   isComparisonMode
     (comparison (st (step trim a' ToggleComparisonClick))) = true ->
   Js.truthy (lastStyledImageBase64 (slots (st a'))) = true) /\
  (forall s,
     isComparisonMode (comparison (toggleComparison s)) =
       negb (isComparisonMode (comparison s)) /\
     texts (toggleComparison s) = texts s) /\
  (forall b,
     toggleComparisonBtn_disabled (actionButtons (st b)) = true ->
     step trim b ToggleComparisonClick = b).
Proof.
  intros a'.
  assert (G : comparison_gate (st a')).
  { apply run_preserves; [exact comparison_gate_step|].
    cbn [step on_state st].
    apply (comparison_gate_core _ _ (setLoading_core false _)).
    apply setNewBaseImage_gate. }
  clearbody a'. destruct G as [Hsync Hoff].
  split; [exact Hsync|]. split; [|split].
  - intros Hnone. split; [|exact (Hoff Hnone)].
    rewrite Hnone in Hsync.
    unfold step. rewrite Hsync. reflexivity.
  - intros Hfalse Htrue. unfold step in Htrue.
    destruct (toggleComparisonBtn_disabled (actionButtons (st a'))) eqn:E.
    + rewrite Hfalse in Htrue. discriminate Htrue.
    + symmetry in Hsync. apply negb_false_iff in Hsync. exact Hsync.
  - split.
    + intros s.
      destruct (toggleComparison_frame s) as (_ & _ & _ & _ & Ht & Hc).
      split; assumption.
    + intros b Hb. unfold step. rewrite Hb. reflexivity.
Qed.

(** C7 as stated fails: called with a null last-styled slot,
    [toggleComparison] enters comparison mode and leaves the response
    and toast texts as they were. *)
Lemma toggleComparison_unguarded :
  let s := st (Sample.after Sample.loaded) in
  lastStyledImageBase64 (slots s) = None /\
  isComparisonMode (comparison s) = false /\
  isComparisonMode (comparison (toggleComparison s)) = true /\
  texts (toggleComparison s) = texts s.
Proof.
  vm_compute. repeat split; reflexivity.
Qed.

(** *** Entering comparison mode *)

Lemma toggleComparison_enter s b m b' m' :
  isComparisonMode (comparison s) = false ->
  originalImageBase64 (slots s) = Some b ->
  originalMimeType (slots s) = Some m ->
  Js.nonempty b && Js.nonempty m = true ->
  lastStyledImageBase64 (slots s) = Some b' ->
  lastStyledMimeType (slots s) = Some m' ->
  Js.nonempty b' && Js.nonempty m' = true ->
  let s' := toggleComparison s in
  isComparisonMode (comparison s') = true /\
  beforeAfterContainer_hidden (panels s') = false /\
  images s' =
    {| roomImage_src := roomImage_src (images s);
       beforeImage_src := dataUrl m b;
       afterImage_src := dataUrl m' b' |}.
Proof.
  destruct s as [[cb cm ob om lb lm] cp ld z [c p d] im tx lc hb ab pn].
  cbn [comparison isComparisonMode slots originalImageBase64
       originalMimeType lastStyledImageBase64 lastStyledMimeType images].
  intros -> -> -> Ho -> -> Hl.
  unfold toggleComparison. cbn -[dataUrl Js.nonempty].
  rewrite Ho. cbn -[dataUrl Js.nonempty]. rewrite Hl.
  repeat split; reflexivity.
Qed.






End Reachable.



(** A click on the comparison toggle right after a room was loaded. *)
Lemma toggle_click_gated_witness :
  let a := Sample.after Sample.loaded in
  lastStyledImageBase64 (slots (st a)) = None /\
  step Sample.trim a ToggleComparisonClick = a.
Proof.
  pose proof (toggle_click_gated Sample.trim (initialApp Sample.page)
                "roomA" "image/jpeg"
                [Other (WritePromptValue "add a sofa")]) as H.
  cbv zeta in H. destruct H as (_ & H & _).
  split; [reflexivity | exact (proj1 (H eq_refl))].
Defined.

(** ** Zoom in, then zoom out *)

Section ZoomRoundTrip.

Variable trim : string -> string.



End ZoomRoundTrip.



(** ** The styling call: input checks, request, outcomes *)

Section StyleCall.

Local Open Scope string_scope.
Local Open Scope Z_scope.

Variable trim : string -> string.

Lemma truthy_nonempty b : Js.truthy (Some b) = Js.nonempty b.
Proof. destruct b; reflexivity. Qed.

(** When the first part of [handleStyleRoom] sends a request and when it
    does not. *)
Lemma begin_cases s :
  (Js.truthy (currentImageBase64 (slots s)) &&
   Js.truthy (currentMimeType (slots s)) = false /\
   handleStyleRoom_begin trim s =
     (set_responseText "Please choose or upload a room image first." s,
      None)) \/
  (Js.truthy (currentImageBase64 (slots s)) &&
   Js.truthy (currentMimeType (slots s)) = true /\
   Js.nonempty (trim (promptInput_value (texts s))) = false /\
   handleStyleRoom_begin trim s =
     (set_responseText
        "Please describe what you want to add to the room." s, None)) \/
  (Js.truthy (currentImageBase64 (slots s)) &&
   Js.truthy (currentMimeType (slots s)) = true /\
   Js.nonempty (trim (promptInput_value (texts s))) = true /\
   exists image mime,
     currentImageBase64 (slots s) = Some image /\
     currentMimeType (slots s) = Some mime /\
     handleStyleRoom_begin trim s =
       (resetPlacementMarker (set_responseText "" (setLoading true s)),
        Some {| req_data := image; req_mimeType := mime;
                req_prompt :=
                  match clickPosition s with
                  | Some (x, y) =>
                      trim (promptInput_value (texts s)) ++ " " ++
                      getPlacementDescription x y
                  | None => trim (promptInput_value (texts s))
                  end |})).
Proof.
  unfold handleStyleRoom_begin.
  destruct (currentImageBase64 (slots s)) as [image|];
    [|left; split; reflexivity].
  destruct (currentMimeType (slots s)) as [mime|];
    [|left; split; [apply andb_false_r | reflexivity]].
  rewrite !truthy_nonempty.
  destruct (Js.nonempty image); cbn [negb orb andb];
    [|left; split; reflexivity].
  destruct (Js.nonempty mime); cbn [negb orb andb];
    [|left; split; reflexivity].
  right.
  destruct (Js.nonempty (trim (promptInput_value (texts s)))); cbn [negb].
  - right. split; [reflexivity|]. split; [reflexivity|].
    exists image, mime. split; [reflexivity|]. split; [reflexivity|].
    destruct (clickPosition s) as [[x y]|]; reflexivity.
  - left. split; [reflexivity|]. split; reflexivity.
Qed.

(** X1. A styling request is sent exactly when the current image and its
    MIME type are both non-empty and the trimmed prompt is non-empty.
    Otherwise the handler only writes its message to the response area:
    the image message when the image is missing (whatever the prompt), the
    prompt message when only the prompt is. *)
Theorem style_input_checks s :
  (snd (handleStyleRoom_begin trim s) <> None <->
   Js.truthy (currentImageBase64 (slots s)) = true /\
   Js.truthy (currentMimeType (slots s)) = true /\
   Js.nonempty (trim (promptInput_value (texts s))) = true) /\
  (Js.truthy (currentImageBase64 (slots s)) &&
   Js.truthy (currentMimeType (slots s)) = false ->
   handleStyleRoom_begin trim s =
     (set_responseText "Please choose or upload a room image first." s,
      None)) /\
  (Js.truthy (currentImageBase64 (slots s)) &&
   Js.truthy (currentMimeType (slots s)) = true ->
   Js.nonempty (trim (promptInput_value (texts s))) = false ->
   handleStyleRoom_begin trim s =
     (set_responseText
        "Please describe what you want to add to the room." s, None)).
Proof.
  destruct (begin_cases s)
    as [[Hi E] | [(Hi & Hp & E) | (Hi & Hp & image & mime & _ & _ & E)]];
    rewrite E; cbn [snd].
  - split; [split|split].
    + intros H. exfalso. apply H. reflexivity.
    + intros (H1 & H2 & _). rewrite H1, H2 in Hi. discriminate Hi.
    + reflexivity.
    + intros H. rewrite H in Hi. discriminate Hi.
  - split; [split|split].
    + intros H. exfalso. apply H. reflexivity.
    + intros (_ & _ & H3). rewrite H3 in Hp. discriminate Hp.
    + intros H. rewrite H in Hi. discriminate Hi.
    + reflexivity.
  - split; [split|split].
    + intros _. apply andb_true_iff in Hi. destruct Hi. repeat split; assumption.
    + intros _. discriminate.
    + intros H. rewrite H in Hi. discriminate Hi.
    + intros _ H. rewrite H in Hp. discriminate Hp.
Qed.



Lemma step_StyleClick_sent a s' req :
  styleButton_disabled (loadingControls (st a)) = false ->
  handleStyleRoom_begin trim (st a) = (s', Some req) ->
  step trim a StyleClick = {| st := s'; inflight := S (inflight a) |}.
Proof. intros H E. unfold step. rewrite H, E. reflexivity. Qed.

Lemma step_StyleClick_disabled a :
  styleButton_disabled (loadingControls (st a)) = true ->
  step trim a StyleClick = a.
Proof. intros H. unfold step. rewrite H. reflexivity. Qed.

(** X3. While a styling call is loading, the style button is disabled and
    a second click on it does nothing: the click that sends a request
    raises the number of calls in flight by one, and the next click leaves
    the application as it is. *)
Theorem style_click_while_loading a :
  styleButton_disabled (loadingControls (st a)) = false ->
  snd (handleStyleRoom_begin trim (st a)) <> None ->
  let a1 := step trim a StyleClick in
  inflight a1 = S (inflight a) /\
  styleButton_disabled (loadingControls (st a1)) = true /\
  step trim a1 StyleClick = a1.
Proof.
  intros Hen Hsent.
  destruct (begin_cases (st a))
    as [[_ E] | [(_ & _ & E) | (_ & _ & image & mime & _ & _ & E)]];
    rewrite E in Hsent; try (exfalso; apply Hsent; reflexivity).
  cbv zeta. rewrite (step_StyleClick_sent a _ _ Hen E). cbn [st inflight].
  split; [reflexivity|]. split; [reflexivity|].
  apply step_StyleClick_disabled. reflexivity.
Qed.

Lemma setNewBaseImage_texts base64 mime s :
  texts (setNewBaseImage base64 mime s) = texts s.
Proof.
  unfold setNewBaseImage.
  destruct s as [sl cp ld z [c p d] im tx lc hb ab pn]; simpl.
  destruct c; reflexivity.
Qed.


Lemma step_ImageLoaded a base64 mime :
  step trim a (ImageLoaded base64 mime) =
    {| st := setLoading false (setNewBaseImage base64 mime (st a));
       inflight := inflight a |}.
Proof. reflexivity. Qed.



(** X5. However a styling call ends (image, text only, error), the handler
    leaves the loading state: the style button and the prompt are enabled,
    the overlay is hidden, and the video button is enabled exactly when a
    styled image is held. *)
Theorem style_settle_ends_loading r s :
  let s' := handleStyleRoom_settle r s in
  styleButton_disabled (loadingControls s') = false /\
  promptInput_disabled (loadingControls s') = false /\
  loadingOverlay_hidden (loadingControls s') = true /\
  videoButton_disabled (loadingControls s') =
    negb (Js.truthy (lastStyledImageBase64 (slots s'))).
Proof.
  unfold handleStyleRoom_settle. cbv zeta.
  match goal with
  | |- context [setLoading false ?x] => generalize x
  end.
  intros x. repeat split; reflexivity.
Qed.

(** X6. When the styling call fails with an error, the whole handler
    leaves the image slots, the ledger, the view state and the three image
    sources as they were before the click, and the response area shows the
    error message. *)
Theorem style_error_changes_no_image message s :
  snd (handleStyleRoom_begin trim s) <> None ->
  let s' := handleStyleRoom trim (ApiError message) s in
  slots s' = slots s /\ ledger s' = ledger s /\
  zoom s' = zoom s /\ comparison s' = comparison s /\
  images s' = images s /\
  historyButtons s' = historyButtons s /\
  actionButtons s' = actionButtons s /\
  responseText (texts s') = "An error occurred: " ++ message.
Proof.
  intros Hsent.
  destruct (begin_cases s)
    as [[_ E] | [(_ & _ & E) | (_ & _ & image & mime & _ & _ & E)]];
    rewrite E in Hsent; try (exfalso; apply Hsent; reflexivity).
  cbv zeta. unfold handleStyleRoom. rewrite E.
  repeat split; reflexivity.
Qed.

Lemma pushImages_ledger_ext imgs : forall s1 s2,
  ledger s1 = ledger s2 ->
  ledger (pushImages imgs s1) = ledger (pushImages imgs s2).
Proof.
  induction imgs as [|img imgs IH]; intros s1 s2 H; [exact H|].
  unfold pushImages. cbn [fold_left]. apply IH.
  apply addToHistory_ledger_ext. exact H.
Qed.

Lemma fold_stylePart_effect parts : forall s found,
  ledger (fst (fold_left stylePart parts (s, found))) =
    ledger (pushImages (inlineImages parts) s) /\
  slots (fst (fold_left stylePart parts (s, found))) =
    fold_left showImage (inlineImages parts) (slots s).
Proof.
  induction parts as [|p parts IH]; intros s found;
    [split; reflexivity|].
  cbn [fold_left inlineImages].
  assert (Htext : forall msg f,
    ledger (fst (fold_left stylePart parts (set_responseText msg s, f))) =
      ledger (pushImages (inlineImages parts) s) /\
    slots (fst (fold_left stylePart parts (set_responseText msg s, f))) =
      fold_left showImage (inlineImages parts) (slots s)).
  { intros msg f. destruct (IH (set_responseText msg s) f) as [H1 H2].
    split; [|exact H2].
    rewrite H1. apply pushImages_ledger_ext. reflexivity. }
  assert (Himg : forall img f,
    ledger (fst (fold_left stylePart parts (applyInlineData img s, f))) =
      ledger (pushImages (img :: inlineImages parts) s) /\
    slots (fst (fold_left stylePart parts (applyInlineData img s, f))) =
      fold_left showImage (img :: inlineImages parts) (slots s)).
  { intros img f.
    destruct (applyInlineData_effect img s) as (Hs & Hl & _).
    cbv zeta in Hs, Hl.
    destruct (IH (applyInlineData img s) f) as [H1 H2].
    split.
    - rewrite H1. unfold pushImages at 2. cbn [fold_left].
      apply pushImages_ledger_ext. exact Hl.
    - rewrite H2, Hs. reflexivity. }
  unfold stylePart at 2 4.
  destruct (text p) as [[|c t]|]; destruct (inlineData p) as [img|];
    try apply Htext; try apply Himg; apply IH.
Qed.

Lemma fold_showImage_last pre img sl :
  fold_left showImage (pre ++ [img]) sl =
    {| currentImageBase64 := Some (data img);
       currentMimeType := Some (inline_mimeType img);
       originalImageBase64 := originalImageBase64 sl;
       originalMimeType := originalMimeType sl;
       lastStyledImageBase64 := Some (data img);
       lastStyledMimeType := Some (inline_mimeType img) |}.
Proof.
  rewrite fold_left_app. cbn [fold_left]. unfold showImage at 1.
  f_equal; clear img; revert sl;
    induction pre as [|q pre IH]; intros sl; try reflexivity;
    cbn [fold_left]; rewrite IH; reflexivity.
Qed.

(** X7. A response may hold several inline images: each one is pushed onto
    the ledger, in the order of the parts, and the last one is the image
    on display and the last styled image; the original is kept. With no
    inline image the slots are untouched. *)
Theorem response_images_all_pushed parts s :
  let s' := handleStyleRoom_settle (ApiParts parts) s in
  ledger s' = ledger (pushImages (inlineImages parts) s) /\
  originalImageBase64 (slots s') = originalImageBase64 (slots s) /\
  originalMimeType (slots s') = originalMimeType (slots s) /\
  (inlineImages parts = [] -> slots s' = slots s) /\
  (forall pre img,
     inlineImages parts = (pre ++ [img])%list ->
     currentImageBase64 (slots s') = Some (data img) /\
     currentMimeType (slots s') = Some (inline_mimeType img) /\
     lastStyledImageBase64 (slots s') = Some (data img) /\
     lastStyledMimeType (slots s') = Some (inline_mimeType img)).
Proof.
  destruct (fold_stylePart_effect parts s false) as [Hl Hs].
  assert (E : forall x : State * bool,
            ledger (setLoading false
                      (if negb (snd x)
                       then set_responseText SOFT_FAILURE (fst x)
                       else fst x)) = ledger (fst x) /\
            slots (setLoading false
                     (if negb (snd x)
                      then set_responseText SOFT_FAILURE (fst x)
                      else fst x)) = slots (fst x)).
  { intros [x f]. destruct f; split; reflexivity. }
  assert (S' : handleStyleRoom_settle (ApiParts parts) s =
               setLoading false
                 (if negb (snd (fold_left stylePart parts (s, false)))
                  then set_responseText SOFT_FAILURE
                         (fst (fold_left stylePart parts (s, false)))
                  else fst (fold_left stylePart parts (s, false)))).
  { unfold handleStyleRoom_settle.
    destruct (fold_left stylePart parts (s, false)) as [x f]. reflexivity. }
  cbv zeta. rewrite S'.
  destruct (E (fold_left stylePart parts (s, false))) as [El Es].
  rewrite El, Es, Hl, Hs.
  split; [reflexivity|].
  assert (Ho : forall imgs sl,
            originalImageBase64 (fold_left showImage imgs sl) =
              originalImageBase64 sl /\
            originalMimeType (fold_left showImage imgs sl) =
              originalMimeType sl).
  { induction imgs as [|q imgs IH]; intros sl; [split; reflexivity|].
    cbn [fold_left]. destruct (IH (showImage sl q)) as [H1 H2].
    rewrite H1, H2. split; reflexivity. }
  destruct (Ho (inlineImages parts) (slots s)) as [Ho1 Ho2].
  split; [exact Ho1|]. split; [exact Ho2|]. split.
  - intros ->. reflexivity.
  - intros pre img ->. rewrite fold_showImage_last.
    repeat split; reflexivity.
Qed.

End StyleCall.


(** Two clicks on the style button in a row. *)
Lemma style_click_while_loading_witness :
  let a1 := step Sample.trim (Sample.after Sample.loaded) StyleClick in
  inflight a1 = 1%nat /\ step Sample.trim a1 StyleClick = a1.
Proof.
  assert (H1 : styleButton_disabled
                 (loadingControls (st (Sample.after Sample.loaded))) = false)
    by reflexivity.
  assert (H2 : snd (handleStyleRoom_begin Sample.trim
                      (st (Sample.after Sample.loaded))) <> None)
    by (vm_compute; discriminate).
  destruct (style_click_while_loading Sample.trim _ H1 H2) as (A & _ & B).
  split; [exact A | exact B].
Defined.


(** The service is unreachable. *)
Lemma style_error_witness :
  let s := st (Sample.after Sample.loaded) in
  let s' := handleStyleRoom Sample.trim (ApiError "Failed to fetch") s in
  slots s' = slots s /\
  responseText (texts s') = "An error occurred: Failed to fetch"%string.
Proof.
  assert (H2 : snd (handleStyleRoom_begin Sample.trim
                      (st (Sample.after Sample.loaded))) <> None)
    by (vm_compute; discriminate).
  destruct (style_error_changes_no_image Sample.trim "Failed to fetch" _ H2)
    as (A & _ & _ & _ & _ & _ & _ & B).
  split; [exact A | exact B].
Defined.

(** ** More on the ledger *)

Section LedgerMore.

Local Open Scope string_scope.
Local Open Scope Z_scope.

Variable trim : string -> string.

Lemma wf_cursor_range s :
  ledger_wf s -> -1 <= cursor s < Js.length (entries s).
Proof.
  intros [[[He Hi] | Hc] _]; [|lia].
  rewrite He, Hi. unfold Js.length. simpl. lia.
Qed.

(** Where a push leaves the cursor and how many entries it leaves. *)
Lemma addToHistory_cursor_last image mime s :
  ledger_wf s ->
  let s' := addToHistory image mime s in
  cursor s' = Js.length (entries s') - 1 /\
  Js.length (entries s') = Z.min (cursor s + 2) MAX_HISTORY.
Proof.
  intros Hwf.
  pose proof (addToHistory_ledger image mime s) as HL.
  cbv zeta in HL. rewrite (kept_is_prefix s Hwf) in HL.
  pose proof (wf_cursor_range s Hwf) as Hb.
  destruct Hwf as [_ Hl].
  set (kept := firstn (Z.to_nat (cursor s + 1)) (entries s)) in *.
  assert (Hk : Js.length kept = cursor s + 1)
    by (apply length_firstn_Z; lia).
  set (pushed := Js.push kept {| imageBase64 := image; mimeType := mime |})
    in *.
  assert (Hp : Js.length pushed = cursor s + 2)
    by (unfold pushed; rewrite length_push; lia).
  cbv zeta. unfold cursor, entries, MAX_HISTORY in *.
  destruct (Js.length pushed >? 20) eqn:E; rewrite HL;
    cbn [history historyIndex].
  - apply Z.gtb_lt in E.
    rewrite (length_shift pushed) by lia. lia.
  - rewrite Z.gtb_ltb in E. apply Z.ltb_ge in E. lia.
Qed.

Lemma addToHistory_buttons image mime s :
  let s' := addToHistory image mime s in
  historyButtons s' =
    {| undoButton_disabled := cursor s' <=? 0;
       redoButton_disabled := cursor s' >=? Js.length (entries s') - 1 |}.
Proof.
  unfold addToHistory, cursor, entries.
  destruct s as [sl cp [h i] z c im tx lc hb ab pn]; simpl.
  destruct (i <? Js.length h - 1); simpl;
    match goal with |- context [?a >? ?b] => destruct (a >? b) end;
    reflexivity.
Qed.

(** X8. A push discards the redo branch. On a well-formed ledger, after
    [addToHistory] exactly the entries up to the old cursor plus the new
    one are held (at most 20), redo does nothing and its button is
    disabled, and the undo button is enabled exactly when there is a
    snapshot before the new one. *)
Theorem push_discards_redo image mime s :
  ledger_wf s ->
  let s' := addToHistory image mime s in
  Js.length (entries s') = Z.min (cursor s + 2) MAX_HISTORY /\
  handleRedo s' = s' /\
  redoButton_disabled (historyButtons s') = true /\
  undoButton_disabled (historyButtons s') = (Js.length (entries s') <=? 1).
Proof.
  intros Hwf.
  destruct (addToHistory_cursor_last image mime s Hwf) as [Hc Hn].
  pose proof (addToHistory_buttons image mime s) as Hb.
  cbv zeta in *.
  generalize dependent (addToHistory image mime s). intros s' Hc Hn Hb.
  split; [exact Hn|]. split; [|split].
  - unfold handleRedo. rewrite Hc.
    rewrite (proj2 (Z.ltb_ge _ _)) by lia. reflexivity.
  - rewrite Hb. cbn [redoButton_disabled]. rewrite Hc.
    apply Z.geb_le. lia.
  - rewrite Hb. cbn [undoButton_disabled]. rewrite Hc.
    destruct (Js.length (entries s') <=? 1) eqn:E.
    + apply Z.leb_le in E. apply Z.leb_le. lia.
    + apply Z.leb_gt in E. apply Z.leb_gt. lia.
Qed.

(** X9. Redo followed at once by undo is a round trip too: when redo is
    possible from a valid cursor, the sequence and the cursor are as
    before and the snapshot under the cursor is on display. *)
Theorem redo_then_undo s :
  0 <= cursor s < Js.length (entries s) - 1 ->
  let s' := handleUndo (handleRedo s) in
  cursor s' = cursor s /\
  entries s' = entries s /\
  current_at_cursor s' /\
  (current_at_cursor s ->
   currentImageBase64 (slots s') = currentImageBase64 (slots s) /\
   currentMimeType (slots s') = currentMimeType (slots s)).
Proof.
  intros Hc s'.
  destruct (index_in_range (entries s) (cursor s + 1)) as [n Hn]; [lia|].
  destruct (index_in_range (entries s) (cursor s)) as [e He]; [lia|].
  destruct (handleRedo_moves s n) as (R1 & R2 & _); [lia | exact Hn |].
  destruct (handleUndo_moves (handleRedo s) e) as (U1 & U2 & U3 & U4 & _).
  - rewrite R2. lia.
  - rewrite R1, R2. replace (cursor s + 1 - 1) with (cursor s) by lia.
    exact He.
  - fold s' in U1, U2, U3, U4.
    assert (Hcur : cursor s' = cursor s) by (rewrite U2, R2; lia).
    assert (Hent : entries s' = entries s) by (rewrite U1, R1; reflexivity).
    split; [exact Hcur|]. split; [exact Hent|]. split.
    + exists e. rewrite Hent, Hcur. repeat split; assumption.
    + intros (e0 & He0 & Hb & Hm).
      rewrite He in He0. injection He0 as <-.
      rewrite U3, U4, Hb, Hm. split; reflexivity.
Qed.

Lemma undo_step s :
  0 <= cursor s < Js.length (entries s) ->
  entries (handleUndo s) = entries s /\
  cursor (handleUndo s) = Z.max 0 (cursor s - 1) /\
  originalImageBase64 (slots (handleUndo s)) = originalImageBase64 (slots s) /\
  (0 < cursor s -> current_at_cursor (handleUndo s)).
Proof.
  intros Hc.
  destruct (applyUndoRedo_view s Undo) as (Ho & _).
  cbn [applyUndoRedo] in Ho.
  destruct (Z_lt_le_dec 0 (cursor s)) as [Hpos | Hzero].
  - destruct (index_in_range (entries s) (cursor s - 1)) as [p Hp]; [lia|].
    destruct (handleUndo_moves s p Hpos Hp) as (U1 & U2 & U3 & U4 & _).
    split; [exact U1|]. split; [rewrite U2; lia|]. split; [exact Ho|].
    intros _. exists p. rewrite U1, U2. repeat split; assumption.
  - unfold handleUndo.
    rewrite Z.gtb_ltb, (proj2 (Z.ltb_ge _ _)) by lia.
    split; [reflexivity|]. split; [lia|]. split; [reflexivity|]. lia.
Qed.


(** X11. In every reachable state at most 20 snapshots are held and the
    cursor is -1 on an empty ledger and on a snapshot otherwise, so undo
    and redo never read outside the array: each of them either changes
    nothing or puts the snapshot under the new cursor on display. *)
Theorem reachable_cursor_on_snapshot s :
  reachable trim s ->
  Js.length (entries s) <= MAX_HISTORY /\
  ((entries s = [] /\ cursor s = -1) \/
   exists e, Js.index (entries s) (cursor s) = Some e) /\
  (forall u,
     applyUndoRedo s u = s \/ current_at_cursor (applyUndoRedo s u)).
Proof.
  intros Hr. pose proof (reachable_ledger_wf trim s Hr) as Hwf.
  pose proof (wf_cursor_range s Hwf) as Hb.
  destruct Hwf as [Hc Hl]. split; [exact Hl|]. split.
  - destruct Hc as [He | Hc]; [left; exact He | right].
    apply index_in_range. exact Hc.
  - intros u. destruct u; cbn [applyUndoRedo].
    + destruct (Z_lt_le_dec 0 (cursor s)) as [Hpos | Hzero].
      * right. apply undo_step; lia.
      * left. unfold handleUndo.
        rewrite Z.gtb_ltb, (proj2 (Z.ltb_ge _ _)) by lia. reflexivity.
    + destruct (Z_lt_le_dec (cursor s) (Js.length (entries s) - 1))
        as [Hlt | Hge].
      * right.
        destruct (index_in_range (entries s) (cursor s + 1)) as [e He];
          [lia|].
        destruct (handleRedo_moves s e Hlt He) as (R1 & R2 & R3 & R4 & _).
        exists e. rewrite R1, R2. repeat split; assumption.
      * left. unfold handleRedo.
        rewrite (proj2 (Z.ltb_ge _ _)) by lia. reflexivity.
Qed.

End LedgerMore.

(** Two snapshots, the cursor on the first: a push replaces the second. *)
Lemma push_discards_redo_witness :
  let s := st (Sample.after (Sample.styledTwice ++ [UndoKey])) in
  let s' := addToHistory "styledD" "image/png" s in
  cursor s = 0 /\ Js.length (entries s) = 2 /\
  Js.length (entries s') = 2 /\ handleRedo s' = s'.
Proof.
  assert (H : ledger_wf (st (Sample.after (Sample.styledTwice ++ [UndoKey])))).
  { split; [right; vm_compute; split; [discriminate | reflexivity]
           | vm_compute; discriminate]. }
  destruct (push_discards_redo "styledD" "image/png" _ H) as (A & B & _).
  split; [reflexivity|]. split; [reflexivity|].
  split; [rewrite A; reflexivity | exact B].
Defined.

(** Redo then undo from the first of two snapshots. *)
Lemma redo_then_undo_witness :
  let s := st (Sample.after (Sample.styledTwice ++ [UndoKey])) in
  cursor (handleUndo (handleRedo s)) = 0 /\
  entries (handleUndo (handleRedo s)) = entries s.
Proof.
  assert (H : 0 <= cursor (st (Sample.after (Sample.styledTwice ++ [UndoKey])))
              < Js.length
                  (entries (st (Sample.after
                                  (Sample.styledTwice ++ [UndoKey])))) - 1)
    by (vm_compute; split; [discriminate | reflexivity]).
  destruct (redo_then_undo _ H) as (A & B & _).
  split; [rewrite A; reflexivity | exact B].
Defined.


(** The state after two stylings is reachable. *)
Lemma reachable_cursor_on_snapshot_witness :
  Js.length (entries (st (Sample.after Sample.styledTwice))) <= MAX_HISTORY.
Proof.
  assert (Hr : reachable Sample.trim (st (Sample.after Sample.styledTwice)))
    by (exists Sample.page, Sample.styledTwice; reflexivity).
  exact (proj1 (reachable_cursor_on_snapshot Sample.trim _ Hr)).
Defined.

(** ** Buttons and slider along the event loop *)

Section PageInvariants.

Local Open Scope string_scope.
Local Open Scope Z_scope.

Variable trim : string -> string.

Lemma page_eq_refl s : page_eq s s.
Proof. repeat split; reflexivity. Qed.

Lemma setLoading_page b s : page_eq s (setLoading b s).
Proof. repeat split; reflexivity. Qed.

Lemma set_responseText_page msg s : page_eq s (set_responseText msg s).
Proof. repeat split; reflexivity. Qed.

Lemma peripheral_page w s : page_eq s (peripheral w s).
Proof. destruct w; repeat split; reflexivity. Qed.

Lemma begin_page s : page_eq s (fst (handleStyleRoom_begin trim s)).
Proof.
  destruct (begin_cases trim s)
    as [[_ E] | [(_ & _ & E) | (_ & _ & image & mime & _ & _ & E)]];
    rewrite E; repeat split; reflexivity.
Qed.

Lemma toggleComparison_page s : page_eq s (toggleComparison s).
Proof.
  destruct s as [[cb cm ob om lb lm] cp ld z [c p d] im tx lc hb ab pn].
  unfold toggleComparison.
  destruct c; cbn -[dataUrl]; [repeat split; reflexivity|].
  destruct ob as [ob|]; destruct om as [om|];
    try destruct (Js.nonempty ob && Js.nonempty om);
    cbn -[dataUrl];
    destruct lb as [lb|]; destruct lm as [lm|];
    try destruct (Js.nonempty lb && Js.nonempty lm);
    repeat split; reflexivity.
Qed.

Lemma zoom_handlers_page s :
  page_eq s (handleZoomIn s) /\ page_eq s (handleZoomOut s) /\
  page_eq s (handleZoomReset s) /\ page_eq s (handleDragEnd s) /\
  (forall x y, page_eq s (handleDragStart x y s)) /\
  (forall x y, page_eq s (handleDragMove x y s)).
Proof.
  split; [|split; [|split; [|split; [|split]]]].
  - unfold handleZoomIn. destruct (Js.ltb _ _); repeat split; reflexivity.
  - unfold handleZoomOut. destruct (Js.gtb _ _); [|repeat split; reflexivity].
    cbv zeta. destruct (Qeq_bool _ _); repeat split; reflexivity.
  - repeat split; reflexivity.
  - unfold handleDragEnd. destruct (isDragging _); repeat split; reflexivity.
  - intros x y. unfold handleDragStart.
    destruct (Js.gtb _ _); repeat split; reflexivity.
  - intros x y. unfold handleDragMove.
    destruct (isDragging _ && Js.gtb _ _); repeat split; reflexivity.
Qed.

(** The answer to a styling call keeps what the image branch and the
    message writes keep. *)
Lemma settle_preserves_page (P : State -> Prop) :
  (forall s s', page_eq s s' -> P s -> P s') ->
  (forall img s, P s -> P (applyInlineData img s)) ->
  forall r s, P s -> P (handleStyleRoom_settle r s).
Proof.
  intros Hpage Himg r s H.
  assert (Hpart : forall p s found, P s -> P (fst (stylePart (s, found) p))).
  { intros p s0 found H0. unfold stylePart.
    destruct (text p) as [[|c t]|]; destruct (inlineData p) as [img|];
      cbn [fst]; auto;
      apply (Hpage s0); auto using set_responseText_page. }
  assert (Hfold : forall parts s found,
            P s -> P (fst (fold_left stylePart parts (s, found)))).
  { induction parts as [|p parts IH]; intros s0 found H0; [exact H0|].
    cbn [fold_left].
    specialize (Hpart p s0 found H0).
    destruct (stylePart (s0, found) p) as [s1 f1]. apply IH. exact Hpart. }
  unfold handleStyleRoom_settle.
  apply (Hpage _ _ (setLoading_page false _)).
  destruct r as [parts|message].
  - specialize (Hfold parts s false H).
    destruct (fold_left stylePart parts (s, false)) as [s1 f1].
    cbn [fst] in Hfold.
    destruct (negb f1); [|exact Hfold].
    apply (Hpage s1); auto using set_responseText_page.
  - apply (Hpage s); auto using set_responseText_page.
Qed.

(** A property of slots, ledger, slider and buttons that the four
    state-changing handlers keep is kept by every event. *)
Lemma step_preserves_page (P : State -> Prop) :
  (forall s s', page_eq s s' -> P s -> P s') ->
  (forall b m s, P s -> P (setNewBaseImage b m s)) ->
  (forall s u, P s -> P (applyUndoRedo s u)) ->
  (forall img s, P s -> P (applyInlineData img s)) ->
  (forall percent s,
     P s ->
     P (with_comparison
          {| isComparisonMode := isComparisonMode (comparison s);
             sliderPosition := Qmax 0 (Qmin 100 percent);
             isSliderDragging := isSliderDragging (comparison s) |} s)) ->
  forall a e, P (st a) -> P (st (step trim a e)).
Proof.
  intros Hpage Hbase Hur Himg Hslider a e H.
  destruct (zoom_handlers_page (st a)) as (Z1 & Z2 & Z3 & Z4 & Z5 & Z6).
  destruct e; cbn [step].
  - cbn [on_state st]. apply (Hpage _ _ (setLoading_page false _)).
    apply Hbase. exact H.
  - cbn [on_state st]. apply (Hpage (st a)); [|exact H].
    repeat split; reflexivity.
  - destruct (undoButton_disabled _); [exact H|]. apply (Hur _ Undo H).
  - destruct (redoButton_disabled _); [exact H|]. apply (Hur _ Redo H).
  - apply (Hur _ Undo H).
  - apply (Hur _ Redo H).
  - destruct (zoomInButton_disabled _); [exact H|]. apply (Hpage _ _ Z1 H).
  - destruct (zoomOutButton_disabled _); [exact H|]. apply (Hpage _ _ Z2 H).
  - destruct (zoomResetButton_disabled _); [exact H|].
    apply (Hpage _ _ Z3 H).
  - apply (Hpage _ _ (Z5 clientX clientY) H).
  - apply (Hpage _ _ (Z6 clientX clientY) H).
  - apply (Hpage _ _ Z4 H).
  - destruct (toggleComparisonBtn_disabled _); [exact H|].
    apply (Hpage _ _ (toggleComparison_page _) H).
  - cbn [on_state st]. apply (Hpage (st a)); [|exact H].
    repeat split; reflexivity.
  - destruct (isSliderDragging _ && isComparisonMode _); [|exact H].
    cbn [on_state st]. apply Hslider. exact H.
  - cbn [on_state st]. apply (Hpage (st a)); [|exact H].
    repeat split; reflexivity.
  - destruct (styleButton_disabled _); [exact H|].
    pose proof (begin_page (st a)) as Hb.
    destruct (handleStyleRoom_begin trim (st a)) as [s' [req|]];
      cbn [st fst] in *; apply (Hpage _ _ Hb H).
  - destruct (inflight a) as [|n]; [exact H|]. cbn [st].
    apply settle_preserves_page; assumption.
  - cbn [on_state st]. apply (Hpage _ _ (peripheral_page w _)). exact H.
Qed.


(** *** History buttons *)

Lemma restoreAtCursor_buttons toast s e :
  Js.index (entries s) (cursor s) = Some e ->
  history_buttons_synced (restoreAtCursor toast s).
Proof.
  intros H. unfold restoreAtCursor. rewrite H. split; reflexivity.
Qed.

Lemma applyUndoRedo_history_inv s u :
  history_inv s -> history_inv (applyUndoRedo s u).
Proof.
  intros [Hwf Hsync]. split; [apply applyUndoRedo_wf; exact Hwf|].
  pose proof (wf_cursor_range s Hwf) as Hb.
  assert (Hmove : forall toast i,
            0 <= i < Js.length (entries s) ->
            history_buttons_synced
              (restoreAtCursor toast (set_historyIndex i s))).
  { intros toast i Hi.
    destruct (index_in_range (entries s) i Hi) as [e He].
    apply (restoreAtCursor_buttons toast (set_historyIndex i s) e). exact He. }
  assert (Hent : entries (applyUndoRedo s u) = entries s).
  { destruct u; unfold applyUndoRedo, handleUndo, handleRedo.
    - destruct (cursor s >? 0); [|reflexivity].
      unfold entries.
      rewrite (proj1 (restoreAtCursor_frame _ _)). reflexivity.
    - destruct (cursor s <? Js.length (entries s) - 1); [|reflexivity].
      unfold entries.
      rewrite (proj1 (restoreAtCursor_frame _ _)). reflexivity. }
  rewrite Hent. intros Hne. specialize (Hsync Hne).
  destruct u; unfold applyUndoRedo, handleUndo, handleRedo.
  - destruct (cursor s >? 0) eqn:E; [|exact Hsync].
    rewrite Z.gtb_ltb in E. apply Z.ltb_lt in E. apply Hmove. lia.
  - destruct (cursor s <? Js.length (entries s) - 1) eqn:E; [|exact Hsync].
    apply Z.ltb_lt in E. apply Hmove. lia.
Qed.

Lemma applyInlineData_history_inv img s :
  history_inv s -> history_inv (applyInlineData img s).
Proof.
  intros [Hwf _].
  split.
  - apply (ledger_wf_ext (addToHistory (data img) (inline_mimeType img) s));
      [apply (applyInlineData_effect img s)|].
    apply addToHistory_wf. exact Hwf.
  - intros _. unfold applyInlineData. cbv zeta.
    match goal with
    | |- context [addToHistory ?d ?m ?s0] =>
        pose proof (addToHistory_buttons d m s0) as Hb;
        cbv zeta in Hb;
        generalize dependent (addToHistory d m s0)
    end.
    intros x Hb. unfold history_buttons_synced. 
    change (historyButtons
              (showToast "Room styled successfully!"
                 (set_videoButton_disabled false
                    (with_panels
                       {| videoControls_hidden := false;
                          videoContainer_hidden :=
                            videoContainer_hidden
                              (panels (updateActionButtons x));
                          beforeAfterContainer_hidden :=
                            beforeAfterContainer_hidden
                              (panels (updateActionButtons x));
                          roomImage_hidden :=
                            roomImage_hidden (panels (updateActionButtons x));
                          aiSuggestionsPanel_hidden :=
                            aiSuggestionsPanel_hidden
                              (panels (updateActionButtons x));
                          costPanel_hidden :=
                            costPanel_hidden (panels (updateActionButtons x));
                          placementMarker_hidden :=
                            placementMarker_hidden
                              (panels (updateActionButtons x)) |}
                       (updateActionButtons x)))))
      with (historyButtons x).
    rewrite Hb. split; reflexivity.
Qed.

Lemma history_inv_step a e :
  history_inv (st a) -> history_inv (st (step trim a e)).
Proof.
  apply step_preserves_page.
  - intros s s' (_ & Hl & _ & Hh & _) [Hwf Hsync].
    unfold history_inv, history_buttons_synced, ledger_wf, cursor, entries
      in *.
    rewrite Hl, Hh. split; assumption.
  - intros b m s [Hwf Hsync].
    destruct (setNewBaseImage_effect b m s) as (_ & _ & Hl & Hh & _).
    unfold history_inv, history_buttons_synced, ledger_wf, cursor, entries
      in *.
    cbv zeta in Hl, Hh. rewrite Hl, Hh. split; assumption.
  - exact applyUndoRedo_history_inv.
  - exact applyInlineData_history_inv.
  - intros percent s H. exact H.
Qed.

(** X12. Along every run of the page the undo and redo buttons agree with
    the ledger as soon as it holds a snapshot (undo disabled exactly at
    cursor 0, redo disabled exactly at the last index), and at every
    moment a click on either button does what its keyboard shortcut
    does. *)
Theorem history_buttons_follow_ledger page evs :
  let a := run trim (initialApp page) evs in
  (entries (st a) <> [] ->
   undoButton_disabled (historyButtons (st a)) = (cursor (st a) <=? 0) /\
   redoButton_disabled (historyButtons (st a)) =
     (cursor (st a) >=? Js.length (entries (st a)) - 1)) /\
  step trim a UndoClick = step trim a UndoKey /\
  step trim a RedoClick = step trim a RedoKey.
Proof.
  intros a.
  assert (H : history_inv (st a)).
  { apply run_preserves; [exact history_inv_step|].
    split; [|intros C; exfalso; apply C; reflexivity].
    split; [left; split; reflexivity | unfold MAX_HISTORY; cbn; lia]. }
  clearbody a. destruct H as [Hwf Hsync].
  split; [exact Hsync|].
  pose proof (wf_cursor_range _ Hwf) as Hb.
  destruct a as [s n]. cbn [st] in *.
  assert (Hundo : undoButton_disabled (historyButtons s) = true ->
                  handleUndo s = s).
  { intros Hd. unfold handleUndo.
    destruct (cursor s >? 0) eqn:E; [|reflexivity].
    rewrite Z.gtb_ltb in E. apply Z.ltb_lt in E. exfalso.
    assert (Hne : entries s <> []).
    { intros C. rewrite C in Hb. unfold Js.length in Hb. simpl in Hb. lia. }
    destruct (Hsync Hne) as [Hu _]. rewrite Hd in Hu.
    symmetry in Hu. apply Z.leb_le in Hu. lia. }
  assert (Hredo : redoButton_disabled (historyButtons s) = true ->
                  handleRedo s = s).
  { intros Hd. unfold handleRedo.
    destruct (cursor s <? Js.length (entries s) - 1) eqn:E; [|reflexivity].
    apply Z.ltb_lt in E. exfalso.
    assert (Hne : entries s <> []).
    { intros C. rewrite C in Hb, E. unfold Js.length in Hb, E.
      simpl in Hb, E. lia. }
    destruct (Hsync Hne) as [_ Hr]. rewrite Hd in Hr.
    symmetry in Hr. apply Z.geb_le in Hr. lia. }
  unfold step, on_state. cbn [st inflight].
  split.
  - destruct (undoButton_disabled (historyButtons s)) eqn:E;
      [rewrite (Hundo eq_refl)|]; reflexivity.
  - destruct (redoButton_disabled (historyButtons s)) eqn:E;
      [rewrite (Hredo eq_refl)|]; reflexivity.
Qed.


(** *** Action buttons *)

Lemma updateActionButtons_synced s :
  action_buttons_synced (updateActionButtons s).
Proof. repeat split; reflexivity. Qed.

Lemma action_buttons_synced_ext s s' :
  slots s' = slots s -> actionButtons s' = actionButtons s ->
  action_buttons_synced s -> action_buttons_synced s'.
Proof.
  unfold action_buttons_synced. intros E1 E2. rewrite E1, E2. trivial.
Qed.

Lemma setNewBaseImage_action_buttons base64 mime s :
  action_buttons_synced (setNewBaseImage base64 mime s).
Proof.
  unfold setNewBaseImage. cbv zeta.
  match goal with
  | |- context [updateActionButtons ?x] =>
      pose proof (updateActionButtons_synced x) as H;
      generalize dependent (updateActionButtons x)
  end.
  intros y H.
  apply (action_buttons_synced_ext y); [reflexivity | reflexivity | exact H].
Qed.

Lemma restoreAtCursor_action_buttons toast s :
  action_buttons_synced s -> action_buttons_synced (restoreAtCursor toast s).
Proof.
  intros H. unfold restoreAtCursor.
  destruct (Js.index (entries s) (cursor s)) as [e|]; [|exact H].
  repeat split; reflexivity.
Qed.

Lemma applyUndoRedo_action_buttons s u :
  action_buttons_synced s -> action_buttons_synced (applyUndoRedo s u).
Proof.
  intros H. destruct u; unfold applyUndoRedo, handleUndo, handleRedo.
  - destruct (cursor s >? 0); [|exact H].
    apply restoreAtCursor_action_buttons. exact H.
  - destruct (cursor s <? Js.length (entries s) - 1); [|exact H].
    apply restoreAtCursor_action_buttons. exact H.
Qed.

Lemma applyInlineData_action_buttons img s :
  action_buttons_synced (applyInlineData img s).
Proof.
  unfold applyInlineData. cbv zeta.
  match goal with
  | |- context [addToHistory ?d ?m ?s0] =>
      destruct (addToHistory_frame d m s0) as (Hs & _);
      cbv zeta in Hs;
      generalize dependent (addToHistory d m s0)
  end.
  intros x Hs.
  apply (action_buttons_synced_ext (updateActionButtons x));
    [reflexivity | reflexivity | apply updateActionButtons_synced].
Qed.

Lemma action_buttons_step a e :
  action_buttons_synced (st a) -> action_buttons_synced (st (step trim a e)).
Proof.
  apply step_preserves_page.
  - intros s s' (Hs & _ & _ & _ & F1 & F2 & F3 & F4 & F5 & F6 & F7).
    unfold action_buttons_synced.
    rewrite Hs, F1, F2, F3, F4, F5, F6, F7. trivial.
  - intros b m s _. apply setNewBaseImage_action_buttons.
  - exact applyUndoRedo_action_buttons.
  - intros img s _. apply applyInlineData_action_buttons.
  - intros percent s H. exact H.
Qed.

Lemma action_buttons_after_load a base64 mime evs :
  action_buttons_synced
    (st (run trim (step trim a (ImageLoaded base64 mime)) evs)).
Proof.
  apply (run_preserves trim action_buttons_synced action_buttons_step).
  rewrite step_ImageLoaded. cbn [st].
  pose proof (setNewBaseImage_action_buttons base64 mime (st a)) as H.
  generalize dependent (setNewBaseImage base64 mime (st a)).
  intros y H.
  apply (action_buttons_synced_ext y); [reflexivity | reflexivity | exact H].
Qed.

(** X13. Once a base image has been loaded, in every later state the
    download, share, copy and comparison buttons are disabled exactly when
    no styled image is held, and the three zoom buttons exactly when no
    current image is held. *)
Theorem action_buttons_follow_slots a base64 mime evs :
  let s := st (run trim (step trim a (ImageLoaded base64 mime)) evs) in
  let noImage := negb (Js.truthy (lastStyledImageBase64 (slots s))) in
  let noCurrent := negb (Js.truthy (currentImageBase64 (slots s))) in
  downloadButton_disabled (actionButtons s) = noImage /\
  shareButton_disabled (actionButtons s) = noImage /\
  copyButton_disabled (actionButtons s) = noImage /\
  toggleComparisonBtn_disabled (actionButtons s) = noImage /\
  zoomInButton_disabled (actionButtons s) = noCurrent /\
  zoomOutButton_disabled (actionButtons s) = noCurrent /\
  zoomResetButton_disabled (actionButtons s) = noCurrent.
Proof.
  pose proof (action_buttons_after_load a base64 mime evs) as H.
  generalize dependent (run trim (step trim a (ImageLoaded base64 mime)) evs).
  intros a' H. exact H.
Qed.

(** *** Slider *)

Lemma slider_in_range_ext s s' :
  sliderPosition (comparison s') = sliderPosition (comparison s) ->
  slider_in_range s -> slider_in_range s'.
Proof. unfold slider_in_range. intros E. rewrite E. trivial. Qed.

Lemma slider_step a e :
  slider_in_range (st a) -> slider_in_range (st (step trim a e)).
Proof.
  apply step_preserves_page.
  - intros s s' (_ & _ & Hp & _). apply slider_in_range_ext. exact Hp.
  - intros b m s. apply slider_in_range_ext.
    apply (setNewBaseImage_effect b m s).
  - intros s u. apply slider_in_range_ext.
    destruct (applyUndoRedo_view s u) as (_ & _ & _ & Hc).
    cbv zeta in Hc. rewrite Hc. reflexivity.
  - intros img s. apply slider_in_range_ext.
    destruct (applyInlineData_effect img s) as (_ & _ & _ & Hc & _).
    cbv zeta in Hc. rewrite Hc. reflexivity.
  - intros percent s _. unfold slider_in_range.
    cbn [comparison with_comparison sliderPosition]. split.
    + apply Q.le_max_l.
    + apply Q.max_lub; [discriminate | apply Q.le_min_l].
Qed.

(** X14. Along every run of the page the comparison slider stays between
    0 and 100 percent, wherever the pointer is dragged. *)
Theorem slider_stays_in_range page evs :
  let s := st (run trim (initialApp page) evs) in
  (0 <= sliderPosition (comparison s) <= 100)%Q.
Proof.
  intros s.
  assert (H : slider_in_range s).
  { apply (run_preserves trim slider_in_range slider_step).
    split; discriminate. }
  exact H.
Qed.

End PageInvariants.

(** ** More on zoom, pan and placement *)

Section ViewMore.

Local Open Scope string_scope.
Local Open Scope Z_scope.

Variable trim : string -> string.

(** X15. Zooming out and in again gives the zoom level back whenever the
    level was above 1, but not always the pan offset: from level 1.25 the
    zoom-out reaches 1 and resets the offset to (0, 0); from any level
    above that the offset is kept. *)
Theorem zoom_out_then_in s :
  reachable trim s ->
  (1 < zoomLevel (zoom s))%Q ->
  let s' := handleZoomIn (handleZoomOut s) in
  (zoomLevel (zoom s') == zoomLevel (zoom s))%Q /\
  ((zoomLevel (zoom s) == 5 # 4)%Q ->
   translateX (zoom s') = 0%Q /\ translateY (zoom s') = 0%Q) /\
  (~ (zoomLevel (zoom s) == 5 # 4)%Q ->
   translateX (zoom s') = translateX (zoom s) /\
   translateY (zoom s') = translateY (zoom s)).
Proof.
  intros Hr Hgt.
  destruct (reachable_zoom_grid trim s Hr) as [Hg _].
  pose proof (on_grid_bounds _ Hg) as [_ Hhi].
  unfold handleZoomOut.
  rewrite (proj2 (ltb_lt 1 (zoomLevel (zoom s))) Hgt : Js.gtb _ _ = true).
  cbv zeta. cbn [zoom set_zoomLevel with_zoom zoomLevel].
  assert (Hlt : Js.ltb (zoomLevel (zoom s) - (1 # 4)) 3 = true).
  { apply ltb_lt. apply Qlt_le_trans with (zoomLevel (zoom s)); [|exact Hhi].
    rewrite <- (Qplus_0_r (zoomLevel (zoom s))) at 2.
    unfold Qminus. apply Qplus_lt_r. reflexivity. }
  destruct (Qeq_bool (zoomLevel (zoom s) - (1 # 4)) 1) eqn:E.
  - apply Qeq_bool_iff in E.
    unfold handleZoomIn.
    cbn [zoom set_zoomLevel set_translate with_zoom zoomLevel].
    rewrite Hlt.
    cbn [zoom set_zoomLevel set_translate with_zoom zoomLevel translateX
         translateY].
    split; [ring|]. split; [intros _; split; reflexivity|].
    intros Hne. exfalso. apply Hne.
    setoid_replace (zoomLevel (zoom s))
      with (zoomLevel (zoom s) - (1 # 4) + (1 # 4))%Q by ring.
    rewrite E. reflexivity.
  - unfold handleZoomIn.
    cbn [zoom set_zoomLevel set_translate with_zoom zoomLevel].
    rewrite Hlt.
    cbn [zoom set_zoomLevel set_translate with_zoom zoomLevel translateX
         translateY].
    split; [ring|]. split; [|intros _; split; reflexivity].
    intros H54. exfalso.
    assert (E' : Qeq_bool (zoomLevel (zoom s) - (1 # 4)) 1 = true).
    { apply Qeq_bool_iff. rewrite H54. reflexivity. }
    rewrite E' in E. discriminate E.
Qed.

(** X16. While zoomed in, a drag moves the image by the pointer's
    displacement since the drag started: for whole pixels of magnitude up
    to 2^51 (pointer positions and former offset), after mouse-down at
    (x0, y0) and a move to (x1, y1) the pan offset is the former offset
    plus (x1 - x0, y1 - y0), and the zoom level is untouched. Within that
    bound every number the two handlers compute is an integer of
    magnitude at most 2^53, on which the subtraction of doubles is
    exact. *)
Theorem drag_follows_pointer s tx ty x0 y0 x1 y1 :
  (1 < zoomLevel (zoom s))%Q ->
  (translateX (zoom s) == inject_Z tx)%Q ->
  (translateY (zoom s) == inject_Z ty)%Q ->
  Z.abs tx <= 2 ^ 51 -> Z.abs ty <= 2 ^ 51 ->
  Z.abs x0 <= 2 ^ 51 -> Z.abs y0 <= 2 ^ 51 ->
  Z.abs x1 <= 2 ^ 51 -> Z.abs y1 <= 2 ^ 51 ->
  let s1 := handleDragStart (inject_Z x0) (inject_Z y0) s in
  let s' := handleDragMove (inject_Z x1) (inject_Z y1) s1 in
  ((dragStartX (zoom s1) == inject_Z (x0 - tx))%Q /\
   (dragStartY (zoom s1) == inject_Z (y0 - ty))%Q /\
   Js.exactInt (x0 - tx) /\ Js.exactInt (y0 - ty) /\
   Js.exactInt (tx + (x1 - x0)) /\ Js.exactInt (ty + (y1 - y0))) /\
  (translateX (zoom s') == inject_Z (tx + (x1 - x0)))%Q /\
  (translateY (zoom s') == inject_Z (ty + (y1 - y0)))%Q /\
  zoomLevel (zoom s') = zoomLevel (zoom s) /\
  isDragging (zoom s') = true.
Proof.
  intros Hgt Hx Hy Btx Bty Bx0 By0 Bx1 By1.
  pose proof (proj2 (ltb_lt 1 (zoomLevel (zoom s))) Hgt : Js.gtb _ _ = true)
    as G.
  unfold handleDragStart. rewrite G.
  unfold handleDragMove.
  cbn [zoom with_zoom isDragging zoomLevel dragStartX dragStartY andb].
  rewrite G.
  cbn [zoom set_translate with_zoom translateX translateY zoomLevel
       isDragging].
  assert (E53 : 2 ^ 53 = 4 * 2 ^ 51) by reflexivity.
  split; [|split; [|split; [|split; reflexivity]]].
  - split; [|split; [|unfold Js.exactInt; rewrite E53; repeat split; lia]].
    + unfold Z.sub. rewrite Hx, inject_Z_plus, inject_Z_opp. ring.
    + unfold Z.sub. rewrite Hy, inject_Z_plus, inject_Z_opp. ring.
  - unfold Z.sub. rewrite Hx, !inject_Z_plus, inject_Z_opp. ring.
  - unfold Z.sub. rewrite Hy, !inject_Z_plus, inject_Z_opp. ring.
Qed.

(** X17. Without zoom there is no pan: at a zoom level of 1 or less a whole
    drag gesture (mouse-down, any move, mouse-up) leaves the zoom level,
    the pan offset and everything else as they are, apart from the flag of
    a drag in progress, which is off afterwards. (The flag can be on at
    level 1: resetting the zoom during a drag leaves it.) With no drag in
    progress the gesture leaves the state as it is. *)
Theorem drag_needs_zoom s x0 y0 x1 y1 :
  (zoomLevel (zoom s) <= 1)%Q ->
  let s' := handleDragEnd (handleDragMove x1 y1 (handleDragStart x0 y0 s)) in
  s' =
    with_zoom
      {| zoomLevel := zoomLevel (zoom s); isDragging := false;
         dragStartX := dragStartX (zoom s);
         dragStartY := dragStartY (zoom s);
         translateX := translateX (zoom s);
         translateY := translateY (zoom s) |} s /\
  (isDragging (zoom s) = false -> s' = s) /\
  (forall t,
     zoomLevel (zoom (handleZoomReset t)) = 1%Q /\
     isDragging (zoom (handleZoomReset t)) = isDragging (zoom t)).
Proof.
  intros Hle.
  pose proof (proj2 (ltb_ge 1 (zoomLevel (zoom s))) Hle : Js.gtb _ _ = false)
    as G.
  unfold handleDragStart. rewrite G.
  unfold handleDragMove. rewrite G, andb_false_r.
  unfold handleDragEnd. cbv zeta.
  split; [|split; [|intros t; split; reflexivity]].
  - destruct (isDragging (zoom s)) eqn:Hd; [reflexivity|].
    destruct s as [sl cp ld [zl dg dx dy tx ty] cm im tx' lc hb ab pn].
    cbn [zoom isDragging] in Hd. rewrite Hd. reflexivity.
  - intros Hd. rewrite Hd. reflexivity.
Qed.

Lemma placement_table x y :
  getPlacementDescription x y =
    match Js.ltb y lit_0_33, Js.gtb y lit_0_66,
          Js.ltb x lit_0_33, Js.gtb x lit_0_66 with
    | true, _, true, _ => "in the top left corner"
    | true, _, false, true => "in the top right corner"
    | true, _, false, false => "at the top"
    | false, true, true, _ => "in the bottom left corner"
    | false, true, false, true => "in the bottom right corner"
    | false, true, false, false => "at the bottom"
    | false, false, true, _ => "on the left side"
    | false, false, false, true => "on the right side"
    | false, false, false, false => "in the center"
    end.
Proof.
  unfold getPlacementDescription.
  destruct (Js.ltb y lit_0_33); destruct (Js.gtb y lit_0_66);
    destruct (Js.ltb x lit_0_33); destruct (Js.gtb x lit_0_66);
    reflexivity.
Qed.

(** X18. The placement description is "in the center" exactly when both
    coordinates lie between the two thresholds, bounds included; a
    coordinate below the lower one gives left or top, one above the upper
    one right or bottom, and a corner is named exactly when both
    coordinates are outside the middle band. The thresholds are the
    doubles the literals 0.33 and 0.66 denote; they lie above 33/100 and
    66/100 by less than 10^-16, so a coordinate that is the double 0.66
    itself still belongs to the middle band. *)
Theorem placement_regions x y :
  ((33 # 100 < lit_0_33)%Q /\ (lit_0_33 < (33 # 100) + (1 # 10 ^ 16))%Q /\
   (66 # 100 < lit_0_66)%Q /\ (lit_0_66 < (66 # 100) + (1 # 10 ^ 16))%Q /\
   getPlacementDescription lit_0_66 lit_0_66 = "in the center") /\
  (getPlacementDescription x y = "in the center" <->
   (lit_0_33 <= x <= lit_0_66)%Q /\ (lit_0_33 <= y <= lit_0_66)%Q) /\
  ((x < lit_0_33)%Q -> (y < lit_0_33)%Q ->
   getPlacementDescription x y = "in the top left corner") /\
  ((lit_0_66 < x)%Q -> (y < lit_0_33)%Q ->
   getPlacementDescription x y = "in the top right corner") /\
  ((x < lit_0_33)%Q -> (lit_0_66 < y)%Q ->
   getPlacementDescription x y = "in the bottom left corner") /\
  ((lit_0_66 < x)%Q -> (lit_0_66 < y)%Q ->
   getPlacementDescription x y = "in the bottom right corner") /\
  ((lit_0_33 <= x <= lit_0_66)%Q -> (y < lit_0_33)%Q ->
   getPlacementDescription x y = "at the top") /\
  ((lit_0_33 <= x <= lit_0_66)%Q -> (lit_0_66 < y)%Q ->
   getPlacementDescription x y = "at the bottom") /\
  ((x < lit_0_33)%Q -> (lit_0_33 <= y <= lit_0_66)%Q ->
   getPlacementDescription x y = "on the left side") /\
  ((lit_0_66 < x)%Q -> (lit_0_33 <= y <= lit_0_66)%Q ->
   getPlacementDescription x y = "on the right side").
Proof.
  split; [repeat split; reflexivity|].
  rewrite placement_table. unfold Js.gtb.
  assert (Low : forall a, (a < lit_0_33)%Q ->
            Js.ltb a lit_0_33 = true /\ Js.ltb lit_0_66 a = false).
  { intros a H. split; [apply ltb_lt; exact H|].
    apply ltb_ge. apply Qlt_le_weak.
    apply Qlt_trans with lit_0_33; [exact H | reflexivity]. }
  assert (High : forall a, (lit_0_66 < a)%Q ->
            Js.ltb a lit_0_33 = false /\ Js.ltb lit_0_66 a = true).
  { intros a H. split; [|apply ltb_lt; exact H].
    apply ltb_ge. apply Qlt_le_weak.
    apply Qlt_trans with lit_0_66; [reflexivity | exact H]. }
  assert (Mid : forall a, (lit_0_33 <= a <= lit_0_66)%Q ->
            Js.ltb a lit_0_33 = false /\ Js.ltb lit_0_66 a = false).
  { intros a [H1 H2]. split; apply ltb_ge; assumption. }
  split; [|repeat split].
  - split.
    + destruct (Js.ltb y lit_0_33) eqn:Y1;
        destruct (Js.ltb lit_0_66 y) eqn:Y2;
        destruct (Js.ltb x lit_0_33) eqn:X1;
        destruct (Js.ltb lit_0_66 x) eqn:X2;
        try discriminate.
      intros _. apply ltb_ge in Y1, Y2, X1, X2. repeat split; assumption.
    + intros [X Y].
      destruct (Mid x X) as [-> ->]. destruct (Mid y Y) as [-> ->].
      reflexivity.
  - intros X Y. destruct (Low x X) as [-> _]. destruct (Low y Y) as [-> _].
    reflexivity.
  - intros X Y. destruct (High x X) as [-> ->]. destruct (Low y Y) as [-> _].
    reflexivity.
  - intros X Y. destruct (Low x X) as [-> _]. destruct (High y Y) as [-> ->].
    reflexivity.
  - intros X Y. destruct (High x X) as [-> ->]. destruct (High y Y) as [-> ->].
    reflexivity.
  - intros X Y. destruct (Mid x X) as [-> ->]. destruct (Low y Y) as [-> _].
    reflexivity.
  - intros X Y. destruct (Mid x X) as [-> ->]. destruct (High y Y) as [-> ->].
    reflexivity.
  - intros X Y. destruct (Low x X) as [-> _]. destruct (Mid y Y) as [-> ->].
    reflexivity.
  - intros X Y. destruct (High x X) as [-> ->]. destruct (Mid y Y) as [-> ->].
    reflexivity.
Qed.

End ViewMore.

(** Zoom level 1.25, out and in again. *)
Lemma zoom_out_then_in_witness :
  let s := st (Sample.after zoomedOnce) in
  (zoomLevel (zoom (handleZoomIn (handleZoomOut s))) == zoomLevel (zoom s))%Q.
Proof.
  assert (Hr : reachable Sample.trim (st (Sample.after zoomedOnce)))
    by (exists Sample.page, zoomedOnce; reflexivity).
  assert (Hgt : (1 < zoomLevel (zoom (st (Sample.after zoomedOnce))))%Q)
    by (vm_compute; reflexivity).
  exact (proj1 (zoom_out_then_in Sample.trim _ Hr Hgt)).
Defined.

(** A drag from (100, 100) to (130, 80) at zoom level 1.25. *)
Lemma drag_follows_pointer_witness :
  let s := st (Sample.after zoomedOnce) in
  (translateX
     (zoom (handleDragMove (inject_Z 130) (inject_Z 80)
              (handleDragStart (inject_Z 100) (inject_Z 100) s)))
   == inject_Z 30)%Q.
Proof.
  assert (Hgt : (1 < zoomLevel (zoom (st (Sample.after zoomedOnce))))%Q)
    by (vm_compute; reflexivity).
  assert (Hx : (translateX (zoom (st (Sample.after zoomedOnce)))
                == inject_Z 0)%Q) by (vm_compute; reflexivity).
  assert (Hy : (translateY (zoom (st (Sample.after zoomedOnce)))
                == inject_Z 0)%Q) by (vm_compute; reflexivity).
  assert (B0 : Z.abs 0 <= 2 ^ 51) by (vm_compute; discriminate).
  assert (B100 : Z.abs 100 <= 2 ^ 51) by (vm_compute; discriminate).
  assert (B130 : Z.abs 130 <= 2 ^ 51) by (vm_compute; discriminate).
  assert (B80 : Z.abs 80 <= 2 ^ 51) by (vm_compute; discriminate).
  exact (proj1 (proj2 (drag_follows_pointer _ 0 0 100 100 130 80 Hgt Hx Hy
                         B0 B0 B100 B100 B130 B80))).
Defined.

(** The zoom is reset while a drag is on; the next gesture moves nothing
    and ends the drag. *)
Lemma drag_needs_zoom_witness :
  let s :=
    st (Sample.after
          (zoomedOnce ++ [ContainerMouseDown 100 100; ZoomResetClick])) in
  let s' := handleDragEnd (handleDragMove 130 80 (handleDragStart 90 90 s)) in
  s' =
    with_zoom
      {| zoomLevel := zoomLevel (zoom s); isDragging := false;
         dragStartX := dragStartX (zoom s);
         dragStartY := dragStartY (zoom s);
         translateX := translateX (zoom s);
         translateY := translateY (zoom s) |} s /\
  (isDragging (zoom s) = false -> s' = s) /\
  (forall t,
     zoomLevel (zoom (handleZoomReset t)) = 1%Q /\
     isDragging (zoom (handleZoomReset t)) = isDragging (zoom t)).
Proof.
  intros s.
  assert (Hle : (zoomLevel (zoom s) <= 1)%Q) by (vm_compute; discriminate).
  exact (drag_needs_zoom s 90 90 130 80 Hle).
Defined.

(** ** Reading images in and handing them out *)

Section Encoding.

Local Open Scope string_scope.
Local Open Scope Z_scope.

Variable trim : string -> string.

Lemma string_app_assoc (a b c : string) : (a ++ b) ++ c = a ++ (b ++ c).
Proof. induction a as [|x a IH]; [reflexivity|]. cbn. rewrite IH. reflexivity. Qed.

(** A string without the separator is a single piece. *)
Lemma jsSplit_single sep s : occurs sep s = false -> jsSplit sep s = [s].
Proof.
  induction s as [|c s IH]; [reflexivity|].
  cbn [occurs jsSplit]. intros H. apply orb_false_iff in H.
  destruct H as [Hc Hs]. rewrite Hc, (IH Hs). reflexivity.
Qed.

(** The first piece ends at the first separator. *)
Lemma jsSplit_first sep a b :
  occurs sep a = false ->
  jsSplit sep (a ++ String sep b) = a :: jsSplit sep b.
Proof.
  induction a as [|c a IH]; intros H.
  - cbn [append jsSplit]. rewrite Ascii.eqb_refl. reflexivity.
  - cbn [occurs] in H. apply orb_false_iff in H. destruct H as [Hc Ha].
    cbn [append jsSplit]. rewrite Hc, (IH Ha). reflexivity.
Qed.

Lemma occurs_app c a b : occurs c (a ++ b) = occurs c a || occurs c b.
Proof.
  induction a as [|x a IH]; [reflexivity|].
  cbn [append occurs]. rewrite IH. apply orb_assoc.
Qed.

Lemma dataUrl_pieces mime base64 :
  occurs "," mime = false -> occurs "," base64 = false ->
  jsSplit "," (dataUrl mime base64) =
    ["data:" ++ mime ++ ";base64"; base64].
Proof.
  intros Hm Hb. unfold dataUrl.
  replace ("data:" ++ mime ++ ";base64," ++ base64)
    with (("data:" ++ mime ++ ";base64") ++ String "," base64).
  - rewrite jsSplit_first, (jsSplit_single _ _ Hb); [reflexivity|].
    rewrite !occurs_app, Hm. reflexivity.
  - rewrite !string_app_assoc. reflexivity.
Qed.

(** X19. The data URL the page builds for an image and the decoder of
    uploads and samples are inverse to each other: for a MIME type and a
    payload without commas, splitting [dataUrl mime base64] at the comma
    gives the payload back, in [fileToBase64] and (for a successful fetch)
    in [urlToBase64]. *)
Theorem dataUrl_round_trip mime base64 :
  occurs "," mime = false -> occurs "," base64 = false ->
  (forall fileType,
     fileToBase64 (Resolved (dataUrl mime base64)) fileType =
       Resolved (Some base64, fileType)) /\
  (forall r blobType,
     ok r = true ->
     exists m,
       urlToBase64 (Resolved r) (Resolved blobType)
                   (Resolved (dataUrl mime base64)) =
         Some (Resolved (base64, m)) /\
       Js.nonempty m = true).
Proof.
  intros Hm Hb. split.
  - intros fileType. unfold fileToBase64.
    rewrite (dataUrl_pieces mime base64 Hm Hb). reflexivity.
  - intros r blobType Hok. unfold urlToBase64. rewrite Hok. cbn [negb].
    rewrite (dataUrl_pieces mime base64 Hm Hb). cbn [nth_error].
    eexists. split; [reflexivity|].
    destruct blobType; reflexivity.
Qed.

(** X20. [urlToBase64] never resolves with an empty MIME type (a blob
    without type counts as JPEG), and rejects a response that is not ok
    with the status in its message. So, unless its
    payload is empty, a sample that was loaded passes the image check of
    the styling handler: the request depends on the prompt alone. *)
Theorem sample_image_passes_check response blobType readerResult :
  (forall base64 mime,
     urlToBase64 response blobType readerResult =
       Some (Resolved (base64, mime)) ->
     Js.nonempty mime = true /\
     (Js.nonempty base64 = true ->
      forall s,
        snd (handleStyleRoom_begin trim (setNewBaseImage base64 mime s))
          <> None <->
        Js.nonempty (trim (promptInput_value (texts s))) = true)) /\
  (forall r,
     response = Resolved r -> ok r = false ->
     urlToBase64 response blobType readerResult =
       Some (Rejected ("Failed to fetch image: " ++ status r ++ " " ++
                       statusText r))).
Proof.
  split.
  - intros base64 mime H. unfold urlToBase64 in H.
    destruct response as [r|m]; [|discriminate H].
    destruct (negb (ok r)); [discriminate H|].
    destruct blobType as [type|m]; [|discriminate H].
    destruct readerResult as [dataUrl|m]; [|discriminate H].
    destruct (nth_error (jsSplit "," dataUrl) 1) as [b|];
      [|discriminate H].
    injection H as -> <-.
    assert (Hmime : Js.nonempty
                      (if Js.nonempty type then type else "image/jpeg")
                    = true)
      by (destruct (Js.nonempty type) eqn:E; [exact E | reflexivity]).
    split; [exact Hmime|].
    intros Hb s.
    set (mime := if Js.nonempty type then type else "image/jpeg") in *.
    destruct (setNewBaseImage_effect base64 mime s) as (Hs & _).
    pose proof (setNewBaseImage_texts base64 mime s) as Ht.
    cbv zeta in Hs.
    generalize dependent (setNewBaseImage base64 mime s). intros s1 Hs Ht.
    destruct (begin_cases trim s1)
      as [[Hi _] | [(_ & Hp & E) | (_ & Hp & i1 & m1 & _ & _ & E)]].
    + exfalso. rewrite Hs in Hi. cbn [currentImageBase64 currentMimeType] in Hi.
      rewrite !truthy_nonempty, Hb, Hmime in Hi. discriminate Hi.
    + rewrite E, <- Ht, Hp. cbn [snd].
      split; [intros C; exfalso; apply C; reflexivity | discriminate].
    + rewrite E, <- Ht, Hp. cbn [snd].
      split; [reflexivity | discriminate].
  - intros r -> Hok. unfold urlToBase64. rewrite Hok. reflexivity.
Qed.

End Encoding.

(** A JPEG payload, encoded for display and read back. *)
Lemma dataUrl_round_trip_witness :
  fileToBase64 (Resolved (dataUrl "image/jpeg" "roomA")) "image/jpeg" =
    Resolved (Some "roomA"%string, "image/jpeg"%string).
Proof.
  exact (proj1 (dataUrl_round_trip "image/jpeg" "roomA" eq_refl eq_refl)
               "image/jpeg"%string).
Defined.

Section HandingOut.

Local Open Scope string_scope.
Local Open Scope Z_scope.

Variable trim : string -> string.

(** X21. An uploaded file whose type the browser does not know
    ([file.type] is empty) becomes the base image and is displayed, and
    with a non-empty payload the zoom buttons are enabled, but it can
    never be styled: whatever the prompt, the styling handler answers that
    an image must be chosen first and sends nothing. *)
Theorem upload_without_type_cannot_be_styled readerResult fileType base64 mime s :
  fileToBase64 (Resolved readerResult) fileType =
    Resolved (Some base64, mime) ->
  fileType = "" ->
  let s1 := setNewBaseImage base64 mime s in
  currentImageBase64 (slots s1) = Some base64 /\
  roomImage_src (images s1) = "data:;base64," ++ base64 /\
  zoomInButton_disabled (actionButtons s1) = negb (Js.nonempty base64) /\
  handleStyleRoom_begin trim s1 =
    (set_responseText "Please choose or upload a room image first." s1,
     None).
Proof.
  intros E ->. unfold fileToBase64 in E. injection E as _ <-.
  destruct (setNewBaseImage_effect base64 "" s) as (Hs & _).
  pose proof (setNewBaseImage_action_buttons base64 "" s)
    as (_ & _ & _ & _ & Hz & _).
  assert (Hi : roomImage_src (images (setNewBaseImage base64 "" s)) =
               "data:;base64," ++ base64).
  { unfold setNewBaseImage. cbv zeta.
    match goal with
    | |- context [if ?c then _ else _] => destruct c
    end; reflexivity. }
  cbv zeta in *.
  generalize dependent (setNewBaseImage base64 "" s). intros s1 Hs Hz Hi.
  rewrite Hs. cbn [currentImageBase64].
  split; [reflexivity|]. split; [exact Hi|].
  split; [rewrite Hz, Hs; cbn [currentImageBase64];
          rewrite truthy_nonempty; reflexivity|].
  destruct (begin_cases trim s1)
    as [[_ E] | [(Hc & _) | (Hc & _)]]; [exact E | |];
    exfalso; rewrite Hs in Hc; cbn [currentImageBase64 currentMimeType] in Hc;
    rewrite andb_false_r in Hc; discriminate Hc.
Qed.

Lemma subtypeOf_pair type sub :
  occurs "/" type = false -> occurs "/" sub = false ->
  subtypeOf (type ++ String "/" sub) = sub.
Proof.
  intros Ht Hs. unfold subtypeOf.
  rewrite (jsSplit_first "/" type sub Ht), (jsSplit_single "/" sub Hs).
  reflexivity.
Qed.

(** X22. Download hands out the last styled image, whatever is on
    display: without one it does nothing; with one of MIME type
    [type/sub] the link points at the data URL of the last styled image
    and the file is named styled-room-<time>.<sub>, and only the toast is
    written. A MIME type without a slash gives the extension
    "undefined". *)
Theorem download_links_last_styled now s :
  (Js.truthy (lastStyledImageBase64 (slots s)) &&
   Js.truthy (lastStyledMimeType (slots s)) = false ->
   handleDownload now s = (s, None)) /\
  (forall b type sub,
     lastStyledImageBase64 (slots s) = Some b ->
     lastStyledMimeType (slots s) = Some (type ++ String "/" sub) ->
     Js.nonempty b = true ->
     occurs "/" type = false -> occurs "/" sub = false ->
     handleDownload now s =
       (showToast "Image downloaded!" s,
        Some {| href := dataUrl (type ++ String "/" sub) b;
                download := "styled-room-" ++ now ++ "." ++ sub |})) /\
  (forall b m,
     lastStyledImageBase64 (slots s) = Some b ->
     lastStyledMimeType (slots s) = Some m ->
     Js.nonempty b = true -> Js.nonempty m = true ->
     occurs "/" m = false ->
     exists link,
       snd (handleDownload now s) = Some link /\
       download link = "styled-room-" ++ now ++ ".undefined").
Proof.
  unfold handleDownload. split; [|split].
  - destruct (lastStyledImageBase64 (slots s)) as [b|]; [|reflexivity].
    destruct (lastStyledMimeType (slots s)) as [m|]; [|reflexivity].
    rewrite !truthy_nonempty.
    destruct (Js.nonempty b); destruct (Js.nonempty m);
      cbn [negb orb andb]; try reflexivity; discriminate.
  - intros b type sub -> -> Hb Ht Hsub. rewrite Hb. cbn [negb orb].
    assert (Hm : Js.nonempty (type ++ String "/" sub) = true)
      by (destruct type; reflexivity).
    rewrite Hm. cbn [negb]. rewrite (subtypeOf_pair type sub Ht Hsub).
    reflexivity.
  - intros b m -> -> Hb Hm Hno. rewrite Hb, Hm. cbn [negb orb snd].
    eexists. split; [reflexivity|]. cbn [download].
    unfold subtypeOf. rewrite (jsSplit_single "/" m Hno). reflexivity.
Qed.

Lemma share_without_styled blobRead canShare s :
  lastStyledImageBase64 (slots s) = None ->
  lastStyledMimeType (slots s) = None ->
  handleShare_read blobRead canShare s =
    (showToast "Share not supported. Image copied to clipboard!" s,
     Nothing) /\
  handleShare_shared false s =
    (showToast "Share not supported. Image copied to clipboard!" s,
     Nothing) /\
  handleCopyToClipboard_begin s = Nothing.
Proof.
  intros Hb Hm.
  unfold handleShare_read, handleShare_shared, handleShare_catch,
    handleCopyToClipboard_begin.
  cbn [showToast with_texts slots]. rewrite Hb, Hm.
  destruct blobRead; repeat split; reflexivity.
Qed.

(** X23. Share and copy write nothing but the toast, at every stage, and
    start nothing without a styled image. A share that runs undisturbed
    ends with one of three toasts: shared, copied, or copy failed; the
    text set in the [catch] ("Share not supported. Image copied to
    clipboard!") is then overwritten by the outcome of the copy that
    follows it. The guard of the copy is tested again at the state the
    share meets when it resumes: when a base image was loaded in the
    meantime the styled image is gone, the share ends in the [catch], no
    copy is started, and its text stays on display although nothing was
    copied. *)
Theorem share_ends_with_outcome blobRead canShare shared copied s :
  (forall s',
     In s' [fst (handleShare_read blobRead canShare s);
            fst (handleShare_shared shared s);
            handleCopyToClipboard_settle copied s] ->
     exists message, s' = s \/ s' = showToast message s) /\
  (Js.truthy (lastStyledImageBase64 (slots s)) &&
   Js.truthy (lastStyledMimeType (slots s)) = false ->
   handleShare_begin s = Nothing /\ handleCopyToClipboard_begin s = Nothing /\
   handleShare blobRead canShare shared copied s = s /\
   handleCopyToClipboard copied s = s) /\
  (Js.truthy (lastStyledImageBase64 (slots s)) &&
   Js.truthy (lastStyledMimeType (slots s)) = true ->
   handleShare blobRead canShare shared copied s =
     showToast
       (if blobRead && canShare && shared then "Shared successfully!"
        else if copied then "Copied to clipboard!"
        else "Copy failed. Please try download instead.") s) /\
  (forall base64 mime,
     let s1 := setNewBaseImage base64 mime s in
     let gone :=
       (showToast "Share not supported. Image copied to clipboard!" s1,
        Nothing) in
     handleShare_read blobRead canShare s1 = gone /\
     handleShare_shared false s1 = gone /\
     handleCopyToClipboard_begin s1 = Nothing).
Proof.
  split; [|split; [|split]].
  - intros s' H. cbn [In] in H.
    destruct H as [<- | [<- | [<- | []]]].
    + unfold handleShare_read, handleShare_catch.
      destruct (if blobRead then lastStyledMimeType (slots s) else None);
        [destruct canShare; exists ""; left; reflexivity|].
      eexists. right. reflexivity.
    + unfold handleShare_shared, handleShare_catch.
      destruct shared; eexists; right; reflexivity.
    + unfold handleCopyToClipboard_settle.
      destruct copied; eexists; right; reflexivity.
  - intros G.
    unfold handleShare, handleCopyToClipboard, handleShare_begin,
      handleCopyToClipboard_begin.
    rewrite G. repeat split; reflexivity.
  - intros G.
    assert (Hm : exists m, lastStyledMimeType (slots s) = Some m).
    { destruct (lastStyledMimeType (slots s)) as [m|];
        [exists m; reflexivity|].
      rewrite andb_false_r in G. discriminate G. }
    destruct Hm as [m Hm].
    unfold handleShare, handleShare_begin. rewrite G. cbv zeta.
    unfold handleShare_read, handleShare_shared, handleShare_catch,
      handleCopyToClipboard_begin, handleCopyToClipboard_settle.
    pose proof G as G'. rewrite Hm in G' |- *.
    destruct blobRead; destruct canShare; destruct shared; destruct copied;
      cbn [fst snd showToast with_texts slots andb]; rewrite ?Hm, ?G';
      reflexivity.
  - intros base64 mime. cbv zeta.
    apply share_without_styled.
    + rewrite (proj1 (setNewBaseImage_effect base64 mime s)). reflexivity.
    + rewrite (proj1 (setNewBaseImage_effect base64 mime s)). reflexivity.
Qed.

(** X24. A key press triggers at most one of undo and redo: undo for
    Ctrl/Cmd+z without Shift, redo for Ctrl/Cmd+y and for Ctrl/Cmd+z with
    Shift, nothing without Ctrl or Cmd. The key is compared with the
    lower-case letters: an event that reports "Z" does nothing. *)
Theorem keydown_undo_or_redo e s :
  let undo :=
    (ctrlKey e || metaKey e) && String.eqb (key e) "z" &&
    negb (shiftKey e) in
  let redo :=
    (ctrlKey e || metaKey e) &&
    (String.eqb (key e) "y" || (String.eqb (key e) "z" && shiftKey e)) in
  undo && redo = false /\
  handleKeydown e s =
    (if undo then handleUndo s else if redo then handleRedo s else s) /\
  (ctrlKey e || metaKey e = false -> handleKeydown e s = s) /\
  (key e = "Z" -> handleKeydown e s = s).
Proof.
  unfold handleKeydown. cbv zeta.
  destruct (ctrlKey e || metaKey e); cbn [andb];
    [|repeat split; reflexivity].
  destruct (String.eqb (key e) "z") eqn:Ez.
  - apply String.eqb_eq in Ez. rewrite Ez.
    destruct (shiftKey e); cbn; repeat split; try reflexivity;
      try discriminate.
  - destruct (String.eqb (key e) "y") eqn:Ey; cbn [andb orb negb].
    + repeat split; try reflexivity; try discriminate.
      intros H. rewrite H in Ey. discriminate Ey.
    + repeat split; reflexivity.
Qed.

(** *** The video tour *)



(** X26. The polling loop asks again as long as the operation is not done
    and has no limit of its own: from an operation that is not done, it
    ends with the first answer that is done (later answers are not read),
    or with the first rejected poll, after one round of ten seconds per
    answer read; and any number of answers that are not done leaves it
    waiting. *)
Theorem polling_stops_at_first_done waiting : forall operation,
  Forall (fun o => done o = false) (operation :: waiting) ->
  (forall final rest,
     done final = true ->
     pollUntilDone operation
       (map Resolved waiting ++ Resolved final :: rest) =
       Some (Resolved final, S (List.length waiting))) /\
  (forall message rest,
     pollUntilDone operation
       (map Resolved waiting ++ Rejected message :: rest) =
       Some (Rejected message, S (List.length waiting))) /\
  pollUntilDone operation (map Resolved waiting) = None.
Proof.
  induction waiting as [|w waiting IH]; intros operation H;
    inversion H as [|? ? Hop Hrest]; subst.
  - cbn [map app pollUntilDone List.length]. rewrite Hop.
    split; [|split; reflexivity].
    intros final rest Hf.
    destruct final as [d u]; cbn [done] in Hf; subst d.
    destruct rest; reflexivity.
  - destruct (IH w Hrest) as (A & B & C).
    cbn [map app List.length].
    split; [|split].
    + intros final rest Hf.
      change (pollUntilDone operation
                (Resolved w :: (map Resolved waiting ++ Resolved final :: rest)))
        with (if done operation then Some (Resolved operation, O)
              else match pollUntilDone w
                           (map Resolved waiting ++ Resolved final :: rest) with
                   | Some (result, rounds) => Some (result, S rounds)
                   | None => None
                   end).
      rewrite Hop, (A final rest Hf). reflexivity.
    + intros message rest.
      change (pollUntilDone operation
                (Resolved w :: (map Resolved waiting ++ Rejected message :: rest)))
        with (if done operation then Some (Resolved operation, O)
              else match pollUntilDone w
                           (map Resolved waiting ++ Rejected message :: rest) with
                   | Some (result, rounds) => Some (result, S rounds)
                   | None => None
                   end).
      rewrite Hop, (B message rest). reflexivity.
    + change (pollUntilDone operation (Resolved w :: map Resolved waiting))
        with (if done operation then Some (Resolved operation, O)
              else match pollUntilDone w (map Resolved waiting) with
                   | Some (result, rounds) => Some (result, S rounds)
                   | None => None
                   end).
      rewrite Hop, C. reflexivity.
Qed.

End HandingOut.

(** A file the browser gives no type for. *)
Lemma upload_without_type_witness :
  let s1 := setNewBaseImage "QUJD" "" (initialState Sample.page) in
  handleStyleRoom_begin Sample.trim s1 =
    (set_responseText "Please choose or upload a room image first." s1, None).
Proof.
  exact (proj2 (proj2 (proj2
    (upload_without_type_cannot_be_styled Sample.trim
       "data:;base64,QUJD" "" "QUJD" "" (initialState Sample.page)
       eq_refl eq_refl)))).
Defined.

(** Two answers that are not done, then one that is. *)
Lemma polling_witness :
  let pending := {| done := false; videoUri := None |} in
  let finished := {| done := true; videoUri := Some "https://v/1"%string |} in
  pollUntilDone pending [Resolved pending; Resolved finished] =
    Some (Resolved finished, 2%nat).
Proof.
  assert (H : Forall (fun o => done o = false)
                [{| done := false; videoUri := None |};
                 {| done := false; videoUri := None |}])
    by (repeat constructor).
  exact (proj1 (polling_stops_at_first_done _ _ H)
               {| done := true; videoUri := Some "https://v/1"%string |}
               [] eq_refl).
Defined.

(** ** Start of the page, samples and the cost estimate *)

Section StartAndCost.

Variable trim : string -> string.

Local Open Scope string_scope.
Local Open Scope Z_scope.

Lemma setLoading_frame isLoading s :
  slots (setLoading isLoading s) = slots s /\
  clickPosition (setLoading isLoading s) = clickPosition s /\
  ledger (setLoading isLoading s) = ledger s /\
  zoom (setLoading isLoading s) = zoom s /\
  comparison (setLoading isLoading s) = comparison s /\
  images (setLoading isLoading s) = images s /\
  historyButtons (setLoading isLoading s) = historyButtons s /\
  actionButtons (setLoading isLoading s) = actionButtons s /\
  panels (setLoading isLoading s) = panels s.
Proof. repeat split; reflexivity. Qed.

Lemma setNewBaseImage_roomImage base64 mime s :
  roomImage_src (images (setNewBaseImage base64 mime s)) =
    dataUrl mime base64.
Proof.
  unfold setNewBaseImage.
  destruct s as [sl cp ld z [c p d] im tx lc hb ab pn].
  destruct c; reflexivity.
Qed.

(** X27. Once [initialize] has loaded the first sample, whatever happened
    on the page during the fetch, the sample is the original and the
    current image, no styled image is held, comparison is off with its
    button disabled, the style button is enabled and the video button
    disabled; the ledger, its buttons and the zoom are left as the loaded
    sample finds them. They are the initial ones (an empty ledger on
    which undo and redo do nothing, zoom 1 without pan) when nothing else
    happened during the fetch. When loading fails instead, slots, ledger,
    images and zoom are left as they are and the message names the error;
    with nothing else having happened no image is set, and a click on the
    style button only asks for an image. *)
Theorem page_after_initialize page :
  (forall base64 mime s,
     let s' := initialize_settle (Resolved (base64, mime)) s in
     slots s' =
       {| currentImageBase64 := Some base64; currentMimeType := Some mime;
          originalImageBase64 := Some base64; originalMimeType := Some mime;
          lastStyledImageBase64 := None; lastStyledMimeType := None |} /\
     roomImage_src (images s') = dataUrl mime base64 /\
     isComparisonMode (comparison s') = false /\
     toggleComparisonBtn_disabled (actionButtons s') = true /\
     styleButton_disabled (loadingControls s') = false /\
     videoButton_disabled (loadingControls s') = true /\
     ledger s' = ledger s /\ historyButtons s' = historyButtons s /\
     zoom s' = zoom s) /\
  (forall base64 mime,
     let s' := initialize_settle (Resolved (base64, mime))
                 (initialize_begin true (initialState page)) in
     entries s' = [] /\ cursor s' = -1 /\
     handleUndo s' = s' /\ handleRedo s' = s' /\
     zoomLevel (zoom s') == 1 /\
     translateX (zoom s') == 0 /\ translateY (zoom s') == 0) /\
  (forall message s,
     let s' := initialize_settle (Rejected message) s in
     slots s' = slots s /\ ledger s' = ledger s /\ images s' = images s /\
     zoom s' = zoom s /\ comparison s' = comparison s /\
     actionButtons s' = actionButtons s /\
     responseText (texts s') =
       "Could not load sample images. Error: " ++ message /\
     styleButton_disabled (loadingControls s') = false) /\
  (forall message,
     let s' := initialize_settle (Rejected message)
                 (initialize_begin true (initialState page)) in
     currentImageBase64 (slots s') = None /\
     handleStyleRoom_begin trim s' =
       (set_responseText "Please choose or upload a room image first." s',
        None)).
Proof.
  split; [|split; [|split]].
  - intros base64 mime s. cbv zeta. unfold initialize_settle.
    destruct (setNewBaseImage_effect base64 mime s)
      as (Hs & _ & Hl & Hh & Hz & Hc & _ & Ht).
    cbv zeta in Hs, Hl, Hh, Hz, Hc, Ht.
    pose proof (setNewBaseImage_roomImage base64 mime s) as Hi.
    generalize dependent (setNewBaseImage base64 mime s).
    intros y Hs Hl Hh Hz Hc Ht Hi.
    destruct (setLoading_frame false y)
      as (F1 & _ & F3 & F4 & F5 & F6 & F7 & F8 & _).
    rewrite F1, F3, F4, F5, F6, F7, F8.
    split; [exact Hs|]. split; [exact Hi|]. split; [exact Hc|].
    split; [exact Ht|]. split; [reflexivity|].
    split; [|split; [exact Hl | split; [exact Hh | exact Hz]]].
    unfold setLoading. cbn [loadingControls with_loadingControls
                             videoButton_disabled orb].
    rewrite Hs. reflexivity.
  - intros base64 mime s.
    assert (Hl : ledger s = {| history := []; historyIndex := -1 |})
      by reflexivity.
    assert (Hu : handleUndo s = s).
    { unfold handleUndo. unfold cursor. rewrite Hl. reflexivity. }
    assert (Hr : handleRedo s = s).
    { unfold handleRedo. unfold cursor, entries. rewrite Hl. reflexivity. }
    split; [unfold entries; rewrite Hl; reflexivity|].
    split; [unfold cursor; rewrite Hl; reflexivity|].
    split; [exact Hu|]. split; [exact Hr|].
    repeat split; reflexivity.
  - intros message s s'. repeat split; reflexivity.
  - intros message s.
    split; [reflexivity|].
    destruct (begin_cases trim s) as [[_ E] | [(C & _) | (C & _)]];
      [exact E | discriminate C | discriminate C].
Qed.

(** X28. A sample whose loading fails leaves the page as it was, apart
    from the message and the end of the loading state; and a sample that
    is fetched but whose data URL holds no comma never settles, so the
    page stays in the loading state the click started, where a click on
    the style button does nothing. *)
Theorem sample_load_failures s :
  (forall message,
     let s' := sampleClick_settle (Rejected message) s in
     slots s' = slots s /\ ledger s' = ledger s /\ images s' = images s /\
     zoom s' = zoom s /\ comparison s' = comparison s /\
     clickPosition s' = clickPosition s /\
     historyButtons s' = historyButtons s /\
     actionButtons s' = actionButtons s /\
     responseText (texts s') =
       "Error loading sample image. Please try again." /\
     styleButton_disabled (loadingControls s') = false) /\
  (forall r type dataUrl n,
     ok r = true -> occurs "," dataUrl = false ->
     urlToBase64 (Resolved r) (Resolved type) (Resolved dataUrl) = None /\
     let a := {| st := sampleClick_begin s; inflight := n |} in
     loadingOverlay_hidden (loadingControls (st a)) = false /\
     step trim a StyleClick = a).
Proof.
  split.
  - intros message s'. repeat split; reflexivity.
  - intros r type url n Hok Hc. split.
    + unfold urlToBase64. rewrite Hok. cbn [negb].
      rewrite (jsSplit_single _ _ Hc). reflexivity.
    + intros a. split; [reflexivity|].
      apply step_StyleClick_disabled. reflexivity.
Qed.

(** X29. A cost estimate is only requested for a styled image: without
    one the handler shows a toast and sends nothing. When the estimate
    ends, however it ends, the estimate button is enabled again (also when
    the styled image has been cleared meanwhile), no image, ledger or view
    state has changed, and the cost panel is shown when an estimate was
    displayed. *)
Theorem estimate_cost_guarded outcome s :
  (snd (handleEstimateCost_begin s) = true <->
   exists image mime,
     lastStyledImageBase64 (slots s) = Some image /\
     lastStyledMimeType (slots s) = Some mime /\
     Js.nonempty image = true /\ Js.nonempty mime = true) /\
  (snd (handleEstimateCost_begin s) = false ->
   handleEstimateCost_begin s =
     (showToast "Please generate a styled room first!" s, false)) /\
  let s' := handleEstimateCost_settle outcome s in
  estimateCostButton_disabled (actionButtons s') = false /\
  slots s' = slots s /\ ledger s' = ledger s /\ images s' = images s /\
  zoom s' = zoom s /\ comparison s' = comparison s /\
  (outcome = CostDisplayed -> costPanel_hidden (panels s') = false) /\
  (outcome <> CostDisplayed ->
   costPanel_hidden (panels s') = costPanel_hidden (panels s)) /\
  (lastStyledImageBase64 (slots s) = None ->
   handleEstimateCost_begin s' =
     (showToast "Please generate a styled room first!" s', false)).
Proof.
  split; [|split].
  - unfold handleEstimateCost_begin.
    destruct (lastStyledImageBase64 (slots s)) as [b|];
      [destruct (lastStyledMimeType (slots s)) as [m|]|].
    + destruct (Js.nonempty b) eqn:Eb, (Js.nonempty m) eqn:Em; cbn [negb orb snd];
        (split;
         [ intros H; try discriminate H; exists b, m; repeat split; assumption
         | intros (b' & m' & Hb & Hm & Hnb & Hnm);
           injection Hb as <-; injection Hm as <-; congruence ]).
    + cbn [snd]. split; [discriminate|].
      intros (b' & m' & _ & Hm & _); discriminate Hm.
    + cbn [snd]. split; [discriminate|].
      intros (b' & m' & Hb & _); discriminate Hb.
  - unfold handleEstimateCost_begin.
    destruct (lastStyledImageBase64 (slots s)) as [b|];
      [destruct (lastStyledMimeType (slots s)) as [m|]|];
      try reflexivity.
    destruct (negb (Js.nonempty b) || negb (Js.nonempty m));
      [reflexivity | discriminate].
  - intros s'.
    split; [destruct outcome; reflexivity|].
    assert (Hs : slots s' = slots s) by (destruct outcome; reflexivity).
    split; [exact Hs|].
    split; [destruct outcome; reflexivity|].
    split; [destruct outcome; reflexivity|].
    split; [destruct outcome; reflexivity|].
    split; [destruct outcome; reflexivity|].
    split; [intros ->; reflexivity|].
    split; [destruct outcome; [intros C; exfalso; apply C; reflexivity| |];
            reflexivity|].
    intros Hn. rewrite <- Hs in Hn.
    generalize dependent s'. intros s' _ Hn.
    unfold handleEstimateCost_begin. rewrite Hn. reflexivity.
Qed.

End StartAndCost.

Lemma sample_load_failures_witness :
  urlToBase64 (Resolved {| ok := true; status := "200"; statusText := "OK" |})
    (Resolved "image/png"%string) (Resolved "garbled"%string) = None.
Proof.
  exact (proj1 (proj2 (sample_load_failures Sample.trim
                         (initialState Sample.page))
                  {| ok := true; status := "200"; statusText := "OK" |}
                  "image/png"%string "garbled"%string 0%nat
                  eq_refl eq_refl)).
Defined.
